(** * brcompat: the bridge-compatibility RPC channel of datapath/brcompat.c

    A shallow embedding of the synchronous request/reply channel that
    [brcompat.c] builds on generic netlink, and of the ioctl adapters that
    use it.  The file-scope statics ([brc_serial], [brc_done], [brc_reply],
    [brc_seq]) become one record that every function threads explicitly.
    Everything the kernel decides on its own (allocation failures, the return
    value of the multicast, which messages arrive and when) is an explicit
    argument of the function that consults it.

    Callers are serialised by [brc_serial], so the embedding runs one call at
    a time; the receive path runs at the points of a call where [brc_lock] is
    not held, and each section under [brc_lock] is one step. *)

From Stdlib Require Import ZArith List Bool Lia.
From Stdlib Require Import Strings.Byte.
From Stdlib Require Strings.String.
Import ListNotations.
Import String.StringSyntax.
Local Delimit Scope string_scope with string.
Local Open Scope Z_scope.

(** ** Machine integers *)

(** [u32]: the value of a C expression stored in a [u32]. *)
Definition u32 (z : Z) : Z := z mod 2 ^ 32.

(** [s32]: conversion of a value to C [int] (two's complement). *)
Definition s32 (z : Z) : Z := (z + 2 ^ 31) mod 2 ^ 32 - 2 ^ 31.

(** [sizeof(int)] on every Linux target. *)
Definition sizeof_int : Z := 4.

(** ** errno values (asm-generic/errno-base.h, errno.h) *)

Definition ENOMEM : Z := 12.
Definition EFAULT : Z := 14.
Definition EINVAL : Z := 22.
Definition ERANGE : Z := 34.
Definition ETIMEDOUT : Z := 110.
Definition ESTALE : Z := 116.

(** ** Bytes *)

Definition Z_of_byte (b : byte) : Z := Z.of_N (Byte.to_N b).

Definition byte_of_Z (z : Z) : byte :=
  match Byte.of_N (Z.to_N (z mod 256)) with
  | Some b => b
  | None => x00
  end.

(** Host byte order is little-endian. *)
Fixpoint le_decode (bs : list byte) : Z :=
  match bs with
  | [] => 0
  | b :: bs' => Z_of_byte b + 256 * le_decode bs'
  end.

Fixpoint le_encode (width : nat) (z : Z) : list byte :=
  match width with
  | O => []
  | S w => byte_of_Z z :: le_encode w (z / 256)
  end.

(** ** Netlink messages *)

(** The attribute and command enumerations of openvswitch/brcompat-netlink.h,
    with the enumerators that brcompat.c names. *)
Inductive brc_attr : Type :=
| BRC_GENL_A_DP_NAME
| BRC_GENL_A_PORT_NAME
| BRC_GENL_A_ERR_CODE
| BRC_GENL_A_MC_GROUP
| BRC_GENL_A_PROC_DIR
| BRC_GENL_A_PROC_NAME
| BRC_GENL_A_PROC_DATA
| BRC_GENL_A_FDB_COUNT
| BRC_GENL_A_FDB_SKIP
| BRC_GENL_A_FDB_DATA
| BRC_GENL_A_IFINDEXES.

Inductive brc_cmd : Type :=
| BRC_GENL_C_DP_ADD
| BRC_GENL_C_DP_DEL
| BRC_GENL_C_PORT_ADD
| BRC_GENL_C_PORT_DEL
| BRC_GENL_C_GET_BRIDGES
| BRC_GENL_C_GET_PORTS
| BRC_GENL_C_FDB_QUERY
| BRC_GENL_C_QUERY_MC
| BRC_GENL_C_DP_RESULT
| BRC_GENL_C_SET_PROC.

Definition brc_attr_eq_dec (a b : brc_attr) : {a = b} + {a <> b}.
Proof. decide equality. Defined.

(** One attribute of a message.  [nla_type] is [None] for a type number
    outside [1 .. BRC_GENL_A_MAX], which the parser skips. *)
Record nlattr : Type := mk_nlattr {
  nla_type : option brc_attr;
  nla_data : list byte
}.

Definition nla_len (a : nlattr) : Z := Z.of_nat (length (nla_data a)).

Definition nla_get_u32 (a : nlattr) : Z := le_decode (firstn 4 (nla_data a)).

(** A socket buffer holding one generic-netlink message. *)
Record sk_buff : Type := mk_skb {
  nlmsg_seq : Z;
  genl_cmd : brc_cmd;
  nlmsg_attrs : list nlattr
}.

Definition set_nlmsg_seq (skb : sk_buff) (seq : Z) : sk_buff :=
  {| nlmsg_seq := seq; genl_cmd := genl_cmd skb; nlmsg_attrs := nlmsg_attrs skb |}.

Definition nla_put (skb : sk_buff) (a : brc_attr) (payload : list byte) : sk_buff :=
  {| nlmsg_seq := nlmsg_seq skb; genl_cmd := genl_cmd skb;
     nlmsg_attrs := nlmsg_attrs skb ++ [mk_nlattr (Some a) payload] |}.

(** The attribute array [struct nlattr *attrs[BRC_GENL_A_MAX + 1]]. *)
Definition attr_table : Type := brc_attr -> option nlattr.

Definition tb_empty : attr_table := fun _ => None.

Definition tb_set (tb : attr_table) (a : brc_attr) (v : nlattr) : attr_table :=
  fun b => if brc_attr_eq_dec a b then Some v else tb b.

(** ** Attribute policy *)

Inductive nla_kind : Type := NLA_UNSPEC | NLA_U32 | NLA_NUL_STRING.

(** Entries the initialiser does not name are zero, that is [NLA_UNSPEC]. *)
Definition brc_genl_policy (a : brc_attr) : nla_kind :=
  match a with
  | BRC_GENL_A_ERR_CODE => NLA_U32
  | BRC_GENL_A_PROC_DIR => NLA_NUL_STRING
  | BRC_GENL_A_PROC_NAME => NLA_NUL_STRING
  | BRC_GENL_A_PROC_DATA => NLA_NUL_STRING
  | BRC_GENL_A_FDB_DATA => NLA_UNSPEC
  | _ => NLA_UNSPEC
  end.

Definition is_nul (b : byte) : bool :=
  match b with x00 => true | _ => false end.

(** The kernel's per-attribute check for the three kinds the policy uses:
    0 when the attribute is acceptable, a negative errno otherwise. *)
Definition validate_nla (policy : brc_attr -> nla_kind) (a : brc_attr) (nla : nlattr) : Z :=
  match policy a with
  | NLA_UNSPEC => 0
  | NLA_U32 => if nla_len nla <? 4 then - ERANGE else 0
  | NLA_NUL_STRING => if existsb is_nul (nla_data nla) then 0 else - EINVAL
  end.

(** The kernel's [nlmsg_parse]: clear the table, then walk the attributes;
    one that fails the policy stops the walk with its error and leaves the
    table as filled so far. *)
Fixpoint nla_parse (policy : brc_attr -> nla_kind) (nlas : list nlattr) (tb : attr_table)
  : Z * attr_table :=
  match nlas with
  | [] => (0, tb)
  | nla :: rest =>
      match nla_type nla with
      | None => nla_parse policy rest tb
      | Some a =>
          let err := validate_nla policy a nla in
          if err <? 0 then (err, tb) else nla_parse policy rest (tb_set tb a nla)
      end
  end.

Definition nlmsg_parse (skb : sk_buff) (policy : brc_attr -> nla_kind) : Z * attr_table :=
  nla_parse policy (nlmsg_attrs skb) tb_empty.

(** What generic netlink hands to a [doit] handler. *)
Record genl_info : Type := mk_info {
  snd_seq : Z;
  attrs : attr_table
}.

(** ** Module state *)

(** Kernel services whose use the properties below talk about. *)
Inductive kcall : Type :=
| K_genlmsg_new
| K_kfree_skb (skb : sk_buff)
| K_genlmsg_multicast (skb : sk_buff)
| K_wait_for_completion_timeout (timeout : Z)
| K_printk
| K_WARN_ON
| K_rtnl_unlock
| K_rtnl_lock.

Record brc_state : Type := mk_state {
  brc_serial : bool;            (* mutex held *)
  brc_done : Z;                 (* completion counter *)
  brc_reply : option sk_buff;   (* reply from userspace, NULL = None *)
  brc_seq : Z;                  (* sequence number for current op *)
  klog : list kcall             (* kernel services used so far, oldest first *)
}.

Definition set_serial (b : bool) (st : brc_state) : brc_state :=
  mk_state b (brc_done st) (brc_reply st) (brc_seq st) (klog st).
Definition set_done (d : Z) (st : brc_state) : brc_state :=
  mk_state (brc_serial st) d (brc_reply st) (brc_seq st) (klog st).
Definition set_reply (r : option sk_buff) (st : brc_state) : brc_state :=
  mk_state (brc_serial st) (brc_done st) r (brc_seq st) (klog st).
Definition set_seq (s : Z) (st : brc_state) : brc_state :=
  mk_state (brc_serial st) (brc_done st) (brc_reply st) s (klog st).
Definition kdo (k : kcall) (st : brc_state) : brc_state :=
  mk_state (brc_serial st) (brc_done st) (brc_reply st) (brc_seq st) (klog st ++ [k]).

(** The mutex is free when a call starts: calls run one at a time. *)
Definition mutex_lock : brc_state -> brc_state := set_serial true.
Definition mutex_unlock : brc_state -> brc_state := set_serial false.
Definition INIT_COMPLETION (st : brc_state) : brc_state := set_done 0 st.
Definition complete (st : brc_state) : brc_state := set_done (brc_done st + 1) st.
Definition kfree_skb (skb : sk_buff) : brc_state -> brc_state := kdo (K_kfree_skb skb).

(** State after [brc_init]: the statics are zero, except that the sequence
    number is randomised. *)
Definition brc_init (net_random : Z) : brc_state :=
  mk_state false 0 None (u32 net_random) [].

(** ** Inbound path *)

(** [skb_clone]: a copy of the buffer, or NULL when the allocation fails. *)
Definition skb_clone (skb : sk_buff) (alloc_ok : bool) : option sk_buff :=
  if alloc_ok then Some skb else None.

Definition brc_genl_dp_result (skb : sk_buff) (info : genl_info) (alloc_ok : bool)
  (st : brc_state) : Z * brc_state :=
  match attrs info BRC_GENL_A_ERR_CODE with
  | None => (- EINVAL, st)
  | Some _ =>
      match skb_clone skb alloc_ok with
      | None => (- ENOMEM, st)
      | Some skb =>
          if brc_seq st =? snd_seq info then
            let st := set_seq (u32 (brc_seq st + 1)) st in
            let st := match brc_reply st with
                      | Some old => kfree_skb old st
                      | None => st
                      end in
            let st := set_reply (Some skb) st in
            let st := complete st in
            (0, st)
          else
            (- ESTALE, kfree_skb skb st)
      end
  end.

(** One message arriving for the [BRC_GENL_C_DP_RESULT] operation, together
    with the outcome of the allocation that [skb_clone] will attempt. *)
Record delivery : Type := mk_delivery {
  dl_skb : sk_buff;
  dl_alloc_ok : bool
}.

(** Generic netlink's receive path for [brc_genl_ops_dp_result]: parse the
    attributes against the operation's policy, and call [doit] only when
    that succeeds. *)
Definition genl_rcv_msg (d : delivery) (st : brc_state) : Z * brc_state :=
  let (err, tb) := nlmsg_parse (dl_skb d) brc_genl_policy in
  if err <? 0 then (err, st)
  else brc_genl_dp_result (dl_skb d) (mk_info (nlmsg_seq (dl_skb d)) tb) (dl_alloc_ok d) st.

Definition deliver_all (ds : list delivery) (st : brc_state) : brc_state :=
  fold_left (fun s d => snd (genl_rcv_msg d s)) ds st.

(** ** Outbound path *)

(** What the rest of the system does during one call: the messages that the
    receive path handles between the stamping of the request and the
    multicast, the return value of [genlmsg_multicast], the messages that
    arrive while the caller waits (each with its arrival time in jiffies
    since the wait began, oldest first), and the messages handled between
    the wake-up and the moment the caller takes the reply. *)
Record rpc_env : Type := mk_env {
  before_send : list delivery;
  multicast_ret : Z;
  arrivals : list (Z * delivery);
  before_grab : list delivery
}.

(** [wait_for_completion_timeout]: 0 when the timer expires first, the
    jiffies left (at least 1) otherwise.  A message that arrives at or after
    [timeout] is not seen by the waiter. *)
Fixpoint wait_for_completion_timeout (timeout now : Z) (arr : list (Z * delivery))
  (st : brc_state) : Z * brc_state :=
  if 0 <? brc_done st then (Z.max 1 (timeout - now), set_done (brc_done st - 1) st)
  else
    match arr with
    | [] => (0, st)
    | (t, d) :: arr' =>
        if t <? timeout
        then wait_for_completion_timeout timeout t arr' (snd (genl_rcv_msg d st))
        else (0, st)
    end.

(** The critical section at the head of [brc_send_command]:
    [nlmsg_hdr(request)->nlmsg_seq = ++brc_seq; INIT_COMPLETION(brc_done);] *)
Definition brc_send_prologue (request : sk_buff) (st : brc_state) : sk_buff * brc_state :=
  let st := set_seq (u32 (brc_seq st + 1)) st in
  let request := set_nlmsg_seq request (brc_seq st) in
  let st := INIT_COMPLETION st in
  (request, st).

(** Result of [brc_send_command]: an [ERR_PTR], or the reply with the
    attribute array filled by the re-parse.  [SR_oops] is the dereference of
    a NULL [brc_reply]. *)
Inductive send_result : Type :=
| SR_err (e : Z)
| SR_reply (reply : sk_buff) (tb : attr_table)
| SR_oops.

(** Return value of an ioctl helper; [Oops] is a NULL dereference. *)
Inductive outcome : Type :=
| Ret (v : Z)
| Oops.

(** What the allocator decides while a request is built. *)
Record alloc_env : Type := mk_alloc {
  genlmsg_new_ok : bool;
  nla_put_ok : bool
}.

Definition cstring (s : String.string) : list byte :=
  String.list_byte_of_string s ++ [x00].

Definition NLA_PUT_STRING (skb : sk_buff) (a : brc_attr) (s : option String.string) : sk_buff :=
  match s with
  | Some str => nla_put skb a (cstring str)
  | None => skb
  end.

Definition brc_make_request (op : brc_cmd) (bridge port : option String.string)
  (ae : alloc_env) (st : brc_state) : option sk_buff * brc_state :=
  if genlmsg_new_ok ae then
    let st := kdo K_genlmsg_new st in
    let skb := mk_skb 0 op [] in
    match bridge, port with
    | None, None => (Some skb, st)
    | _, _ =>
        if nla_put_ok ae
        then (Some (NLA_PUT_STRING (NLA_PUT_STRING skb BRC_GENL_A_DP_NAME bridge)
                      BRC_GENL_A_PORT_NAME port), st)
        else (None, kfree_skb skb st)
    end
  else (None, st).

(** [copy_to_user]: the caller's buffer is the list of bytes that can be
    written at the destination; the result is the number of bytes that could
    not be copied, and the buffer afterwards. *)
Definition copy_to_user (ubuf : list byte) (src : list byte) (n : Z) : Z * list byte :=
  let room := Z.of_nat (length ubuf) in
  if n <=? room
  then (0, firstn (Z.to_nat n) src ++ skipn (Z.to_nat n) ubuf)
  else (n - room, firstn (length ubuf) src).

Section Channel.

(** Kernel configuration constants. *)
Variable HZ : Z.
Variable PAGE_SIZE : Z.
Variable sizeof_fdb_entry : Z.

Definition BRC_TIMEOUT : Z := HZ * 5.

Definition brc_send_command (request : sk_buff) (env : rpc_env) (st : brc_state)
  : send_result * brc_state :=
  let st := mutex_lock st in
  let (request, st) := brc_send_prologue request st in
  let st := deliver_all (before_send env) st in
  let error := multicast_ret env in
  let st := kdo (K_genlmsg_multicast request) st in
  if error <? 0 then (SR_err error, mutex_unlock st)
  else
    let st := kdo (K_wait_for_completion_timeout BRC_TIMEOUT) st in
    let (left, st) := wait_for_completion_timeout BRC_TIMEOUT 0 (arrivals env) st in
    if left =? 0 then (SR_err (- ETIMEDOUT), mutex_unlock (kdo K_printk st))
    else
      let st := deliver_all (before_grab env) st in
      let reply := brc_reply st in
      let st := set_reply None st in
      let st := mutex_unlock st in
      match reply with
      | None => (SR_oops, st)
      | Some reply =>
          let (error, tb) := nlmsg_parse reply brc_genl_policy in
          (SR_reply reply tb, if error =? 0 then st else kdo K_WARN_ON st)
      end.

Definition brc_send_simple_command (request : sk_buff) (env : rpc_env) (st : brc_state)
  : outcome * brc_state :=
  match brc_send_command request env st with
  | (SR_err e, st) => (Ret e, st)
  | (SR_oops, st) => (Oops, st)
  | (SR_reply reply tb, st) =>
      match tb BRC_GENL_A_ERR_CODE with
      | None => (Oops, st)
      | Some ec =>
          let error := s32 (nla_get_u32 ec) in
          (Ret (s32 (- error)), kfree_skb reply st)
      end
  end.

Definition brc_get_indices (op : brc_cmd) (br_name : option String.string)
  (uindices : list byte) (n : Z) (ae : alloc_env) (env : rpc_env) (st : brc_state)
  : outcome * list byte * brc_state :=
  if n <? 0 then (Ret (- EINVAL), uindices, st)
  else if n >=? 2048 then (Ret (- ENOMEM), uindices, st)
  else
    match brc_make_request op br_name None ae st with
    | (None, st) => (Ret (- ENOMEM), uindices, st)
    | (Some request, st) =>
        match brc_send_command request env st with
        | (SR_err e, st) => (Ret e, uindices, st)
        | (SR_oops, st) => (Oops, uindices, st)
        | (SR_reply reply tb, st) =>
            match tb BRC_GENL_A_ERR_CODE with
            | None => (Oops, uindices, st)
            | Some ec =>
                let ret := s32 (u32 (- nla_get_u32 ec)) in
                if ret <? 0 then (Ret ret, uindices, kfree_skb reply st)
                else
                  match tb BRC_GENL_A_IFINDEXES with
                  | None => (Ret (- EINVAL), uindices, kfree_skb reply st)
                  | Some ix =>
                      let len := nla_len ix in
                      let indices := nla_data ix in
                      if negb (len mod sizeof_int =? 0)
                      then (Ret (- EINVAL), uindices, kfree_skb reply st)
                      else
                        let n := Z.min n (len / sizeof_int) in
                        let (left, uindices) := copy_to_user uindices indices (n * sizeof_int) in
                        (Ret (if negb (left =? 0) then - EFAULT else n),
                         uindices, kfree_skb reply st)
                  end
            end
        end
    end.

Definition brc_get_bridges (uindices : list byte) (n : Z) :=
  brc_get_indices BRC_GENL_C_GET_BRIDGES None uindices n.

Definition brc_get_port_list (dev_name : String.string) (uindices : list byte) (num : Z)
  (ae : alloc_env) (env : rpc_env) (st : brc_state) : outcome * list byte * brc_state :=
  let st := kdo K_rtnl_unlock st in
  let '(retval, uindices, st) :=
    brc_get_indices BRC_GENL_C_GET_PORTS (Some dev_name) uindices num ae env st in
  (retval, uindices, kdo K_rtnl_lock st).

(** The limit applied to [maxnum]: a page worth of entries. *)
Definition fdb_clamp (maxnum : Z) : Z :=
  if maxnum >? PAGE_SIZE / sizeof_fdb_entry then PAGE_SIZE / sizeof_fdb_entry else maxnum.

Definition brc_get_fdb_entries (dev_name : String.string) (userbuf : list byte)
  (maxnum offset : Z) (ae : alloc_env) (put_u64_ok : bool) (env : rpc_env)
  (st : brc_state) : outcome * list byte * brc_state :=
  let maxnum := fdb_clamp maxnum in
  match brc_make_request BRC_GENL_C_FDB_QUERY (Some dev_name) None ae st with
  | (None, st) => (Ret (- ENOMEM), userbuf, st)
  | (Some request, st) =>
      if negb put_u64_ok then (Ret (- ENOMEM), userbuf, kfree_skb request st)
      else
        let request := nla_put request BRC_GENL_A_FDB_COUNT (le_encode 8 maxnum) in
        let request := nla_put request BRC_GENL_A_FDB_SKIP (le_encode 8 offset) in
        let st := kdo K_rtnl_unlock st in
        match brc_send_command request env st with
        | (SR_err e, st) => (Ret e, userbuf, kdo K_rtnl_lock st)
        | (SR_oops, st) => (Oops, userbuf, st)
        | (SR_reply reply tb, st) =>
            match tb BRC_GENL_A_ERR_CODE with
            | None => (Oops, userbuf, st)
            | Some ec =>
                let retval := s32 (u32 (- nla_get_u32 ec)) in
                if retval <? 0
                then (Ret retval, userbuf, kdo K_rtnl_lock (kfree_skb reply st))
                else
                  match tb BRC_GENL_A_FDB_DATA with
                  | None => (Ret (- EINVAL), userbuf, kdo K_rtnl_lock (kfree_skb reply st))
                  | Some fd =>
                      let len := nla_len fd in
                      if negb (len mod sizeof_fdb_entry =? 0)
                         || (len / sizeof_fdb_entry >? maxnum)
                      then (Ret (- EINVAL), userbuf, kdo K_rtnl_lock (kfree_skb reply st))
                      else
                        let retval := len / sizeof_fdb_entry in
                        let (left, userbuf) := copy_to_user userbuf (nla_data fd) len in
                        (Ret (if negb (left =? 0) then - EFAULT else retval),
                         userbuf, kdo K_rtnl_lock (kfree_skb reply st))
                  end
            end
        end
  end.

End Channel.

(** ** Event sequences *)

(** The two places that write [brc_seq]: a caller stamping a request, and
    the receive path handling a message. *)
Inductive event : Type :=
| EvSend (request : sk_buff)
| EvInbound (d : delivery).

Definition step (e : event) (st : brc_state) : brc_state :=
  match e with
  | EvSend request => snd (brc_send_prologue request st)
  | EvInbound d => snd (genl_rcv_msg d st)
  end.

Definition run (evs : list event) (st : brc_state) : brc_state :=
  fold_left (fun s e => step e s) evs st.

(** Whole calls interleaved with messages that arrive between calls. *)
Inductive activity : Type :=
| ActCall (request : sk_buff) (env : rpc_env)
| ActInbound (d : delivery).

Definition act (HZ : Z) (a : activity) (st : brc_state) : brc_state :=
  match a with
  | ActCall request env => snd (brc_send_command HZ request env st)
  | ActInbound d => snd (genl_rcv_msg d st)
  end.

Definition history (HZ : Z) (acts : list activity) (st : brc_state) : brc_state :=
  fold_left (fun s a => act HZ a s) acts st.

(** ** Bridges, ports and bridge information *)

(** [IFNAMSIZ] of linux/if.h and [ETH_ALEN] of linux/if_ether.h. *)
Definition IFNAMSIZ : Z := 16.
Definition ETH_ALEN : Z := 6.

(** [copy_from_user]: [src] is the list of bytes that can be read at the
    source; the result is the number of bytes that could not be copied, and
    the kernel buffer of [n] bytes, zero where nothing was copied. *)
Definition copy_from_user (src : list byte) (n : Z) : Z * list byte :=
  let room := Z.of_nat (length src) in
  if n <=? room
  then (0, firstn (Z.to_nat n) src)
  else (n - room, src ++ repeat x00 (Z.to_nat (n - room))).

(** [buf[i] = b]. *)
Definition store_byte (buf : list byte) (i : nat) (b : byte) : list byte :=
  firstn i buf ++ b :: skipn (S i) buf.

(** The C string that starts a character array. *)
Fixpoint until_nul (bs : list byte) : list byte :=
  match bs with
  | [] => []
  | b :: rest => if is_nul b then [] else b :: until_nul rest
  end.

Definition c_string (buf : list byte) : String.string :=
  String.string_of_list_byte (until_nul buf).

(** The two members of [struct net_device] that brcompat.c reads. *)
Record net_device : Type := mk_dev {
  dev_name : String.string;
  dev_addr : list byte
}.

(** The two members of [struct __bridge_info] that [brc_get_bridge_info]
    assigns, [bridge_id] as the eight bytes it occupies in memory; [memset]
    leaves every other member zero. *)
Record bridge_info : Type := mk_bridge_info {
  bridge_id : list byte;
  stp_enabled : Z
}.

(** [cpu_to_be64]: the bytes of the value, most significant first. *)
Definition cpu_to_be64 (v : Z) : list byte := rev (le_encode 8 v).

(** The loop of [brc_get_bridge_info], [todo] iterations from index [i]:
    [id |= (u64)dev->dev_addr[i] << (8*(ETH_ALEN-1 - i))]. *)
Fixpoint bridge_id_loop (addr : list byte) (i todo : nat) (id : Z) : Z :=
  match todo with
  | O => id
  | S todo' =>
      bridge_id_loop addr (S i) todo'
        (Z.lor id (Z.shiftl (Z_of_byte (nth i addr x00))
                     (8 * (ETH_ALEN - 1 - Z.of_nat i))))
  end.

(** [ub_writable]: whether the whole structure can be written at [ub]. *)
Definition brc_get_bridge_info (dev : net_device) (ub_writable : bool)
  : Z * option bridge_info :=
  let id := bridge_id_loop (dev_addr dev) 0 (Z.to_nat ETH_ALEN) 0 in
  let b := mk_bridge_info (cpu_to_be64 id) 0 in
  if ub_writable then (0, Some b) else (- EFAULT, None).

Section Adapters.

Variable HZ : Z.

(** The device table that [__dev_get_by_index(&init_net, ...)] searches. *)
Variable init_net : Z -> option net_device.

Definition brc_add_del_bridge (uname : list byte) (add : Z) (ae : alloc_env)
  (env : rpc_env) (st : brc_state) : outcome * brc_state :=
  let (left, name) := copy_from_user uname IFNAMSIZ in
  if negb (left =? 0) then (Ret (- EFAULT), st)
  else
    let name := store_byte name (Z.to_nat (IFNAMSIZ - 1)) x00 in
    match brc_make_request
            (if negb (add =? 0) then BRC_GENL_C_DP_ADD else BRC_GENL_C_DP_DEL)
            (Some (c_string name)) None ae st with
    | (None, st) => (Ret (- ENOMEM), st)
    | (Some request, st) => brc_send_simple_command HZ request env st
    end.

Definition brc_add_del_port (dev : net_device) (port_ifindex : Z) (add : Z)
  (ae : alloc_env) (env : rpc_env) (st : brc_state) : outcome * brc_state :=
  match init_net port_ifindex with
  | None => (Ret (- EINVAL), st)
  | Some port =>
      match brc_make_request
              (if negb (add =? 0) then BRC_GENL_C_PORT_ADD else BRC_GENL_C_PORT_DEL)
              (Some (dev_name dev)) (Some (dev_name port)) ae st with
      | (None, st) => (Ret (- ENOMEM), st)
      | (Some request, st) =>
          let st := kdo K_rtnl_unlock st in
          let (err, st) := brc_send_simple_command HZ request env st in
          (err, kdo K_rtnl_lock st)
      end
  end.

End Adapters.

(** ** Ethernet, IP and TCP header helpers of packets.h *)

(** [ea[i]] as an integer. *)
Definition ea_at (ea : list byte) (i : nat) : Z := Z_of_byte (nth i ea x00).

Definition eth_addr_is_broadcast (ea : list byte) : bool :=
  Z.land (Z.land (Z.land (Z.land (Z.land (ea_at ea 0) (ea_at ea 1)) (ea_at ea 2))
                    (ea_at ea 3)) (ea_at ea 4)) (ea_at ea 5) =? 255.

Definition eth_addr_is_multicast (ea : list byte) : bool :=
  negb (Z.land (ea_at ea 0) 1 =? 0).

Definition eth_addr_is_local (ea : list byte) : bool :=
  negb (Z.land (ea_at ea 0) 2 =? 0).

Definition IP_VER (ip_ihl_ver : Z) : Z := Z.shiftr ip_ihl_ver 4.
Definition IP_IHL (ip_ihl_ver : Z) : Z := Z.land ip_ihl_ver 15.

(** [htons] on a little-endian host: the two bytes change places. *)
Definition htons (x : Z) : Z :=
  Z.lor (Z.shiftl (Z.land x 255) 8) (Z.land (Z.shiftr x 8) 255).

Definition TCP_FIN : Z := 1.
Definition TCP_SYN : Z := 2.
Definition TCP_RST : Z := 4.
Definition TCP_PSH : Z := 8.
Definition TCP_ACK : Z := 16.
Definition TCP_URG : Z := 32.

Definition TCP_FLAGS (tcp_ctl : Z) : Z := Z.land (htons tcp_ctl) 63.
Definition TCP_OFFSET (tcp_ctl : Z) : Z := Z.shiftr (htons tcp_ctl) 12.

(** ** Vocabulary of the properties *)

(** A message is well formed for the reply operation when it parses against
    [brc_genl_policy] and carries the error-code attribute. *)
Definition parses (skb : sk_buff) : bool :=
  negb (fst (nlmsg_parse skb brc_genl_policy) <? 0).

Definition has_err_code (skb : sk_buff) : bool :=
  match snd (nlmsg_parse skb brc_genl_policy) BRC_GENL_A_ERR_CODE with
  | Some _ => true
  | None => false
  end.

Definition well_formed (skb : sk_buff) : bool := parses skb && has_err_code skb.

(** A reply that matches sequence number [seq]. *)
Definition matching_reply (seq : Z) (skb : sk_buff) : bool :=
  well_formed skb && (nlmsg_seq skb =? seq).

(** The receive path stores the message of [d] in state [st]. *)
Definition accepts (d : delivery) (st : brc_state) : bool :=
  well_formed (dl_skb d) && dl_alloc_ok d && (brc_seq st =? nlmsg_seq (dl_skb d)).

(** State after the handler has accepted [skb]. *)
Definition accepted (skb : sk_buff) (st : brc_state) : brc_state :=
  mk_state (brc_serial st) (brc_done st + 1) (Some skb) (u32 (brc_seq st + 1))
    (klog st ++ match brc_reply st with
                | Some old => [K_kfree_skb old]
                | None => []
                end).

(** Requests handed to the transport, and waits entered, in a log. *)
Fixpoint sent_requests (l : list kcall) : list sk_buff :=
  match l with
  | [] => []
  | K_genlmsg_multicast skb :: l' => skb :: sent_requests l'
  | _ :: l' => sent_requests l'
  end.

Fixpoint waits (l : list kcall) : list Z :=
  match l with
  | [] => []
  | K_wait_for_completion_timeout t :: l' => t :: waits l'
  | _ :: l' => waits l'
  end.

(** [st'] has the mutex, the transmissions and the waits of [st]. *)
Definition same_traffic (st st' : brc_state) : Prop :=
  brc_serial st' = brc_serial st /\
  sent_requests (klog st') = sent_requests (klog st) /\
  waits (klog st') = waits (klog st).

(** [st'] has the sequence number, the slot and the completion of [st]. *)
Definition same_shared (st st' : brc_state) : Prop :=
  brc_seq st' = brc_seq st /\
  brc_reply st' = brc_reply st /\
  brc_done st' = brc_done st.

(** The request as stamped by [brc_send_command], and the module state at
    the moment the stamped request is handed to the transport. *)
Definition stamped (request : sk_buff) (st : brc_state) : sk_buff :=
  fst (brc_send_prologue request (mutex_lock st)).

Definition at_multicast (request : sk_buff) (env : rpc_env) (st : brc_state) : brc_state :=
  deliver_all (before_send env) (snd (brc_send_prologue request (mutex_lock st))).

(** The request of a forwarding-table query once the count and the offset
    have been put into it. *)
Definition fdb_request (PAGE_SIZE sizeof_fdb_entry : Z) (request : sk_buff)
  (maxnum offset : Z) : sk_buff :=
  nla_put
    (nla_put request BRC_GENL_A_FDB_COUNT
       (le_encode 8 (fdb_clamp PAGE_SIZE sizeof_fdb_entry maxnum)))
    BRC_GENL_A_FDB_SKIP (le_encode 8 offset).

(** Does event [e] write [brc_seq] in state [st]? *)
Definition advances_seq (e : event) (st : brc_state) : bool :=
  match e with
  | EvSend _ => true
  | EvInbound d => accepts d st
  end.

(** Number of writes to [brc_seq] along a sequence of events. *)
Fixpoint advances (evs : list event) (st : brc_state) : Z :=
  match evs with
  | [] => 0
  | e :: evs' => (if advances_seq e st then 1 else 0) + advances evs' (step e st)
  end.

(** Every reply held in the slot is well formed. *)
Definition slot_valid (st : brc_state) : Prop :=
  forall r, brc_reply st = Some r -> well_formed r = true.

(** The messages handed to the receive path in the course of one call. *)
Definition deliveries_of (env : rpc_env) : list delivery :=
  before_send env ++ map snd (arrivals env) ++ before_grab env.

(** The slot holds the message of a delivery from [ds] that the handler
    accepted last: it was well formed, its clone was allocated, and
    [brc_seq] is one past its sequence number. *)
Definition answered_by (ds : list delivery) (st : brc_state) : Prop :=
  exists d, In d ds /\
            brc_reply st = Some (dl_skb d) /\
            well_formed (dl_skb d) = true /\
            dl_alloc_ok d = true /\
            brc_seq st = u32 (nlmsg_seq (dl_skb d) + 1).

(** What holds of the module between two calls. *)
Definition at_rest (st : brc_state) : Prop :=
  brc_serial st = false /\
  0 <= brc_seq st < 2 ^ 32 /\
  0 <= brc_done st /\
  slot_valid st.

(** The two counters are within their types. *)
Definition counters_ok (st : brc_state) : Prop :=
  0 <= brc_seq st < 2 ^ 32 /\ 0 <= brc_done st.

(** The log entries that show when rtnl is held and when a request goes to
    the transport. *)
Definition rtnl_or_wire (k : kcall) : bool :=
  match k with
  | K_rtnl_lock | K_rtnl_unlock | K_genlmsg_multicast _ => true
  | _ => false
  end.

(** Every entry of an attribute table passed the policy under its own type
    and is an attribute of the message. *)
Definition table_checked (policy : brc_attr -> nla_kind) (nlas : list nlattr)
  (tb : attr_table) : Prop :=
  forall a nla, tb a = Some nla ->
    nla_type nla = Some a /\ validate_nla policy a nla = 0 /\ In nla nlas.

(** ** Sample data *)

Definition err_code_attr (v : Z) : nlattr :=
  mk_nlattr (Some BRC_GENL_A_ERR_CODE) (le_encode 4 v).

Definition ifindexes_attr (ixs : list Z) : nlattr :=
  mk_nlattr (Some BRC_GENL_A_IFINDEXES) (flat_map (le_encode 4) ixs).

Definition fdb_data_attr (nbytes : nat) : nlattr :=
  mk_nlattr (Some BRC_GENL_A_FDB_DATA) (repeat x01 nbytes).

(** A result message from userspace: sequence number, error code, and
    whatever else it carries. *)
Definition sample_reply (seq err : Z) (extra : list nlattr) : sk_buff :=
  mk_skb seq BRC_GENL_C_DP_RESULT (err_code_attr err :: extra).

(** A result message without the error code. *)
Definition sample_bare (seq : Z) : sk_buff :=
  mk_skb seq BRC_GENL_C_DP_RESULT [ifindexes_attr [1; 2]].

(** A result message whose error code is two bytes short. *)
Definition sample_short (seq : Z) : sk_buff :=
  mk_skb seq BRC_GENL_C_DP_RESULT [mk_nlattr (Some BRC_GENL_A_ERR_CODE) [x00; x00]].

Definition sample_request : sk_buff :=
  mk_skb 0 BRC_GENL_C_DP_ADD [mk_nlattr (Some BRC_GENL_A_DP_NAME) (cstring "br0"%string)].

(** Nothing arrives and the multicast succeeds. *)
Definition env_silent : rpc_env := mk_env [] 0 [] [].

(** The multicast succeeds and [skb] arrives [t] jiffies into the wait. *)
Definition env_answer (t : Z) (skb : sk_buff) : rpc_env :=
  mk_env [] 0 [(t, mk_delivery skb true)] [].

(** The module just loaded, with 6 drawn as first sequence number. *)
Definition st_fresh : brc_state := brc_init 6.

(** A well-formed reply numbered 6, clonable or not, and a message numbered
    6 without error code. *)
Definition dl_current : delivery := mk_delivery (sample_reply 6 0 []) true.
Definition dl_unclonable : delivery := mk_delivery (sample_reply 6 0 []) false.
Definition dl_bare : delivery := mk_delivery (sample_bare 6) true.

(** A reply numbered 7 that clones, and one that comes too late: the caller
    has given up, then the reply to its request is delivered. *)
Definition dl_seven : delivery := mk_delivery (sample_reply 7 0 []) true.

Definition env_late : rpc_env :=
  mk_env [] 0 [(10, mk_delivery (sample_reply 9 0 []) true); (600, dl_seven)] [].

Definition st_late : brc_state :=
  history 100 [ActCall sample_request env_silent; ActInbound dl_seven] st_fresh.

Definition ten_indices : list Z := [11; 12; 13; 14; 15; 16; 17; 18; 19; 20].

(** A caller buffer with room for [n] indices. *)
Definition user_ints (n : nat) : list byte := repeat x00 (4 * n).

(** Replies to the first call after [st_fresh] that list ten indices, with
    error code 0 and with error code 19. *)
Definition env_ten_indices : rpc_env :=
  env_answer 3 (sample_reply 7 0 [ifindexes_attr ten_indices]).

Definition env_ten_indices_failed : rpc_env :=
  env_answer 3 (sample_reply 7 19 [ifindexes_attr ten_indices]).

(** Replies to the first forwarding-table query after [st_fresh]: error code
    5 with three bytes of data, error code 0 with three bytes of data, and
    error code 0 with two entries of 16 bytes. *)
Definition env_fdb_failed : rpc_env := env_answer 3 (sample_reply 7 5 [fdb_data_attr 3]).
Definition env_fdb_ragged : rpc_env := env_answer 3 (sample_reply 7 0 [fdb_data_attr 3]).
Definition env_fdb_two : rpc_env := env_answer 3 (sample_reply 7 0 [fdb_data_attr 32]).

(** The request built for a forwarding-table query on "br0". *)
Definition fdb_query_request : sk_buff :=
  mk_skb 0 BRC_GENL_C_FDB_QUERY
    [mk_nlattr (Some BRC_GENL_A_DP_NAME) (cstring "br0"%string)].

Definition alloc_fine : alloc_env := mk_alloc true true.

(** A set completion means a reply is waiting in the slot. *)
Definition call_ready (st : brc_state) : Prop :=
  0 < brc_done st -> brc_reply st <> None.

(** Two devices: a bridge and a port with interface index 3. *)
Definition dev_br0 : net_device :=
  mk_dev "br0"%string [x00; x23; x20; xaa; xbb; xcc].
Definition dev_eth1 : net_device :=
  mk_dev "eth1"%string [x00; x23; x20; x01; x02; x03].
Definition sample_net (ifindex : Z) : option net_device :=
  if ifindex =? 3 then Some dev_eth1 else None.

(** A user buffer of twenty bytes holding a name longer than an interface
    name may be. *)
Definition long_name : list byte :=
  String.list_byte_of_string "bridge-number-sixteen"%string.

(** * Properties *)

(** ** Arithmetic and the parser *)

Lemma u32_range (z : Z) : 0 <= u32 z < 2 ^ 32.
Proof. unfold u32. apply Z.mod_pos_bound. lia. Qed.

Lemma u32_small (z : Z) : 0 <= z < 2 ^ 32 -> u32 z = z.
Proof. intros H. unfold u32. apply Z.mod_small. exact H. Qed.

Lemma u32_add_l (a b : Z) : u32 (u32 a + b) = u32 (a + b).
Proof. unfold u32. apply Zplus_mod_idemp_l. Qed.

Lemma validate_nla_nonpos policy a nla : validate_nla policy a nla <= 0.
Proof.
  unfold validate_nla.
  destruct (policy a); try lia.
  - destruct (nla_len nla <? 4); unfold ERANGE; lia.
  - destruct (existsb is_nul (nla_data nla)); unfold EINVAL; lia.
Qed.

Lemma nla_parse_nonpos policy nlas : forall tb, fst (nla_parse policy nlas tb) <= 0.
Proof.
  induction nlas as [|nla rest IH]; intros tb; simpl.
  - lia.
  - destruct (nla_type nla) as [a|]; [|apply IH].
    destruct (validate_nla policy a nla <? 0) eqn:E.
    + simpl. apply Z.ltb_lt in E. lia.
    + apply IH.
Qed.

Lemma parses_err_zero skb :
  parses skb = true -> fst (nlmsg_parse skb brc_genl_policy) = 0.
Proof.
  unfold parses. intros H. apply negb_true_iff, Z.ltb_ge in H.
  pose proof (nla_parse_nonpos brc_genl_policy (nlmsg_attrs skb) tb_empty) as Hle.
  unfold nlmsg_parse in *. lia.
Qed.

Lemma well_formed_parse skb :
  well_formed skb = true ->
  exists tb nla, nlmsg_parse skb brc_genl_policy = (0, tb) /\
                 tb BRC_GENL_A_ERR_CODE = Some nla.
Proof.
  unfold well_formed, has_err_code. intros H.
  apply andb_true_iff in H. destruct H as [Hp He].
  apply parses_err_zero in Hp.
  destruct (nlmsg_parse skb brc_genl_policy) as [err tb] eqn:E. simpl in *.
  destruct (tb BRC_GENL_A_ERR_CODE) as [nla|] eqn:Et; [|discriminate].
  exists tb, nla. subst err. auto.
Qed.

(** ** The receive path, case by case *)

Lemma genl_rcv_msg_malformed d st :
  well_formed (dl_skb d) = false ->
  genl_rcv_msg d st = (fst (genl_rcv_msg d st), st) /\
  fst (genl_rcv_msg d st) < 0 /\
  (parses (dl_skb d) = true -> fst (genl_rcv_msg d st) = - EINVAL).
Proof.
  unfold well_formed, parses, has_err_code, genl_rcv_msg, brc_genl_dp_result.
  destruct (nlmsg_parse (dl_skb d) brc_genl_policy) as [err tb]. simpl.
  destruct (err <? 0) eqn:E; simpl.
  - intros _. apply Z.ltb_lt in E. repeat split; [exact E | discriminate].
  - destruct (tb BRC_GENL_A_ERR_CODE); [discriminate|].
    intros _. simpl. unfold EINVAL. repeat split; lia.
Qed.

Lemma genl_rcv_msg_no_memory d st :
  well_formed (dl_skb d) = true -> dl_alloc_ok d = false ->
  genl_rcv_msg d st = (- ENOMEM, st).
Proof.
  intros Hwf Ha. destruct (well_formed_parse _ Hwf) as (tb & nla & Hp & He).
  unfold genl_rcv_msg, brc_genl_dp_result. rewrite Hp. simpl.
  rewrite He, Ha. reflexivity.
Qed.

Lemma genl_rcv_msg_accept d st :
  well_formed (dl_skb d) = true -> dl_alloc_ok d = true ->
  nlmsg_seq (dl_skb d) = brc_seq st ->
  genl_rcv_msg d st = (0, accepted (dl_skb d) st).
Proof.
  intros Hwf Ha Hs. destruct (well_formed_parse _ Hwf) as (tb & nla & Hp & He).
  unfold genl_rcv_msg, brc_genl_dp_result. rewrite Hp. simpl.
  rewrite He, Ha. simpl. rewrite Hs, Z.eqb_refl.
  unfold accepted, complete, set_reply, set_seq, kfree_skb, kdo.
  destruct st as [m dn [old|] sq lg]; simpl in *; subst;
    rewrite ?app_nil_r; reflexivity.
Qed.

Lemma genl_rcv_msg_stale d st :
  well_formed (dl_skb d) = true -> dl_alloc_ok d = true ->
  nlmsg_seq (dl_skb d) <> brc_seq st ->
  genl_rcv_msg d st = (- ESTALE, kfree_skb (dl_skb d) st).
Proof.
  intros Hwf Ha Hs. destruct (well_formed_parse _ Hwf) as (tb & nla & Hp & He).
  unfold genl_rcv_msg, brc_genl_dp_result. rewrite Hp. simpl.
  rewrite He, Ha. simpl.
  destruct (brc_seq st =? nlmsg_seq (dl_skb d)) eqn:E; [|reflexivity].
  apply Z.eqb_eq in E. congruence.
Qed.

(** The four cases together: what the receive path leaves behind. *)
Lemma genl_rcv_msg_cases d st :
  (accepts d st = true /\ genl_rcv_msg d st = (0, accepted (dl_skb d) st)) \/
  (accepts d st = false /\ fst (genl_rcv_msg d st) < 0 /\
   (snd (genl_rcv_msg d st) = st \/
    snd (genl_rcv_msg d st) = kfree_skb (dl_skb d) st)).
Proof.
  unfold accepts.
  destruct (well_formed (dl_skb d)) eqn:Hwf; simpl.
  - destruct (dl_alloc_ok d) eqn:Ha; simpl.
    + destruct (brc_seq st =? nlmsg_seq (dl_skb d)) eqn:E.
      * left. split; [reflexivity|]. apply Z.eqb_eq in E.
        apply genl_rcv_msg_accept; auto.
      * right. apply Z.eqb_neq in E.
        rewrite genl_rcv_msg_stale by auto. simpl. unfold ESTALE.
        repeat split; auto; lia.
    + right. rewrite genl_rcv_msg_no_memory by auto. simpl. unfold ENOMEM.
      repeat split; auto; lia.
  - right. destruct (genl_rcv_msg_malformed d st Hwf) as (H1 & H2 & _).
    repeat split; auto. left. rewrite H1. reflexivity.
Qed.

Lemma brc_genl_dp_result_no_err_code skb info ok st :
  attrs info BRC_GENL_A_ERR_CODE = None ->
  brc_genl_dp_result skb info ok st = (- EINVAL, st).
Proof. intros H. unfold brc_genl_dp_result. rewrite H. reflexivity. Qed.

Lemma accepts_iff_returns_zero d st :
  fst (genl_rcv_msg d st) = 0 <-> accepts d st = true.
Proof.
  destruct (genl_rcv_msg_cases d st) as [[Ha He]|(Ha & Hneg & _)].
  - rewrite He, Ha. simpl. tauto.
  - rewrite Ha. split; [lia | discriminate].
Qed.

(** ** The inbound handler *)

(** C1 (amended).  For a well-formed reply whose buffer can be cloned, the
    receive path accepts it (returns 0) exactly when its sequence number
    equals [brc_seq]; on acceptance [brc_seq] advances by one modulo 2^32,
    the previous slot contents are freed, the message becomes the slot
    contents and the completion is signalled; on mismatch the copy is freed,
    nothing else changes and the result is [-ESTALE].  When the clone cannot
    be allocated the result is [-ENOMEM] and nothing changes. *)
Theorem C1_reply_accepted_iff_current_seq (d : delivery) (st : brc_state) :
  well_formed (dl_skb d) = true ->
  (dl_alloc_ok d = true ->
     (fst (genl_rcv_msg d st) = 0 <-> nlmsg_seq (dl_skb d) = brc_seq st) /\
     (nlmsg_seq (dl_skb d) = brc_seq st ->
        fst (genl_rcv_msg d st) = 0 /\
        brc_seq (snd (genl_rcv_msg d st)) = u32 (brc_seq st + 1) /\
        brc_reply (snd (genl_rcv_msg d st)) = Some (dl_skb d) /\
        brc_done (snd (genl_rcv_msg d st)) = brc_done st + 1 /\
        klog (snd (genl_rcv_msg d st)) =
          klog st ++ match brc_reply st with
                     | Some old => [K_kfree_skb old]
                     | None => []
                     end) /\
     (nlmsg_seq (dl_skb d) <> brc_seq st ->
        fst (genl_rcv_msg d st) = - ESTALE /\
        brc_seq (snd (genl_rcv_msg d st)) = brc_seq st /\
        brc_reply (snd (genl_rcv_msg d st)) = brc_reply st /\
        brc_done (snd (genl_rcv_msg d st)) = brc_done st /\
        klog (snd (genl_rcv_msg d st)) = klog st ++ [K_kfree_skb (dl_skb d)])) /\
  (dl_alloc_ok d = false -> genl_rcv_msg d st = (- ENOMEM, st)).
Proof.
  intros Hwf. split.
  - intros Ha. split; [|split].
    + rewrite accepts_iff_returns_zero. unfold accepts. rewrite Hwf, Ha. simpl.
      rewrite Z.eqb_eq. split; congruence.
    + intros Hs. rewrite genl_rcv_msg_accept by assumption. simpl. auto.
    + intros Hs. rewrite genl_rcv_msg_stale by assumption. simpl. auto.
  - intros Ha. apply genl_rcv_msg_no_memory; assumption.
Qed.

(** The claim as first stated fails when [skb_clone] returns NULL: a
    well-formed reply carrying the current sequence number is turned away
    with [-ENOMEM] and the slot stays empty. *)
Lemma C1_clone_failure_not_accepted :
  well_formed (dl_skb dl_unclonable) = true /\
  nlmsg_seq (dl_skb dl_unclonable) = brc_seq st_fresh /\
  genl_rcv_msg dl_unclonable st_fresh = (- ENOMEM, st_fresh) /\
  brc_reply (snd (genl_rcv_msg dl_unclonable st_fresh)) = None.
Proof. vm_compute. repeat split. Qed.

(** An instance of C1: the reply numbered 6 reaches the module while
    [brc_seq] is 6. *)
Lemma C1_reply_accepted_iff_current_seq_witness :
  well_formed (dl_skb dl_current) = true /\
  (fst (genl_rcv_msg dl_current st_fresh) = 0 <->
   nlmsg_seq (dl_skb dl_current) = brc_seq st_fresh) /\
  brc_seq (snd (genl_rcv_msg dl_current st_fresh)) = 7 /\
  brc_reply (snd (genl_rcv_msg dl_current st_fresh)) = Some (dl_skb dl_current).
Proof.
  destruct (C1_reply_accepted_iff_current_seq dl_current st_fresh eq_refl) as [Hok _].
  destruct (Hok eq_refl) as (Hiff & Hacc & _).
  destruct (Hacc eq_refl) as (_ & Hseq & Hrep & _).
  split; [reflexivity|]. split; [exact Hiff|]. split; [exact Hseq | exact Hrep].
Defined.

(** C8.  A message that does not satisfy the reply schema (it fails the
    policy, or it lacks the error code) is rejected with a negative result
    and the module state, [brc_seq], the slot and the completion included,
    is exactly what it was; a message that passes the policy but lacks the
    error code gets [-EINVAL]. *)
Theorem C8_malformed_reply_changes_nothing (d : delivery) (st : brc_state) :
  well_formed (dl_skb d) = false ->
  fst (genl_rcv_msg d st) < 0 /\
  snd (genl_rcv_msg d st) = st /\
  (parses (dl_skb d) = true -> fst (genl_rcv_msg d st) = - EINVAL).
Proof.
  intros Hwf. destruct (genl_rcv_msg_malformed d st Hwf) as (H1 & H2 & H3).
  split; [exact H2|]. split; [rewrite H1; reflexivity | exact H3].
Qed.

(** An instance of C8: a message numbered 6 that lists indices but has no
    error code. *)
Lemma C8_malformed_reply_changes_nothing_witness :
  well_formed (dl_skb dl_bare) = false /\
  genl_rcv_msg dl_bare st_fresh = (- EINVAL, st_fresh).
Proof.
  destruct (C8_malformed_reply_changes_nothing dl_bare st_fresh eq_refl)
    as (_ & Hst & Hret).
  split; [reflexivity|].
  rewrite (surjective_pairing (genl_rcv_msg dl_bare st_fresh)), Hst, (Hret eq_refl).
  reflexivity.
Defined.

(** ** The sequence number along a run *)

Lemma step_seq (e : event) (st : brc_state) :
  brc_seq (step e st) =
  if advances_seq e st then u32 (brc_seq st + 1) else brc_seq st.
Proof.
  destruct e as [request|d]; simpl.
  - reflexivity.
  - destruct (genl_rcv_msg_cases d st) as [[Ha He]|(Ha & _ & [He|He])];
      rewrite Ha, He; reflexivity.
Qed.

Lemma step_seq_range (e : event) (st : brc_state) :
  0 <= brc_seq st < 2 ^ 32 -> 0 <= brc_seq (step e st) < 2 ^ 32.
Proof.
  intros H. rewrite step_seq. destruct (advances_seq e st); [apply u32_range | exact H].
Qed.

Lemma run_cons e evs st : run (e :: evs) st = run evs (step e st).
Proof. reflexivity. Qed.

Lemma run_seq_range evs : forall st,
  0 <= brc_seq st < 2 ^ 32 -> 0 <= brc_seq (run evs st) < 2 ^ 32.
Proof.
  induction evs as [|e evs IH]; intros st H; [exact H|].
  rewrite run_cons. apply IH, step_seq_range, H.
Qed.

Lemma advances_bounds evs : forall st,
  0 <= advances evs st <= Z.of_nat (length evs).
Proof.
  induction evs as [|e evs IH]; intros st.
  - simpl. lia.
  - change (advances (e :: evs) st)
      with ((if advances_seq e st then 1 else 0) + advances evs (step e st)).
    specialize (IH (step e st)). rewrite length_cons, Nat2Z.inj_succ.
    destruct (advances_seq e st); lia.
Qed.

Lemma run_seq_mod evs : forall st,
  u32 (brc_seq (run evs st)) = u32 (brc_seq st + advances evs st).
Proof.
  induction evs as [|e evs IH]; intros st.
  - simpl. rewrite Z.add_0_r. reflexivity.
  - rewrite run_cons, IH, step_seq.
    change (advances (e :: evs) st)
      with ((if advances_seq e st then 1 else 0) + advances evs (step e st)).
    destruct (advances_seq e st).
    + rewrite u32_add_l. f_equal. lia.
    + f_equal.
Qed.

(** C2 (amended).  Along every sequence of sends and inbound messages, each
    send and each accepted reply advances [brc_seq] by exactly one modulo
    2^32 and nothing else writes it (a stale or malformed message leaves it
    alone), so a round that completes advances it twice; after any run the
    counter is its starting value plus the number of such writes, modulo
    2^32, and it is smaller than before only if it has wrapped. *)
Theorem C2_seq_advances_by_one_per_write (evs : list event) (st : brc_state) :
  0 <= brc_seq st < 2 ^ 32 ->
  brc_seq (run evs st) = u32 (brc_seq st + advances evs st) /\
  0 <= advances evs st <= Z.of_nat (length evs) /\
  (brc_seq (run evs st) = brc_seq st + advances evs st \/
   2 ^ 32 <= brc_seq st + advances evs st) /\
  (forall e s, brc_seq (step e s) =
               if advances_seq e s then u32 (brc_seq s + 1) else brc_seq s) /\
  (forall request s, advances_seq (EvSend request) s = true) /\
  (forall d s, advances_seq (EvInbound d) s =
               well_formed (dl_skb d) && dl_alloc_ok d
               && (brc_seq s =? nlmsg_seq (dl_skb d))).
Proof.
  intros Hr.
  assert (Heq : brc_seq (run evs st) = u32 (brc_seq st + advances evs st)).
  { rewrite <- run_seq_mod. symmetry. apply u32_small, run_seq_range, Hr. }
  pose proof (advances_bounds evs st) as Hb.
  split; [exact Heq|]. split; [exact Hb|]. split.
  - destruct (Z_lt_ge_dec (brc_seq st + advances evs st) (2 ^ 32)) as [Hlt|Hge].
    + left. rewrite Heq. apply u32_small. lia.
    + right. lia.
  - split; [intros e s; apply step_seq|]. split; reflexivity.
Qed.

(** The claim as first stated fails twice over: from the largest sequence
    number a send takes the counter down to 0, and a round that completes
    (a send, then the reply that matches it) moves the counter by two. *)
Lemma C2_seq_wraps_and_moves_twice :
  brc_seq (brc_init 4294967295) = 4294967295 /\
  brc_seq (run [EvSend sample_request] (brc_init 4294967295)) = 0 /\
  brc_seq st_fresh = 6 /\
  brc_seq (run [EvSend sample_request;
                EvInbound (mk_delivery (sample_reply 7 0 []) true)] st_fresh) = 8.
Proof. vm_compute. repeat split. Qed.

(** An instance of C2: a send, a stale reply, then the matching reply. *)
Lemma C2_seq_advances_by_one_per_write_witness :
  0 <= brc_seq st_fresh < 2 ^ 32 /\
  brc_seq (run [EvSend sample_request;
                EvInbound (mk_delivery (sample_reply 9 0 []) true);
                EvInbound (mk_delivery (sample_reply 7 0 []) true)] st_fresh) =
  u32 (6 + 2).
Proof.
  assert (H : 0 <= brc_seq st_fresh < 2 ^ 32) by (vm_compute; split; congruence).
  split; [exact H|].
  exact (proj1 (C2_seq_advances_by_one_per_write
                  [EvSend sample_request;
                   EvInbound (mk_delivery (sample_reply 9 0 []) true);
                   EvInbound (mk_delivery (sample_reply 7 0 []) true)] st_fresh H)).
Defined.

(** ** What the receive path never touches *)

Lemma sent_requests_app l1 l2 :
  sent_requests (l1 ++ l2) = sent_requests l1 ++ sent_requests l2.
Proof.
  induction l1 as [|k l1 IH]; [reflexivity|].
  destruct k; simpl; rewrite IH; reflexivity.
Qed.

Lemma waits_app l1 l2 : waits (l1 ++ l2) = waits l1 ++ waits l2.
Proof.
  induction l1 as [|k l1 IH]; [reflexivity|].
  destruct k; simpl; rewrite IH; reflexivity.
Qed.

Lemma same_traffic_refl st : same_traffic st st.
Proof. repeat split. Qed.

Lemma same_traffic_trans a b c :
  same_traffic a b -> same_traffic b c -> same_traffic a c.
Proof. unfold same_traffic. intuition congruence. Qed.

Lemma same_traffic_kfree skb st : same_traffic st (kfree_skb skb st).
Proof.
  unfold same_traffic, kfree_skb, kdo. simpl.
  rewrite sent_requests_app, waits_app. simpl. rewrite !app_nil_r. auto.
Qed.

Lemma genl_rcv_msg_same_traffic d st : same_traffic st (snd (genl_rcv_msg d st)).
Proof.
  destruct (genl_rcv_msg_cases d st) as [[_ He]|(_ & _ & [He|He])]; rewrite He.
  - unfold same_traffic, accepted. simpl.
    rewrite sent_requests_app, waits_app.
    destruct (brc_reply st); simpl; rewrite !app_nil_r; auto.
  - apply same_traffic_refl.
  - apply same_traffic_kfree.
Qed.

Lemma deliver_all_same_traffic ds : forall st, same_traffic st (deliver_all ds st).
Proof.
  induction ds as [|d ds IH]; intros st; [apply same_traffic_refl|].
  simpl. eapply same_traffic_trans; [apply genl_rcv_msg_same_traffic | apply IH].
Qed.

Lemma wait_same_traffic timeout arr : forall now st,
  same_traffic st (snd (wait_for_completion_timeout timeout now arr st)).
Proof.
  induction arr as [|[t d] arr IH]; intros now st; simpl.
  - destruct (0 <? brc_done st); repeat split.
  - destruct (0 <? brc_done st); [repeat split|].
    destruct (t <? timeout); [|apply same_traffic_refl].
    eapply same_traffic_trans; [apply genl_rcv_msg_same_traffic | apply IH].
Qed.

(** ** Messages that do not match *)

Lemma unmatched_not_accepted d st :
  matching_reply (brc_seq st) (dl_skb d) = false -> accepts d st = false.
Proof.
  unfold matching_reply, accepts. intros H.
  rewrite Z.eqb_sym in H.
  destruct (well_formed (dl_skb d)), (dl_alloc_ok d); simpl in *; auto.
Qed.

Lemma not_accepted_same_shared d st :
  accepts d st = false -> same_shared st (snd (genl_rcv_msg d st)).
Proof.
  intros Ha.
  destruct (genl_rcv_msg_cases d st) as [[Ha' _]|(_ & _ & [He|He])];
    [congruence | rewrite He; repeat split ..].
Qed.

Lemma deliver_all_unmatched ds : forall st,
  (forall d, In d ds -> matching_reply (brc_seq st) (dl_skb d) = false) ->
  same_shared st (deliver_all ds st).
Proof.
  induction ds as [|d ds IH]; intros st H; [repeat split|].
  simpl.
  assert (Hd : same_shared st (snd (genl_rcv_msg d st))).
  { apply not_accepted_same_shared, unmatched_not_accepted, H. left. reflexivity. }
  destruct Hd as (Hs & Hr & Hdn).
  destruct (IH (snd (genl_rcv_msg d st))) as (Hs' & Hr' & Hdn').
  { intros d' Hin. rewrite Hs. apply H. right. exact Hin. }
  unfold same_shared. intuition congruence.
Qed.

Lemma wait_unmatched timeout arr : forall now st,
  brc_done st <= 0 ->
  (forall t d, In (t, d) arr -> t < timeout ->
               matching_reply (brc_seq st) (dl_skb d) = false) ->
  fst (wait_for_completion_timeout timeout now arr st) = 0 /\
  same_shared st (snd (wait_for_completion_timeout timeout now arr st)).
Proof.
  induction arr as [|[t d] arr IH]; intros now st Hdone H; simpl.
  - destruct (0 <? brc_done st) eqn:E; [apply Z.ltb_lt in E; lia|].
    repeat split.
  - destruct (0 <? brc_done st) eqn:E; [apply Z.ltb_lt in E; lia|].
    destruct (t <? timeout) eqn:Et; [|repeat split].
    apply Z.ltb_lt in Et.
    assert (Hd : same_shared st (snd (genl_rcv_msg d st))).
    { apply not_accepted_same_shared, unmatched_not_accepted.
      apply (H t d); [left; reflexivity | exact Et]. }
    destruct Hd as (Hs & Hr & Hdn).
    destruct (IH t (snd (genl_rcv_msg d st))) as (Hz & Hs' & Hr' & Hdn').
    + lia.
    + intros t' d' Hin Hlt. rewrite Hs. apply (H t' d'); [right; exact Hin | exact Hlt].
    + split; [exact Hz|]. unfold same_shared. intuition congruence.
Qed.

(** ** One call, path by path *)

Lemma at_multicast_same_traffic request env st :
  brc_serial (at_multicast request env st) = true /\
  sent_requests (klog (at_multicast request env st)) = sent_requests (klog st) /\
  waits (klog (at_multicast request env st)) = waits (klog st).
Proof.
  unfold at_multicast.
  destruct (deliver_all_same_traffic (before_send env)
              (snd (brc_send_prologue request (mutex_lock st)))) as (H1 & H2 & H3).
  rewrite H1, H2, H3. repeat split.
Qed.

Lemma brc_send_command_transport_error HZ request env st :
  multicast_ret env < 0 ->
  brc_send_command HZ request env st =
  (SR_err (multicast_ret env),
   mutex_unlock (kdo (K_genlmsg_multicast (stamped request st))
                   (at_multicast request env st))).
Proof.
  intros H. apply Z.ltb_lt in H.
  unfold brc_send_command, stamped, at_multicast, brc_send_prologue. simpl.
  rewrite H. reflexivity.
Qed.

Lemma brc_send_command_after_multicast HZ request env st :
  0 <= multicast_ret env ->
  brc_send_command HZ request env st =
  let st := kdo (K_wait_for_completion_timeout (BRC_TIMEOUT HZ))
              (kdo (K_genlmsg_multicast (stamped request st))
                 (at_multicast request env st)) in
  let (left, st) := wait_for_completion_timeout (BRC_TIMEOUT HZ) 0 (arrivals env) st in
  if left =? 0 then (SR_err (- ETIMEDOUT), mutex_unlock (kdo K_printk st))
  else
    let st := deliver_all (before_grab env) st in
    let reply := brc_reply st in
    let st := mutex_unlock (set_reply None st) in
    match reply with
    | None => (SR_oops, st)
    | Some reply =>
        let (error, tb) := nlmsg_parse reply brc_genl_policy in
        (SR_reply reply tb, if error =? 0 then st else kdo K_WARN_ON st)
    end.
Proof.
  intros H. apply Z.ltb_ge in H.
  unfold brc_send_command, stamped, at_multicast, brc_send_prologue. simpl.
  rewrite H. reflexivity.
Qed.

(** C5.  When [genlmsg_multicast] fails, [brc_send_command] returns that
    error as its [ERR_PTR], the mutex is released, and no wait was entered:
    the request went to the transport once and nothing of the timeout was
    spent. *)
Theorem C5_transport_error_returns_at_once (HZ : Z) (request : sk_buff)
  (env : rpc_env) (st : brc_state) :
  multicast_ret env < 0 ->
  fst (brc_send_command HZ request env st) = SR_err (multicast_ret env) /\
  brc_serial (snd (brc_send_command HZ request env st)) = false /\
  waits (klog (snd (brc_send_command HZ request env st))) = waits (klog st) /\
  sent_requests (klog (snd (brc_send_command HZ request env st))) =
    sent_requests (klog st) ++ [stamped request st].
Proof.
  intros H. rewrite (brc_send_command_transport_error HZ request env st H). simpl.
  destruct (at_multicast_same_traffic request env st) as (_ & H2 & H3).
  rewrite sent_requests_app, waits_app, H2, H3. simpl. rewrite app_nil_r.
  repeat split.
Qed.

(** An instance of C5: the multicast returns -3 although a reply would have
    been on its way. *)
Lemma C5_transport_error_returns_at_once_witness :
  multicast_ret (mk_env [] (-3) [(1, dl_current)] []) < 0 /\
  fst (brc_send_command 100 sample_request (mk_env [] (-3) [(1, dl_current)] []) st_fresh)
  = SR_err (-3) /\
  brc_serial (snd (brc_send_command 100 sample_request
                     (mk_env [] (-3) [(1, dl_current)] []) st_fresh)) = false.
Proof.
  assert (H : multicast_ret (mk_env [] (-3) [(1, dl_current)] []) < 0) by reflexivity.
  destruct (C5_transport_error_returns_at_once 100 sample_request
              (mk_env [] (-3) [(1, dl_current)] []) st_fresh H) as (H1 & H2 & _).
  split; [exact H|]. split; [exact H1 | exact H2].
Defined.

(** C4.  When the transport takes the request and no reply matching the
    stamped sequence number arrives before [BRC_TIMEOUT] = 5 * HZ jiffies
    have passed, [brc_send_command] returns [ERR_PTR(-ETIMEDOUT)] with the
    mutex released; the request was transmitted once, one wait of
    [BRC_TIMEOUT] was spent, and the sequence number stays the stamped
    one. *)
Theorem C4_no_reply_times_out (HZ : Z) (request : sk_buff) (env : rpc_env)
  (st : brc_state) :
  0 <= multicast_ret env ->
  (forall d, In d (before_send env) ->
             matching_reply (u32 (brc_seq st + 1)) (dl_skb d) = false) ->
  (forall t d, In (t, d) (arrivals env) -> t < BRC_TIMEOUT HZ ->
               matching_reply (u32 (brc_seq st + 1)) (dl_skb d) = false) ->
  fst (brc_send_command HZ request env st) = SR_err (- ETIMEDOUT) /\
  brc_serial (snd (brc_send_command HZ request env st)) = false /\
  sent_requests (klog (snd (brc_send_command HZ request env st))) =
    sent_requests (klog st) ++ [stamped request st] /\
  waits (klog (snd (brc_send_command HZ request env st))) =
    waits (klog st) ++ [HZ * 5] /\
  brc_seq (snd (brc_send_command HZ request env st)) = u32 (brc_seq st + 1) /\
  nlmsg_seq (stamped request st) = u32 (brc_seq st + 1).
Proof.
  intros Hmc Hpre Harr.
  rewrite (brc_send_command_after_multicast HZ request env st Hmc). cbv zeta.
  destruct (at_multicast_same_traffic request env st) as (_ & Hsent & Hwaits).
  assert (Hsh : same_shared (snd (brc_send_prologue request (mutex_lock st)))
                  (at_multicast request env st)).
  { apply deliver_all_unmatched. exact Hpre. }
  destruct Hsh as (Hs & _ & Hd). simpl in Hs, Hd.
  set (s2 := kdo (K_wait_for_completion_timeout (BRC_TIMEOUT HZ))
               (kdo (K_genlmsg_multicast (stamped request st))
                  (at_multicast request env st))).
  destruct (wait_unmatched (BRC_TIMEOUT HZ) (arrivals env) 0 s2) as (Hz & Hs' & _ & _).
  { unfold s2. simpl. lia. }
  { unfold s2. simpl. rewrite Hs. exact Harr. }
  destruct (wait_same_traffic (BRC_TIMEOUT HZ) (arrivals env) 0 s2) as (_ & Hsent' & Hwaits').
  destruct (wait_for_completion_timeout (BRC_TIMEOUT HZ) 0 (arrivals env) s2)
    as [left s3]. simpl in Hz, Hs', Hsent', Hwaits'. subst left. simpl.
  rewrite sent_requests_app, waits_app, Hsent', Hwaits'. unfold s2 in *. simpl in *.
  rewrite !sent_requests_app, !waits_app, Hsent, Hwaits. simpl.
  rewrite !app_nil_r, Hs', Hs. unfold BRC_TIMEOUT. repeat split.
Qed.

(** An instance of C4 at HZ = 100: a stale reply comes after 10 jiffies, the
    matching one after 600, past the 500 of the timeout. *)
Lemma C4_no_reply_times_out_witness :
  0 <= multicast_ret env_late /\
  fst (brc_send_command 100 sample_request env_late st_fresh) = SR_err (- ETIMEDOUT) /\
  brc_serial (snd (brc_send_command 100 sample_request env_late st_fresh)) = false /\
  waits (klog (snd (brc_send_command 100 sample_request env_late st_fresh))) = [500].
Proof.
  assert (H0 : 0 <= multicast_ret env_late) by (vm_compute; congruence).
  assert (H1 : forall d, In d (before_send env_late) ->
                 matching_reply (u32 (brc_seq st_fresh + 1)) (dl_skb d) = false).
  { intros d []. }
  assert (H2 : forall t d, In (t, d) (arrivals env_late) -> t < BRC_TIMEOUT 100 ->
                 matching_reply (u32 (brc_seq st_fresh + 1)) (dl_skb d) = false).
  { intros t d [E|[E|[]]] Ht; inversion E; subst; [reflexivity|].
    vm_compute in Ht. discriminate. }
  destruct (C4_no_reply_times_out 100 sample_request env_late st_fresh H0 H1 H2)
    as (R1 & R2 & _ & R4 & _).
  split; [exact H0|]. split; [exact R1|]. split; [exact R2 | exact R4].
Defined.

Lemma brc_send_command_traffic HZ request env st :
  brc_serial (snd (brc_send_command HZ request env st)) = false /\
  sent_requests (klog (snd (brc_send_command HZ request env st))) =
    sent_requests (klog st) ++ [stamped request st] /\
  waits (klog (snd (brc_send_command HZ request env st))) =
    waits (klog st) ++ (if multicast_ret env <? 0 then [] else [BRC_TIMEOUT HZ]).
Proof.
  destruct (Z_lt_ge_dec (multicast_ret env) 0) as [Hlt|Hge].
  - rewrite (brc_send_command_transport_error HZ request env st Hlt).
    apply Z.ltb_lt in Hlt. rewrite Hlt. simpl.
    destruct (at_multicast_same_traffic request env st) as (_ & H2 & H3).
    rewrite sent_requests_app, waits_app, H2, H3. simpl. rewrite !app_nil_r. auto.
  - assert (H0 : 0 <= multicast_ret env) by lia.
    rewrite (brc_send_command_after_multicast HZ request env st H0). cbv zeta.
    apply Z.ltb_ge in H0. rewrite H0.
    destruct (at_multicast_same_traffic request env st) as (_ & Hsent & Hwaits).
    set (s2 := kdo (K_wait_for_completion_timeout (BRC_TIMEOUT HZ))
                 (kdo (K_genlmsg_multicast (stamped request st))
                    (at_multicast request env st))).
    assert (Hs2 : sent_requests (klog s2) = sent_requests (klog st) ++ [stamped request st]
                  /\ waits (klog s2) = waits (klog st) ++ [BRC_TIMEOUT HZ]).
    { unfold s2. simpl. rewrite !sent_requests_app, !waits_app, Hsent, Hwaits. simpl.
      rewrite !app_nil_r. auto. }
    destruct Hs2 as [Hs2 Hw2]. clearbody s2.
    destruct (wait_same_traffic (BRC_TIMEOUT HZ) (arrivals env) 0 s2) as (_ & Hs3 & Hw3).
    destruct (wait_for_completion_timeout (BRC_TIMEOUT HZ) 0 (arrivals env) s2)
      as [left s3]. simpl in Hs3, Hw3.
    destruct (left =? 0).
    + simpl. rewrite sent_requests_app, waits_app, Hs3, Hw3, Hs2, Hw2. simpl.
      rewrite !app_nil_r. auto.
    + destruct (deliver_all_same_traffic (before_grab env) s3) as (_ & Hs4 & Hw4).
      destruct (brc_reply (deliver_all (before_grab env) s3)) as [reply|].
      * destruct (nlmsg_parse reply brc_genl_policy) as [error tb].
        destruct (error =? 0); simpl;
          rewrite ?sent_requests_app, ?waits_app, Hs4, Hw4, Hs3, Hw3, Hs2, Hw2;
          simpl; rewrite ?app_nil_r; auto.
      * simpl. rewrite Hs4, Hw4, Hs3, Hw3, Hs2, Hw2. auto.
Qed.

(** C3 (amended).  At the head of every call, with [brc_lock] held and
    before anything goes to the transport, [brc_seq] is incremented modulo
    2^32, the request is stamped with the new value and the completion is
    reset; the slot is left as it is.  The request that reaches the transport
    is the stamped one, and it goes out once. *)
Theorem C3_send_stamps_and_resets (HZ : Z) (request : sk_buff) (env : rpc_env)
  (st : brc_state) :
  brc_seq (snd (brc_send_prologue request (mutex_lock st))) = u32 (brc_seq st + 1) /\
  nlmsg_seq (stamped request st) = u32 (brc_seq st + 1) /\
  nlmsg_attrs (stamped request st) = nlmsg_attrs request /\
  brc_done (snd (brc_send_prologue request (mutex_lock st))) = 0 /\
  brc_reply (snd (brc_send_prologue request (mutex_lock st))) = brc_reply st /\
  klog (snd (brc_send_prologue request (mutex_lock st))) = klog st /\
  sent_requests (klog (at_multicast request env st)) = sent_requests (klog st) /\
  sent_requests (klog (snd (brc_send_command HZ request env st))) =
    sent_requests (klog st) ++ [stamped request st].
Proof.
  destruct (at_multicast_same_traffic request env st) as (_ & H2 & _).
  destruct (brc_send_command_traffic HZ request env st) as (_ & H3 & _).
  repeat split; assumption.
Qed.

(** The claim as first stated fails on the slot: a reply that arrives after
    its caller has timed out is accepted and stays in the slot, and the next
    call stamps and transmits its request with that reply still there. *)
Lemma C3_slot_not_cleared_before_send :
  fst (brc_send_command 100 sample_request env_silent st_fresh) = SR_err (- ETIMEDOUT) /\
  brc_reply st_late = Some (sample_reply 7 0 []) /\
  brc_reply (snd (brc_send_prologue sample_request (mutex_lock st_late)))
  = Some (sample_reply 7 0 []) /\
  brc_reply (at_multicast sample_request env_silent st_late)
  = Some (sample_reply 7 0 []).
Proof. vm_compute. repeat split. Qed.

(** ** What the slot holds *)

Lemma genl_rcv_msg_slot d st :
  (accepts d st = true /\
   brc_reply (snd (genl_rcv_msg d st)) = Some (dl_skb d) /\
   well_formed (dl_skb d) = true) \/
  (accepts d st = false /\ same_shared st (snd (genl_rcv_msg d st))).
Proof.
  destruct (accepts d st) eqn:Ha.
  - left. destruct (genl_rcv_msg_cases d st) as [[_ He]|(Ha' & _)]; [|congruence].
    rewrite He. simpl. unfold accepts in Ha.
    apply andb_true_iff in Ha. destruct Ha as [Ha _].
    apply andb_true_iff in Ha. destruct Ha as [Ha _]. auto.
  - right. split; [reflexivity|]. apply not_accepted_same_shared, Ha.
Qed.

Lemma genl_rcv_msg_slot_valid d st :
  slot_valid st -> slot_valid (snd (genl_rcv_msg d st)).
Proof.
  intros Hv r Hr.
  destruct (genl_rcv_msg_slot d st) as [(_ & He & Hwf)|(_ & _ & He & _)].
  - rewrite He in Hr. inversion Hr. subst. exact Hwf.
  - apply Hv. congruence.
Qed.

Lemma genl_rcv_msg_keeps_reply d st :
  brc_reply st <> None -> brc_reply (snd (genl_rcv_msg d st)) <> None.
Proof.
  intros Hn.
  destruct (genl_rcv_msg_slot d st) as [(_ & He & _)|(_ & _ & He & _)];
    rewrite He; [discriminate | exact Hn].
Qed.

Lemma genl_rcv_msg_call_ready d st :
  call_ready st -> call_ready (snd (genl_rcv_msg d st)).
Proof.
  intros Hc Hd.
  destruct (genl_rcv_msg_slot d st) as [(_ & He & _)|(_ & _ & He & Hdn)].
  - rewrite He. discriminate.
  - rewrite He. apply Hc. rewrite <- Hdn. exact Hd.
Qed.

Lemma deliver_all_slot_valid ds : forall st,
  slot_valid st -> slot_valid (deliver_all ds st).
Proof.
  induction ds as [|d ds IH]; intros st H; [exact H|].
  simpl. apply IH, genl_rcv_msg_slot_valid, H.
Qed.

Lemma deliver_all_keeps_reply ds : forall st,
  brc_reply st <> None -> brc_reply (deliver_all ds st) <> None.
Proof.
  induction ds as [|d ds IH]; intros st H; [exact H|].
  simpl. apply IH, genl_rcv_msg_keeps_reply, H.
Qed.

Lemma deliver_all_call_ready ds : forall st,
  call_ready st -> call_ready (deliver_all ds st).
Proof.
  induction ds as [|d ds IH]; intros st H; [exact H|].
  simpl. apply IH, genl_rcv_msg_call_ready, H.
Qed.

Lemma wait_slot_valid timeout arr : forall now st,
  slot_valid st ->
  slot_valid (snd (wait_for_completion_timeout timeout now arr st)).
Proof.
  induction arr as [|[t d] arr IH]; intros now st H; simpl.
  - destruct (0 <? brc_done st); exact H.
  - destruct (0 <? brc_done st); [exact H|].
    destruct (t <? timeout); [|exact H].
    apply IH, genl_rcv_msg_slot_valid, H.
Qed.

(** A waiter that is woken finds a reply in the slot. *)
Lemma wait_woken timeout arr : forall now st,
  call_ready st ->
  fst (wait_for_completion_timeout timeout now arr st) <> 0 ->
  brc_reply (snd (wait_for_completion_timeout timeout now arr st)) <> None.
Proof.
  induction arr as [|[t d] arr IH]; intros now st Hc; simpl.
  - destruct (0 <? brc_done st) eqn:E; simpl; [|congruence].
    intros _. apply Hc. apply Z.ltb_lt. exact E.
  - destruct (0 <? brc_done st) eqn:E; simpl.
    + intros _. apply Hc. apply Z.ltb_lt. exact E.
    + destruct (t <? timeout); simpl; [|congruence].
      apply IH, genl_rcv_msg_call_ready, Hc.
Qed.

Lemma at_multicast_ready request env st :
  slot_valid st ->
  slot_valid (at_multicast request env st) /\ call_ready (at_multicast request env st).
Proof.
  intros Hv. unfold at_multicast. split.
  - apply deliver_all_slot_valid. exact Hv.
  - apply deliver_all_call_ready. intros Hd. simpl in Hd. lia.
Qed.

(** The shape of every result of [brc_send_command] from a valid slot. *)
Lemma brc_send_command_result HZ request env st :
  slot_valid st ->
  slot_valid (snd (brc_send_command HZ request env st)) /\
  ((exists e, fst (brc_send_command HZ request env st) = SR_err e) \/
   (exists reply tb nla,
      fst (brc_send_command HZ request env st) = SR_reply reply tb /\
      well_formed reply = true /\
      nlmsg_parse reply brc_genl_policy = (0, tb) /\
      tb BRC_GENL_A_ERR_CODE = Some nla)).
Proof.
  intros Hv.
  destruct (at_multicast_ready request env st Hv) as [Hv1 Hc1].
  destruct (Z_lt_ge_dec (multicast_ret env) 0) as [Hlt|Hge].
  - rewrite (brc_send_command_transport_error HZ request env st Hlt). simpl.
    split; [exact Hv1 | left; eauto].
  - assert (H0 : 0 <= multicast_ret env) by lia.
    rewrite (brc_send_command_after_multicast HZ request env st H0). cbv zeta.
    set (s2 := kdo (K_wait_for_completion_timeout (BRC_TIMEOUT HZ))
                 (kdo (K_genlmsg_multicast (stamped request st))
                    (at_multicast request env st))).
    assert (Hv2 : slot_valid s2) by exact Hv1.
    assert (Hc2 : call_ready s2) by exact Hc1.
    clearbody s2.
    pose proof (wait_slot_valid (BRC_TIMEOUT HZ) (arrivals env) 0 s2 Hv2) as Hv3.
    pose proof (wait_woken (BRC_TIMEOUT HZ) (arrivals env) 0 s2 Hc2) as Hw.
    destruct (wait_for_completion_timeout (BRC_TIMEOUT HZ) 0 (arrivals env) s2)
      as [left s3]. simpl in Hv3, Hw.
    destruct (left =? 0) eqn:El.
    + simpl. split; [exact Hv3 | left; eauto].
    + apply Z.eqb_neq in El. specialize (Hw El).
      pose proof (deliver_all_slot_valid (before_grab env) s3 Hv3) as Hv4.
      pose proof (deliver_all_keeps_reply (before_grab env) s3 Hw) as Hr4.
      destruct (brc_reply (deliver_all (before_grab env) s3)) as [reply|] eqn:Er;
        [|congruence].
      destruct (well_formed_parse reply (Hv4 reply Er)) as (tb & nla & Hp & He).
      rewrite Hp. simpl. split.
      * intros r Hr. discriminate.
      * right. exists reply, tb, nla. auto.
Qed.

Lemma act_slot_valid HZ a st : slot_valid st -> slot_valid (act HZ a st).
Proof.
  intros Hv. destruct a as [request env|d]; simpl.
  - apply brc_send_command_result, Hv.
  - apply genl_rcv_msg_slot_valid, Hv.
Qed.

Lemma history_slot_valid HZ acts : forall st,
  slot_valid st -> slot_valid (history HZ acts st).
Proof.
  induction acts as [|a acts IH]; intros st Hv; [exact Hv|].
  simpl. apply IH, act_slot_valid, Hv.
Qed.

(** C9.  In every state the module reaches from [brc_init] through calls
    and inbound messages, whatever is in the slot passed the policy and
    carries the error code.  Hence a call that returns a reply never finds
    the slot empty, its re-parse returns 0 and fills in the error-code
    attribute, and [brc_send_simple_command] never reads a missing one. *)
Theorem C9_stored_reply_is_validated (HZ : Z) (net_random : Z)
  (acts : list activity) (request : sk_buff) (env : rpc_env) :
  slot_valid (history HZ acts (brc_init net_random)) /\
  fst (brc_send_command HZ request env (history HZ acts (brc_init net_random)))
    <> SR_oops /\
  (forall reply tb,
     fst (brc_send_command HZ request env (history HZ acts (brc_init net_random)))
       = SR_reply reply tb ->
     well_formed reply = true /\
     nlmsg_parse reply brc_genl_policy = (0, tb) /\
     tb BRC_GENL_A_ERR_CODE <> None) /\
  fst (brc_send_simple_command HZ request env (history HZ acts (brc_init net_random)))
    <> Oops.
Proof.
  assert (Hv : slot_valid (history HZ acts (brc_init net_random))).
  { apply history_slot_valid. intros r Hr. discriminate. }
  destruct (brc_send_command_result HZ request env _ Hv)
    as (_ & [[e He]|(reply & tb & nla & He & Hwf & Hp & Ht)]).
  - split; [exact Hv|]. split; [congruence|]. split; [congruence|].
    unfold brc_send_simple_command.
    destruct (brc_send_command HZ request env (history HZ acts (brc_init net_random)))
      as [r s]. simpl in He. subst r. simpl. discriminate.
  - split; [exact Hv|]. split; [congruence|]. split.
    + intros reply' tb' He'. rewrite He in He'. inversion He'. subst.
      repeat split; [exact Hwf | exact Hp | congruence].
    + unfold brc_send_simple_command.
      destruct (brc_send_command HZ request env (history HZ acts (brc_init net_random)))
        as [r s]. simpl in He. subst r. rewrite Ht. simpl. discriminate.
Qed.

(** An instance of C9: after a call that timed out and its late reply, the
    next call is answered. *)
Lemma C9_stored_reply_is_validated_witness :
  fst (brc_send_command 100 sample_request (env_answer 3 (sample_reply 9 0 []))
         (history 100 [ActCall sample_request env_silent; ActInbound dl_seven]
            (brc_init 6)))
  = SR_reply (sample_reply 9 0 [])
      (snd (nlmsg_parse (sample_reply 9 0 []) brc_genl_policy)) /\
  snd (nlmsg_parse (sample_reply 9 0 []) brc_genl_policy) BRC_GENL_A_ERR_CODE <> None.
Proof.
  split; [reflexivity|].
  apply (proj1 (proj2 (proj2 (C9_stored_reply_is_validated 100 6
           [ActCall sample_request env_silent; ActInbound dl_seven]
           sample_request (env_answer 3 (sample_reply 9 0 []))))) _ _ eq_refl).
Defined.

(** ** Enumeration *)

(** C10.  [brc_get_indices] answers a negative capacity with [-EINVAL] and
    a capacity of 2048 or more with [-ENOMEM], and in both cases the module
    state is untouched: no request was allocated, none was transmitted, no
    wait was entered.  The port-list wrapper adds only its own unlock and
    lock of rtnl. *)
Theorem C10_capacity_checked_first (HZ : Z) (op : brc_cmd)
  (br_name : option String.string) (uindices : list byte) (n : Z)
  (ae : alloc_env) (env : rpc_env) (st : brc_state) :
  (n < 0 ->
   brc_get_indices HZ op br_name uindices n ae env st = (Ret (- EINVAL), uindices, st) /\
   forall dev_name,
     brc_get_port_list HZ dev_name uindices n ae env st =
     (Ret (- EINVAL), uindices, kdo K_rtnl_lock (kdo K_rtnl_unlock st))) /\
  (2048 <= n ->
   brc_get_indices HZ op br_name uindices n ae env st = (Ret (- ENOMEM), uindices, st) /\
   forall dev_name,
     brc_get_port_list HZ dev_name uindices n ae env st =
     (Ret (- ENOMEM), uindices, kdo K_rtnl_lock (kdo K_rtnl_unlock st))).
Proof.
  split; intros Hn.
  - assert (E : (n <? 0) = true) by (apply Z.ltb_lt; exact Hn).
    unfold brc_get_port_list, brc_get_indices. rewrite E. auto.
  - assert (E1 : (n <? 0) = false) by (apply Z.ltb_ge; lia).
    assert (E2 : (n >=? 2048) = true) by (rewrite Z.geb_leb; apply Z.leb_le; exact Hn).
    unfold brc_get_port_list, brc_get_indices. rewrite E1, E2. auto.
Qed.

(** Instances of C10: capacities -1 and 2048. *)
Lemma C10_capacity_checked_first_witness :
  brc_get_indices 100 BRC_GENL_C_GET_BRIDGES None (user_ints 4) (-1)
    alloc_fine env_ten_indices st_fresh = (Ret (- EINVAL), user_ints 4, st_fresh) /\
  brc_get_indices 100 BRC_GENL_C_GET_BRIDGES None (user_ints 4) 2048
    alloc_fine env_ten_indices st_fresh = (Ret (- ENOMEM), user_ints 4, st_fresh).
Proof.
  destruct (C10_capacity_checked_first 100 BRC_GENL_C_GET_BRIDGES None (user_ints 4)
              (-1) alloc_fine env_ten_indices st_fresh) as [Hneg _].
  destruct (C10_capacity_checked_first 100 BRC_GENL_C_GET_BRIDGES None (user_ints 4)
              2048 alloc_fine env_ten_indices st_fresh) as [_ Hbig].
  split.
  - apply Hneg. reflexivity.
  - apply Hbig. discriminate.
Defined.

Lemma s32_u32_neg_zero : s32 (u32 (- 0)) = 0.
Proof. reflexivity. Qed.

Lemma copy_to_user_fits (ubuf src : list byte) (n : Z) :
  0 <= n <= Z.of_nat (length ubuf) ->
  copy_to_user ubuf src n =
  (0, firstn (Z.to_nat n) src ++ skipn (Z.to_nat n) ubuf).
Proof.
  intros H. unfold copy_to_user.
  destruct (n <=? Z.of_nat (length ubuf)) eqn:E; [reflexivity|].
  apply Z.leb_gt in E. lia.
Qed.

Lemma copied_length (ubuf src : list byte) (n : Z) :
  0 <= n <= Z.of_nat (length ubuf) -> n <= Z.of_nat (length src) ->
  length (firstn (Z.to_nat n) src ++ skipn (Z.to_nat n) ubuf) = length ubuf.
Proof.
  intros H1 H2. rewrite length_app, length_firstn, length_skipn. lia.
Qed.

(** C7 (amended).  An enumeration call with capacity [n], [0 <= n < 2048],
    into a buffer that holds [n] indices, whose reply reports error code 0
    and carries [k] indices, copies the first [min n k] indices of the reply
    to the front of the caller buffer, leaves the rest of the buffer and its
    size alone, and returns [min n k]. *)
Theorem C7_indices_truncated_to_capacity (HZ : Z) (op : brc_cmd)
  (br_name : option String.string) (uindices : list byte) (n : Z)
  (ae : alloc_env) (env : rpc_env) (st st1 st2 : brc_state)
  (request reply : sk_buff) (tb : attr_table) (ec ix : nlattr) (k : Z) :
  0 <= n < 2048 ->
  n * 4 <= Z.of_nat (length uindices) ->
  brc_make_request op br_name None ae st = (Some request, st1) ->
  brc_send_command HZ request env st1 = (SR_reply reply tb, st2) ->
  tb BRC_GENL_A_ERR_CODE = Some ec ->
  nla_get_u32 ec = 0 ->
  tb BRC_GENL_A_IFINDEXES = Some ix ->
  nla_len ix = 4 * k ->
  brc_get_indices HZ op br_name uindices n ae env st =
    (Ret (Z.min n k),
     firstn (Z.to_nat (Z.min n k * 4)) (nla_data ix)
       ++ skipn (Z.to_nat (Z.min n k * 4)) uindices,
     kfree_skb reply st2) /\
  0 <= Z.min n k <= n /\
  length (firstn (Z.to_nat (Z.min n k * 4)) (nla_data ix)
            ++ skipn (Z.to_nat (Z.min n k * 4)) uindices) = length uindices.
Proof.
  intros Hn Hcap Hmk Hsend Hec Hzero Hix Hlen.
  assert (Hk : 0 <= k) by (unfold nla_len in Hlen; lia).
  assert (E1 : (n <? 0) = false) by (apply Z.ltb_ge; lia).
  assert (E2 : (n >=? 2048) = false) by (rewrite Z.geb_leb; apply Z.leb_gt; lia).
  assert (Hmod : nla_len ix mod sizeof_int = 0).
  { rewrite Hlen. unfold sizeof_int. rewrite Z.mul_comm. apply Z_mod_mult. }
  assert (Hdiv : nla_len ix / sizeof_int = k).
  { rewrite Hlen. unfold sizeof_int. rewrite Z.mul_comm. apply Z_div_mult. lia. }
  split; [|split; [lia|]].
  - unfold brc_get_indices.
    rewrite E1, E2, Hmk, Hsend, Hec, Hzero, s32_u32_neg_zero, Hix, Hmod, Hdiv.
    simpl (0 <? 0). simpl (negb (0 =? 0)). cbv iota.
    change sizeof_int with 4.
    rewrite copy_to_user_fits by lia. reflexivity.
  - apply copied_length; [lia|]. unfold nla_len in Hlen. lia.
Qed.

(** The claim as first stated fails on a reply that reports an error: with
    capacity 4 and a reply that lists ten indices under error code 19, the
    call returns -19 and copies nothing, so the value returned is not the
    number of indices copied. *)
Lemma C7_error_code_comes_first :
  nla_len (ifindexes_attr ten_indices) = 4 * 10 /\
  fst (brc_get_indices 100 BRC_GENL_C_GET_PORTS (Some "br0"%string) (user_ints 4) 4
         alloc_fine env_ten_indices_failed st_fresh)
  = (Ret (-19), user_ints 4).
Proof. vm_compute. split; reflexivity. Qed.

(** An instance of C7: capacity 4 and a reply that lists ten indices. *)
Lemma C7_indices_truncated_to_capacity_witness :
  0 <= 4 < 2048 /\
  4 * 4 <= Z.of_nat (length (user_ints 4)) /\
  nla_len (ifindexes_attr ten_indices) = 4 * 10 /\
  fst (brc_get_indices 100 BRC_GENL_C_GET_PORTS (Some "br0"%string) (user_ints 4) 4
         alloc_fine env_ten_indices st_fresh)
  = (Ret 4, flat_map (le_encode 4) [11; 12; 13; 14]).
Proof.
  assert (H1 : 0 <= 4 < 2048) by lia.
  assert (H2 : 4 * 4 <= Z.of_nat (length (user_ints 4))) by (vm_compute; congruence).
  pose proof (C7_indices_truncated_to_capacity 100 BRC_GENL_C_GET_PORTS
                (Some "br0"%string) (user_ints 4) 4 alloc_fine env_ten_indices st_fresh
                _ _ _ _ _ _ _ 10 H1 H2 eq_refl eq_refl eq_refl eq_refl eq_refl eq_refl)
    as (H & _).
  split; [exact H1|]. split; [exact H2|]. split; [reflexivity|].
  rewrite H. reflexivity.
Defined.

(** ** Forwarding-table queries *)

Lemma fdb_clamp_bounds PAGE_SIZE esz maxnum :
  fdb_clamp PAGE_SIZE esz maxnum <= PAGE_SIZE / esz /\
  fdb_clamp PAGE_SIZE esz maxnum <= maxnum.
Proof.
  unfold fdb_clamp. destruct (Z.gtb_spec maxnum (PAGE_SIZE / esz)); lia.
Qed.

Lemma brc_make_request_some op bridge port ae st request st1 :
  brc_make_request op bridge port ae st = (Some request, st1) ->
  st1 = kdo K_genlmsg_new st.
Proof.
  unfold brc_make_request.
  destruct (genlmsg_new_ok ae); [|discriminate].
  destruct bridge, port; try destruct (nla_put_ok ae); intros H; inversion H; reflexivity.
Qed.

Lemma sent_requests_kdo k st :
  (forall skb, k <> K_genlmsg_multicast skb) ->
  sent_requests (klog (kdo k st)) = sent_requests (klog st).
Proof.
  intros Hk. unfold kdo. simpl. rewrite sent_requests_app.
  destruct k; simpl; try apply app_nil_r.
  exfalso. eapply Hk. reflexivity.
Qed.

Ltac quiet_kdo :=
  unfold kfree_skb; repeat (rewrite sent_requests_kdo by (intros; discriminate)).

Lemma copy_to_user_all (ubuf src : list byte) (n : Z) (rest : list byte) :
  copy_to_user ubuf src n = (0, rest) ->
  rest = firstn (Z.to_nat n) src ++ skipn (Z.to_nat n) ubuf.
Proof.
  unfold copy_to_user.
  destruct (Z.leb_spec n (Z.of_nat (length ubuf))); intros Hc; inversion Hc;
    [reflexivity | lia].
Qed.

(** C6 (amended).  A forwarding-table query puts [maxnum] clamped to
    [PAGE_SIZE / sizeof(struct __fdb_entry)] into the request that goes to
    the transport.  When the reply reports error code 0 and carries the data
    attribute, a length that is not a multiple of the entry size, or more
    entries than the clamped count, gives [-EINVAL] with the caller buffer
    untouched; and whenever the call returns a value that is not negative,
    that value is the number of entries in the reply, within the clamped
    count, all of them copied to the front of the caller buffer. *)
Theorem C6_fdb_query_clamped_and_checked (HZ PAGE_SIZE esz : Z)
  (dev_name : String.string) (userbuf : list byte) (maxnum offset : Z)
  (ae : alloc_env) (env : rpc_env) (st st1 : brc_state) (request : sk_buff) :
  brc_make_request BRC_GENL_C_FDB_QUERY (Some dev_name) None ae st = (Some request, st1) ->
  fdb_clamp PAGE_SIZE esz maxnum <= PAGE_SIZE / esz /\
  fdb_clamp PAGE_SIZE esz maxnum <= maxnum /\
  sent_requests
    (klog (snd (brc_get_fdb_entries HZ PAGE_SIZE esz dev_name userbuf maxnum offset
                  ae true env st))) =
    sent_requests (klog st)
      ++ [stamped (fdb_request PAGE_SIZE esz request maxnum offset)
            (kdo K_rtnl_unlock st1)] /\
  forall reply tb st2 ec fd,
    brc_send_command HZ (fdb_request PAGE_SIZE esz request maxnum offset) env
      (kdo K_rtnl_unlock st1) = (SR_reply reply tb, st2) ->
    tb BRC_GENL_A_ERR_CODE = Some ec ->
    nla_get_u32 ec = 0 ->
    tb BRC_GENL_A_FDB_DATA = Some fd ->
    (nla_len fd mod esz <> 0 \/ fdb_clamp PAGE_SIZE esz maxnum < nla_len fd / esz ->
     fst (brc_get_fdb_entries HZ PAGE_SIZE esz dev_name userbuf maxnum offset
            ae true env st) = (Ret (- EINVAL), userbuf)) /\
    (forall v,
       fst (fst (brc_get_fdb_entries HZ PAGE_SIZE esz dev_name userbuf maxnum offset
                   ae true env st)) = Ret v ->
       0 <= v ->
       v = nla_len fd / esz /\
       nla_len fd = v * esz /\
       v <= fdb_clamp PAGE_SIZE esz maxnum /\
       snd (fst (brc_get_fdb_entries HZ PAGE_SIZE esz dev_name userbuf maxnum offset
                   ae true env st)) =
         nla_data fd ++ skipn (length (nla_data fd)) userbuf).
Proof.
  intros Hmk.
  destruct (fdb_clamp_bounds PAGE_SIZE esz maxnum) as [Hc1 Hc2].
  split; [exact Hc1|]. split; [exact Hc2|].
  pose proof (brc_make_request_some _ _ _ _ _ _ _ Hmk) as Hst1.
  destruct (brc_send_command_traffic HZ (fdb_request PAGE_SIZE esz request maxnum offset)
              env (kdo K_rtnl_unlock st1)) as (_ & Hsent & _).
  assert (Hbase : sent_requests (klog (kdo K_rtnl_unlock st1)) = sent_requests (klog st)).
  { rewrite Hst1. quiet_kdo. reflexivity. }
  rewrite Hbase in Hsent.
  unfold brc_get_fdb_entries. rewrite Hmk. simpl negb. cbv iota.
  fold (fdb_request PAGE_SIZE esz request maxnum offset).
  destruct (brc_send_command HZ (fdb_request PAGE_SIZE esz request maxnum offset) env
              (kdo K_rtnl_unlock st1)) as [r s2].
  simpl in Hsent. split.
  - destruct r as [e|reply tb|]; try (cbn [snd]; quiet_kdo; exact Hsent).
    destruct (tb BRC_GENL_A_ERR_CODE) as [ec|]; [|exact Hsent].
    destruct (s32 (u32 (- nla_get_u32 ec)) <? 0); [cbn [snd]; quiet_kdo; exact Hsent|].
    destruct (tb BRC_GENL_A_FDB_DATA) as [fd|]; [|cbn [snd]; quiet_kdo; exact Hsent].
    destruct (negb (nla_len fd mod esz =? 0)
              || (nla_len fd / esz >? fdb_clamp PAGE_SIZE esz maxnum));
      [cbn [snd]; quiet_kdo; exact Hsent|].
    destruct (copy_to_user userbuf (nla_data fd) (nla_len fd)). cbn [snd].
    quiet_kdo. exact Hsent.
  - intros reply tb st2 ec fd Hr Hec Hzero Hfd. inversion Hr. subst r s2.
    rewrite Hec, Hzero, s32_u32_neg_zero, Hfd. simpl (0 <? 0). cbv iota.
    destruct (Z.eqb_spec (nla_len fd mod esz) 0) as [Hmod|Hmod];
      destruct (Z.gtb_spec (nla_len fd / esz) (fdb_clamp PAGE_SIZE esz maxnum))
        as [Hgt|Hle]; simpl negb; simpl orb; cbv iota.
    + split; [reflexivity|]. simpl. intros v Hv Hpos. inversion Hv. unfold EINVAL in *. lia.
    + split; [intros [H|H]; [congruence | lia] |].
      destruct (copy_to_user userbuf (nla_data fd) (nla_len fd)) as [left rest] eqn:Ecp.
      simpl. intros v Hv Hpos.
      destruct (Z.eqb_spec left 0) as [Hl|Hl]; simpl in Hv; inversion Hv;
        [|unfold EFAULT in *; lia].
      subst left. apply copy_to_user_all in Ecp.
      pose proof (Z_div_mod_eq_full (nla_len fd) esz) as Hdm.
      repeat split; [lia | lia |].
      rewrite Ecp. unfold nla_len. rewrite Nat2Z.id, firstn_all. reflexivity.
    + split; [reflexivity|]. simpl. intros v Hv Hpos. inversion Hv. unfold EINVAL in *. lia.
    + split; [reflexivity|]. simpl. intros v Hv Hpos. inversion Hv. unfold EINVAL in *. lia.
Qed.

(** The claim as first stated fails on a reply that reports an error: a
    reply whose data is three bytes long, not a multiple of the 16-byte
    entry, under error code 5 makes the call return -5, not [-EINVAL]. *)
Lemma C6_error_code_comes_first :
  nla_len (fdb_data_attr 3) mod 16 = 3 /\
  fst (brc_get_fdb_entries 100 4096 16 "br0"%string (repeat x00 64) 8 0
         alloc_fine true env_fdb_failed st_fresh) = (Ret (-5), repeat x00 64) /\
  - EINVAL = -22.
Proof. vm_compute. repeat split. Qed.

(** An instance of C6 with 4096-byte pages and 16-byte entries: 1000 entries
    asked for, three bytes of data in the reply. *)
Lemma C6_fdb_query_clamped_and_checked_witness :
  brc_make_request BRC_GENL_C_FDB_QUERY (Some "br0"%string) None alloc_fine st_fresh
  = (Some fdb_query_request, kdo K_genlmsg_new st_fresh) /\
  fdb_clamp 4096 16 1000 <= 4096 / 16 /\
  fst (brc_get_fdb_entries 100 4096 16 "br0"%string (repeat x00 64) 1000 0
         alloc_fine true env_fdb_ragged st_fresh) = (Ret (- EINVAL), repeat x00 64).
Proof.
  assert (Hmk : brc_make_request BRC_GENL_C_FDB_QUERY (Some "br0"%string) None
                  alloc_fine st_fresh
                = (Some fdb_query_request, kdo K_genlmsg_new st_fresh)) by reflexivity.
  destruct (C6_fdb_query_clamped_and_checked 100 4096 16 "br0"%string (repeat x00 64)
              1000 0 alloc_fine env_fdb_ragged st_fresh _ _ Hmk)
    as (Hclamp & _ & _ & Hreply).
  destruct (Hreply _ _ _ _ _ eq_refl eq_refl eq_refl eq_refl) as (Hbad & _).
  split; [exact Hmk|]. split; [exact Hclamp|].
  apply Hbad. left. vm_compute. discriminate.
Defined.

(** ** Scenarios *)

(** Creating bridge "br0": userspace answers error code 0 and the simple
    command returns 0 with the mutex released and the slot drained. *)
Example scenario_create_bridge :
  let '(request, st1) :=
    brc_make_request BRC_GENL_C_DP_ADD (Some "br0"%string) None alloc_fine st_fresh in
  match request with
  | Some request =>
      let '(ret, st2) :=
        brc_send_simple_command 100 request (env_answer 3 (sample_reply 7 0 [])) st1 in
      ret = Ret 0 /\ brc_serial st2 = false /\ brc_reply st2 = None /\ brc_seq st2 = 8
  | None => False
  end.
Proof. vm_compute. repeat split. Qed.

(** A call times out, its reply comes late, and the next call is answered
    by its own reply, not by the late one. *)
Example scenario_late_reply :
  fst (brc_send_command 100 sample_request env_silent st_fresh) = SR_err (- ETIMEDOUT) /\
  fst (genl_rcv_msg dl_seven (snd (brc_send_command 100 sample_request env_silent st_fresh)))
  = 0 /\
  brc_seq st_late = 8 /\
  fst (brc_send_simple_command 100 sample_request (env_answer 3 (sample_reply 9 17 []))
         st_late) = Ret (-17) /\
  fst (brc_send_command 100 sample_request (env_answer 3 (sample_reply 7 0 [])) st_late)
  = SR_err (- ETIMEDOUT).
Proof. vm_compute. repeat split. Qed.

(** * Further properties of the channel *)

(** ** A call that is answered *)

Lemma accepted_by_matching d st :
  matching_reply (brc_seq st) (dl_skb d) = true -> dl_alloc_ok d = true ->
  genl_rcv_msg d st = (0, accepted (dl_skb d) st).
Proof.
  unfold matching_reply. intros Hm Ha.
  apply andb_true_iff in Hm. destruct Hm as [Hwf Hs].
  apply Z.eqb_eq in Hs. apply genl_rcv_msg_accept; assumption.
Qed.




(** ** Where a returned reply comes from *)

Lemma accepts_true d st :
  accepts d st = true ->
  well_formed (dl_skb d) = true /\ dl_alloc_ok d = true /\
  nlmsg_seq (dl_skb d) = brc_seq st.
Proof.
  unfold accepts. intros H.
  apply andb_true_iff in H. destruct H as [H Hs].
  apply andb_true_iff in H. destruct H as [Hwf Ha].
  apply Z.eqb_eq in Hs. auto.
Qed.

Lemma genl_rcv_msg_answered ds d st :
  In d ds ->
  (answered_by ds st -> answered_by ds (snd (genl_rcv_msg d st))) /\
  ((0 < brc_done st -> answered_by ds st) ->
   0 < brc_done (snd (genl_rcv_msg d st)) -> answered_by ds (snd (genl_rcv_msg d st))).
Proof.
  intros Hin.
  destruct (genl_rcv_msg_cases d st) as [[Ha He]|(Ha & _ & _)].
  - destruct (accepts_true d st Ha) as (Hwf & Hok & Hs).
    assert (Q : answered_by ds (snd (genl_rcv_msg d st))).
    { exists d. rewrite He. simpl. rewrite Hs. auto. }
    split; intros; exact Q.
  - destruct (not_accepted_same_shared d st Ha) as (Hs & Hr & Hdn).
    assert (Keep : answered_by ds st -> answered_by ds (snd (genl_rcv_msg d st))).
    { intros (d0 & H0 & H1 & H2 & H3 & H4). exists d0. rewrite Hs, Hr. auto. }
    split; [exact Keep|]. intros HK Hd. apply Keep, HK. rewrite <- Hdn. exact Hd.
Qed.

Lemma deliver_all_answered ds l : forall st,
  (forall d, In d l -> In d ds) ->
  (answered_by ds st -> answered_by ds (deliver_all l st)) /\
  ((0 < brc_done st -> answered_by ds st) ->
   0 < brc_done (deliver_all l st) -> answered_by ds (deliver_all l st)).
Proof.
  induction l as [|d l IH]; intros st Hsub; [simpl; auto|].
  simpl.
  destruct (genl_rcv_msg_answered ds d st (Hsub d (or_introl eq_refl))) as [A1 A2].
  destruct (IH (snd (genl_rcv_msg d st))) as [B1 B2].
  { intros d' Hin. apply Hsub. right. exact Hin. }
  split; auto.
Qed.

Lemma wait_answered ds timeout arr : forall now st,
  (forall t d, In (t, d) arr -> In d ds) ->
  (0 < brc_done st -> answered_by ds st) ->
  fst (wait_for_completion_timeout timeout now arr st) <> 0 ->
  answered_by ds (snd (wait_for_completion_timeout timeout now arr st)).
Proof.
  induction arr as [|[t d] arr IH]; intros now st Hsub HK; simpl.
  - destruct (0 <? brc_done st) eqn:E; simpl; [|congruence].
    intros _. apply Z.ltb_lt in E. exact (HK E).
  - destruct (0 <? brc_done st) eqn:E; simpl.
    + intros _. apply Z.ltb_lt in E. exact (HK E).
    + destruct (t <? timeout); simpl; [|congruence].
      apply IH.
      * intros t' d' Hin. apply (Hsub t' d'). right. exact Hin.
      * apply (genl_rcv_msg_answered ds d st); [|exact HK].
        apply (Hsub t d). left. reflexivity.
Qed.

Lemma in_arrivals_deliveries env t d :
  In (t, d) (arrivals env) -> In d (deliveries_of env).
Proof.
  intros H. unfold deliveries_of. apply in_or_app. right. apply in_or_app. left.
  apply in_map_iff. exists (t, d). auto.
Qed.

(** X2.  A reply that [brc_send_command] returns is the message of a
    delivery made during that very call, well formed and cloned, and
    [brc_seq] is left one past that message's sequence number; whatever sat
    in the slot when the call began is never what the caller gets.  This
    holds from any module state. *)
Theorem X2_returned_reply_arrived_during_call (HZ : Z) (request : sk_buff)
  (env : rpc_env) (st : brc_state) (reply : sk_buff) (tb : attr_table) :
  fst (brc_send_command HZ request env st) = SR_reply reply tb ->
  (exists d, In d (deliveries_of env) /\ dl_skb d = reply /\
             well_formed reply = true /\ dl_alloc_ok d = true) /\
  brc_seq (snd (brc_send_command HZ request env st)) = u32 (nlmsg_seq reply + 1) /\
  brc_reply (snd (brc_send_command HZ request env st)) = None /\
  0 <= multicast_ret env.
Proof.
  destruct (Z_lt_ge_dec (multicast_ret env) 0) as [Hlt|Hge].
  { rewrite (brc_send_command_transport_error HZ request env st Hlt). discriminate. }
  assert (H0 : 0 <= multicast_ret env) by lia.
  rewrite (brc_send_command_after_multicast HZ request env st H0). cbv zeta.
  set (ds := deliveries_of env).
  assert (K1 : 0 < brc_done (at_multicast request env st) ->
               answered_by ds (at_multicast request env st)).
  { unfold at_multicast.
    apply (deliver_all_answered ds (before_send env)).
    - intros d Hin. unfold ds, deliveries_of. apply in_or_app. left. exact Hin.
    - simpl. lia. }
  set (s2 := kdo (K_wait_for_completion_timeout (BRC_TIMEOUT HZ))
               (kdo (K_genlmsg_multicast (stamped request st))
                  (at_multicast request env st))).
  assert (K2 : 0 < brc_done s2 -> answered_by ds s2) by exact K1.
  clearbody s2.
  pose proof (wait_answered ds (BRC_TIMEOUT HZ) (arrivals env) 0 s2
                (in_arrivals_deliveries env) K2) as Hw.
  destruct (wait_for_completion_timeout (BRC_TIMEOUT HZ) 0 (arrivals env) s2)
    as [left s3]. simpl in Hw.
  destruct (left =? 0) eqn:El; [discriminate|].
  apply Z.eqb_neq in El. specialize (Hw El).
  destruct (deliver_all_answered ds (before_grab env) s3) as [Hq _].
  { intros d Hin. unfold ds, deliveries_of. apply in_or_app. right.
    apply in_or_app. right. exact Hin. }
  destruct (Hq Hw) as (d & Hin & Hr & Hwf & Hok & Hs).
  rewrite Hr. destruct (nlmsg_parse (dl_skb d) brc_genl_policy) as [error tb'].
  simpl. intros E. inversion E. subst reply tb'.
  split; [exists d; auto|].
  destruct (error =? 0); simpl; auto.
Qed.

(** An instance of X2: the late reply numbered 7 sits in the slot when the
    call begins, and the call returns the reply numbered 9 that arrives. *)
Lemma X2_returned_reply_arrived_during_call_witness :
  brc_reply st_late = Some (sample_reply 7 0 []) /\
  fst (brc_send_command 100 sample_request (env_answer 3 (sample_reply 9 0 [])) st_late)
  = SR_reply (sample_reply 9 0 [])
      (snd (nlmsg_parse (sample_reply 9 0 []) brc_genl_policy)) /\
  brc_seq (snd (brc_send_command 100 sample_request
                  (env_answer 3 (sample_reply 9 0 [])) st_late)) = 10.
Proof.
  assert (E : fst (brc_send_command 100 sample_request
                     (env_answer 3 (sample_reply 9 0 [])) st_late)
              = SR_reply (sample_reply 9 0 [])
                  (snd (nlmsg_parse (sample_reply 9 0 []) brc_genl_policy)))
    by reflexivity.
  destruct (X2_returned_reply_arrived_during_call 100 sample_request
              (env_answer 3 (sample_reply 9 0 [])) st_late _ _ E) as (_ & Hs & _).
  split; [reflexivity|]. split; [exact E | exact Hs].
Defined.

(** ** Every call, whatever happens *)

(** X3.  Whatever the transport returns and whatever arrives,
    [brc_send_command] leaves the mutex free, hands the stamped request to
    the transport exactly once, enters the wait exactly when the transport
    took the request, and an [ERR_PTR] result is the transport's own
    negative return value or [-ETIMEDOUT]. *)
Theorem X3_call_always_resolves (HZ : Z) (request : sk_buff) (env : rpc_env)
  (st : brc_state) :
  brc_serial (snd (brc_send_command HZ request env st)) = false /\
  sent_requests (klog (snd (brc_send_command HZ request env st))) =
    sent_requests (klog st) ++ [stamped request st] /\
  waits (klog (snd (brc_send_command HZ request env st))) =
    waits (klog st) ++ (if multicast_ret env <? 0 then [] else [BRC_TIMEOUT HZ]) /\
  (forall e, fst (brc_send_command HZ request env st) = SR_err e ->
             e < 0 /\
             ((multicast_ret env < 0 /\ e = multicast_ret env) \/
              (0 <= multicast_ret env /\ e = - ETIMEDOUT))).
Proof.
  destruct (brc_send_command_traffic HZ request env st) as (H1 & H2 & H3).
  split; [exact H1|]. split; [exact H2|]. split; [exact H3|].
  intros e.
  destruct (Z_lt_ge_dec (multicast_ret env) 0) as [Hlt|Hge].
  - rewrite (brc_send_command_transport_error HZ request env st Hlt). simpl.
    intros E. inversion E. subst e. auto.
  - assert (H0 : 0 <= multicast_ret env) by lia.
    rewrite (brc_send_command_after_multicast HZ request env st H0). cbv zeta.
    destruct (wait_for_completion_timeout _ _ _ _) as [left s3].
    destruct (left =? 0).
    + simpl. intros E. inversion E. unfold ETIMEDOUT. split; [lia|]. right. auto.
    + destruct (brc_reply (deliver_all (before_grab env) s3)) as [r|];
        [destruct (nlmsg_parse r brc_genl_policy)|]; simpl; discriminate.
Qed.

(** ** Replies are used once *)

Lemma u32_succ_neq (s : Z) : u32 (s + 1) <> s.
Proof.
  intros H. pose proof (u32_range (s + 1)) as Hr. rewrite H in Hr.
  destruct (Z.eq_dec s (2 ^ 32 - 1)) as [E|E].
  - subst s. vm_compute in H. discriminate.
  - rewrite u32_small in H by lia. lia.
Qed.

(** X4.  Once the handler has accepted a reply, the same reply delivered
    again is stale: it gets [-ESTALE], and the sequence number, the slot and
    the completion stay as the first delivery left them. *)
Theorem X4_duplicate_reply_is_stale (d : delivery) (st : brc_state) :
  fst (genl_rcv_msg d st) = 0 ->
  fst (genl_rcv_msg d (snd (genl_rcv_msg d st))) = - ESTALE /\
  same_shared (snd (genl_rcv_msg d st))
    (snd (genl_rcv_msg d (snd (genl_rcv_msg d st)))).
Proof.
  intros H0. apply accepts_iff_returns_zero in H0.
  destruct (accepts_true d st H0) as (Hwf & Hok & Hs).
  rewrite (genl_rcv_msg_accept d st Hwf Hok Hs). simpl.
  assert (Hne : nlmsg_seq (dl_skb d) <> brc_seq (accepted (dl_skb d) st)).
  { simpl. rewrite <- Hs. intros E. symmetry in E. exact (u32_succ_neq _ E). }
  rewrite (genl_rcv_msg_stale d (accepted (dl_skb d) st) Hwf Hok Hne). simpl.
  split; [reflexivity | repeat split].
Qed.

(** An instance of X4: the reply numbered 6, delivered twice. *)
Lemma X4_duplicate_reply_is_stale_witness :
  fst (genl_rcv_msg dl_current st_fresh) = 0 /\
  fst (genl_rcv_msg dl_current (snd (genl_rcv_msg dl_current st_fresh))) = - ESTALE.
Proof.
  split; [reflexivity|].
  exact (proj1 (X4_duplicate_reply_is_stale dl_current st_fresh eq_refl)).
Defined.

(** ** What holds between calls *)

Lemma genl_rcv_msg_counters d st :
  counters_ok st -> counters_ok (snd (genl_rcv_msg d st)).
Proof.
  intros [Hs Hd].
  destruct (genl_rcv_msg_cases d st) as [[_ He]|(Ha & _ & _)].
  - rewrite He. split; simpl; [apply u32_range | lia].
  - destruct (not_accepted_same_shared d st Ha) as (E1 & _ & E2).
    split; [rewrite E1 | rewrite E2]; assumption.
Qed.

Lemma deliver_all_counters ds : forall st,
  counters_ok st -> counters_ok (deliver_all ds st).
Proof.
  induction ds as [|d ds IH]; intros st H; [exact H|].
  simpl. apply IH, genl_rcv_msg_counters, H.
Qed.

Lemma wait_counters timeout arr : forall now st,
  counters_ok st ->
  counters_ok (snd (wait_for_completion_timeout timeout now arr st)).
Proof.
  induction arr as [|[t d] arr IH]; intros now st H; simpl.
  - destruct (0 <? brc_done st) eqn:E; [|exact H].
    apply Z.ltb_lt in E. destruct H as [Hs _]. split; simpl; [exact Hs | lia].
  - destruct (0 <? brc_done st) eqn:E.
    + apply Z.ltb_lt in E. destruct H as [Hs _]. split; simpl; [exact Hs | lia].
    + destruct (t <? timeout); [|exact H].
      apply IH, genl_rcv_msg_counters, H.
Qed.

Lemma brc_send_command_counters HZ request env st :
  counters_ok (snd (brc_send_command HZ request env st)).
Proof.
  assert (H1 : counters_ok (at_multicast request env st)).
  { unfold at_multicast. apply deliver_all_counters.
    split; simpl; [apply u32_range | lia]. }
  destruct (Z_lt_ge_dec (multicast_ret env) 0) as [Hlt|Hge].
  - rewrite (brc_send_command_transport_error HZ request env st Hlt). exact H1.
  - assert (H0 : 0 <= multicast_ret env) by lia.
    rewrite (brc_send_command_after_multicast HZ request env st H0). cbv zeta.
    set (s2 := kdo (K_wait_for_completion_timeout (BRC_TIMEOUT HZ))
                 (kdo (K_genlmsg_multicast (stamped request st))
                    (at_multicast request env st))).
    assert (H2 : counters_ok s2) by exact H1. clearbody s2.
    pose proof (wait_counters (BRC_TIMEOUT HZ) (arrivals env) 0 s2 H2) as H3.
    destruct (wait_for_completion_timeout (BRC_TIMEOUT HZ) 0 (arrivals env) s2)
      as [left s3]. simpl in H3.
    destruct (left =? 0); [exact H3|].
    pose proof (deliver_all_counters (before_grab env) s3 H3) as H4.
    destruct (brc_reply (deliver_all (before_grab env) s3)) as [r|]; [|exact H4].
    destruct (nlmsg_parse r brc_genl_policy) as [error tb].
    destruct (error =? 0); exact H4.
Qed.

Lemma act_at_rest HZ a st : at_rest st -> at_rest (act HZ a st).
Proof.
  intros (Hm & Hs & Hd & Hv). destruct a as [request env|d]; simpl.
  - destruct (brc_send_command_traffic HZ request env st) as (H1 & _).
    destruct (brc_send_command_counters HZ request env st) as [H2 H3].
    destruct (brc_send_command_result HZ request env st Hv) as [H4 _].
    repeat split; tauto.
  - destruct (genl_rcv_msg_same_traffic d st) as (H1 & _).
    destruct (genl_rcv_msg_counters d st (conj Hs Hd)) as [H2 H3].
    pose proof (genl_rcv_msg_slot_valid d st Hv) as H4.
    repeat split; try tauto. congruence.
Qed.

(** X5.  However calls and inbound messages follow one another after
    [brc_init], between two of them the mutex is free, the sequence number
    is a 32-bit value, the completion counter is not negative, and what the
    slot holds is well formed. *)
Theorem X5_module_state_between_calls (HZ : Z) (net_random : Z)
  (acts : list activity) :
  at_rest (history HZ acts (brc_init net_random)).
Proof.
  assert (H0 : at_rest (brc_init net_random)).
  { repeat split; simpl; try lia; try apply u32_range. intros r Hr. discriminate. }
  revert H0. generalize (brc_init net_random).
  induction acts as [|a acts IH]; intros st H; [exact H|].
  simpl. apply IH, act_at_rest, H.
Qed.

(** ** Bytes and integers *)

Lemma Z_of_byte_range b : 0 <= Z_of_byte b <= 255.
Proof.
  unfold Z_of_byte. pose proof (Byte.to_N_bounded b) as H. lia.
Qed.

Lemma Z_of_byte_of_Z z : Z_of_byte (byte_of_Z z) = z mod 256.
Proof.
  unfold Z_of_byte, byte_of_Z.
  pose proof (Z.mod_pos_bound z 256 ltac:(lia)) as Hr.
  destruct (Byte.of_N (Z.to_N (z mod 256))) as [b|] eqn:E.
  - apply Byte.to_of_N in E. rewrite E. apply Z2N.id. lia.
  - apply Byte.of_N_None_iff in E. lia.
Qed.

Lemma le_decode_range bs : 0 <= le_decode bs < 256 ^ Z.of_nat (length bs).
Proof.
  induction bs as [|b bs IH].
  - simpl. lia.
  - cbn [le_decode length]. rewrite Nat2Z.inj_succ, Z.pow_succ_r by lia.
    pose proof (Z_of_byte_range b). lia.
Qed.

Lemma le_decode_encode width z :
  le_decode (le_encode width z) = z mod 256 ^ Z.of_nat width.
Proof.
  revert z. induction width as [|w IH]; intros z.
  - simpl. rewrite Z.mod_1_r. reflexivity.
  - cbn [le_encode le_decode]. rewrite IH, Z_of_byte_of_Z.
    rewrite Nat2Z.inj_succ, Z.pow_succ_r by lia.
    rewrite Z.rem_mul_r by lia. reflexivity.
Qed.

Lemma nla_get_u32_range nla : 0 <= nla_get_u32 nla < 2 ^ 32.
Proof.
  unfold nla_get_u32.
  pose proof (le_decode_range (firstn 4 (nla_data nla))) as H.
  pose proof (firstn_le_length 4 (nla_data nla)) as Hl.
  assert (256 ^ Z.of_nat (length (firstn 4 (nla_data nla))) <= 256 ^ 4).
  { apply Z.pow_le_mono_r; lia. }
  change (2 ^ 32) with (256 ^ 4). lia.
Qed.

Lemma s32_neg_s32 v :
  0 <= v < 2 ^ 32 ->
  (s32 (- s32 v) = 0 <-> v = 0) /\ (v < 2 ^ 31 -> s32 (- s32 v) = - v).
Proof.
  intros Hv. unfold s32.
  destruct (Z_lt_ge_dec v (2 ^ 31)) as [Hlt|Hge].
  - rewrite (Z.mod_small (v + 2 ^ 31)) by lia.
    replace (v + 2 ^ 31 - 2 ^ 31) with v by lia.
    destruct (Z.eq_dec v 0) as [E|E].
    + subst v. simpl. split; [tauto | reflexivity].
    + replace (- v + 2 ^ 31) with (2 ^ 31 - v) by lia.
      rewrite (Z.mod_small (2 ^ 31 - v)) by lia. split; [lia | intros _; lia].
  - replace ((v + 2 ^ 31) mod 2 ^ 32) with (v - 2 ^ 31).
    2:{ apply Z.mod_unique with (q := 1); lia. }
    replace (- (v - 2 ^ 31 - 2 ^ 31) + 2 ^ 31) with (3 * 2 ^ 31 - v) by lia.
    destruct (Z.eq_dec v (2 ^ 31)) as [E|E].
    + subst v. vm_compute. split; [split; discriminate | intros H; discriminate].
    + rewrite (Z.mod_small (3 * 2 ^ 31 - v)) by lia. split; [lia | intros H; lia].
Qed.

(** ** Simple commands *)

Lemma brc_send_command_err_negative HZ request env st e :
  fst (brc_send_command HZ request env st) = SR_err e -> e < 0.
Proof.
  destruct (Z_lt_ge_dec (multicast_ret env) 0) as [Hlt|Hge].
  - rewrite (brc_send_command_transport_error HZ request env st Hlt). simpl.
    intros E. inversion E. subst e. exact Hlt.
  - assert (H0 : 0 <= multicast_ret env) by lia.
    rewrite (brc_send_command_after_multicast HZ request env st H0). cbv zeta.
    destruct (wait_for_completion_timeout _ _ _ _) as [left s3].
    destruct (left =? 0).
    + simpl. intros E. inversion E. unfold ETIMEDOUT. lia.
    + destruct (brc_reply (deliver_all (before_grab env) s3)) as [r|];
        [destruct (nlmsg_parse r brc_genl_policy)|]; simpl; discriminate.
Qed.

(** X6.  From a state whose slot is valid, [brc_send_simple_command] never
    reads a missing attribute.  It hands on the negative errno of a call
    that failed; when the call is answered it frees the reply and returns
    the negated error code of the reply: 0 exactly when userspace reported
    0, and [-e] for every code [e] below 2^31. *)
Theorem X6_simple_command_negates_error_code (HZ : Z) (request : sk_buff)
  (env : rpc_env) (st : brc_state) :
  slot_valid st ->
  match fst (brc_send_command HZ request env st) with
  | SR_err e =>
      e < 0 /\
      brc_send_simple_command HZ request env st
      = (Ret e, snd (brc_send_command HZ request env st))
  | SR_reply reply tb =>
      exists ec,
        tb BRC_GENL_A_ERR_CODE = Some ec /\
        brc_send_simple_command HZ request env st
        = (Ret (s32 (- s32 (nla_get_u32 ec))),
           kfree_skb reply (snd (brc_send_command HZ request env st))) /\
        (s32 (- s32 (nla_get_u32 ec)) = 0 <-> nla_get_u32 ec = 0) /\
        (nla_get_u32 ec < 2 ^ 31 -> s32 (- s32 (nla_get_u32 ec)) = - nla_get_u32 ec)
  | SR_oops => False
  end.
Proof.
  intros Hv.
  destruct (brc_send_command_result HZ request env st Hv)
    as (_ & [[e He]|(reply & tb & nla & He & _ & _ & Ht)]).
  - pose proof (brc_send_command_err_negative HZ request env st e He) as Hneg.
    unfold brc_send_simple_command.
    destruct (brc_send_command HZ request env st) as [r s]. simpl in *. subst r.
    auto.
  - unfold brc_send_simple_command.
    destruct (brc_send_command HZ request env st) as [r s]. simpl in *. subst r.
    exists nla. rewrite Ht.
    destruct (s32_neg_s32 (nla_get_u32 nla) (nla_get_u32_range nla)) as [H1 H2].
    auto.
Qed.

(** An instance of X6: userspace answers the first call with error code
    17. *)
Lemma X6_simple_command_negates_error_code_witness :
  slot_valid st_fresh /\
  brc_send_simple_command 100 sample_request (env_answer 3 (sample_reply 7 17 [])) st_fresh
  = (Ret (-17),
     kfree_skb (sample_reply 7 17 [])
       (snd (brc_send_command 100 sample_request
               (env_answer 3 (sample_reply 7 17 [])) st_fresh))).
Proof.
  assert (Hv : slot_valid st_fresh) by (intros r Hr; discriminate).
  split; [exact Hv|].
  pose proof (X6_simple_command_negates_error_code 100 sample_request
                (env_answer 3 (sample_reply 7 17 [])) st_fresh Hv) as H.
  change (fst (brc_send_command 100 sample_request
                 (env_answer 3 (sample_reply 7 17 [])) st_fresh))
    with (SR_reply (sample_reply 7 17 [])
            (snd (nlmsg_parse (sample_reply 7 17 []) brc_genl_policy))) in H.
  destruct H as (ec & Hec & Hret & _).
  inversion Hec. subst ec. exact Hret.
Defined.

(** ** Enumeration: every outcome *)

Lemma skipn_copied (ubuf src : list byte) (m : nat) :
  (m <= length src)%nat ->
  skipn m (firstn m src ++ skipn m ubuf) = skipn m ubuf.
Proof.
  intros H.
  assert (Hl : length (firstn m src) = m) by (rewrite length_firstn; lia).
  rewrite skipn_app, Hl, Nat.sub_diag. simpl.
  rewrite (skipn_all2 (firstn m src)) by lia. reflexivity.
Qed.

(** X7.  Whatever the reply and the caller buffer, a result of
    [brc_get_indices] that is not negative is at most the capacity [n],
    which is then below 2048; the buffer keeps its size and every byte past
    the indices counted by the result is untouched.  A negative result other
    than [-EFAULT] leaves the whole buffer as it was. *)
Theorem X7_indices_result_bounded (HZ : Z) (op : brc_cmd)
  (br_name : option String.string) (uindices : list byte) (n : Z)
  (ae : alloc_env) (env : rpc_env) (st : brc_state) (v : Z) :
  fst (fst (brc_get_indices HZ op br_name uindices n ae env st)) = Ret v ->
  (0 <= v ->
   v <= n /\ n < 2048 /\
   length (snd (fst (brc_get_indices HZ op br_name uindices n ae env st)))
   = length uindices /\
   skipn (Z.to_nat (v * 4))
     (snd (fst (brc_get_indices HZ op br_name uindices n ae env st)))
   = skipn (Z.to_nat (v * 4)) uindices) /\
  (v < 0 -> v <> - EFAULT ->
   snd (fst (brc_get_indices HZ op br_name uindices n ae env st)) = uindices).
Proof.
  unfold brc_get_indices.
  destruct (Z.ltb_spec n 0) as [Hn0|Hn0].
  { simpl. intros E. inversion E. unfold EINVAL. split; [lia | auto]. }
  destruct (n >=? 2048) eqn:Hn1.
  { simpl. intros E. inversion E. unfold ENOMEM. split; [lia | auto]. }
  rewrite Z.geb_leb in Hn1. apply Z.leb_gt in Hn1.
  destruct (brc_make_request op br_name None ae st) as [[request|] st1].
  2:{ simpl. intros E. inversion E. unfold ENOMEM. split; [lia | auto]. }
  pose proof (brc_send_command_err_negative HZ request env st1) as Hneg.
  destruct (brc_send_command HZ request env st1) as [[e|reply tb|] st2]; simpl in Hneg.
  - simpl. intros E. inversion E. subst v. specialize (Hneg e eq_refl).
    split; [lia | auto].
  - destruct (tb BRC_GENL_A_ERR_CODE) as [ec|]; [|simpl; discriminate].
    destruct (Z.ltb_spec (s32 (u32 (- nla_get_u32 ec))) 0) as [Hr|Hr].
    { simpl. intros E. inversion E. subst v. split; [lia | auto]. }
    destruct (tb BRC_GENL_A_IFINDEXES) as [ix|].
    2:{ simpl. intros E. inversion E. unfold EINVAL. split; [lia | auto]. }
    destruct (Z.eqb_spec (nla_len ix mod sizeof_int) 0) as [Hm|Hm]; simpl negb; cbv iota.
    2:{ simpl. intros E. inversion E. unfold EINVAL. split; [lia | auto]. }
    unfold copy_to_user, sizeof_int in *.
    assert (Hlen : 0 <= nla_len ix) by (unfold nla_len; lia).
    pose proof (Z_div_mod_eq_full (nla_len ix) 4) as Hdm.
    destruct (Z.leb_spec (Z.min n (nla_len ix / 4) * 4) (Z.of_nat (length uindices)))
      as [Hfit|Hfit]; simpl.
    + intros E. inversion E. subst v. split; [|lia].
      intros _. split; [lia|]. split; [lia|]. split.
      * apply copied_length; [lia|]. unfold nla_len in *. lia.
      * apply skipn_copied. unfold nla_len in *. lia.
    + destruct (Z.eqb_spec (Z.min n (nla_len ix / 4) * 4 - Z.of_nat (length uindices)) 0)
        as [Hz|Hz]; [lia|].
      simpl. intros E. inversion E. unfold EFAULT. split; [lia|]. intros _ H. lia.
  - simpl. discriminate.
Qed.

(** An instance of X7: capacity 4, ten indices in the reply, a buffer of
    six. *)
Lemma X7_indices_result_bounded_witness :
  fst (fst (brc_get_indices 100 BRC_GENL_C_GET_PORTS (Some "br0"%string) (user_ints 6) 4
              alloc_fine env_ten_indices st_fresh)) = Ret 4 /\
  skipn 16 (snd (fst (brc_get_indices 100 BRC_GENL_C_GET_PORTS (Some "br0"%string)
                        (user_ints 6) 4 alloc_fine env_ten_indices st_fresh)))
  = skipn 16 (user_ints 6).
Proof.
  assert (E : fst (fst (brc_get_indices 100 BRC_GENL_C_GET_PORTS (Some "br0"%string)
                          (user_ints 6) 4 alloc_fine env_ten_indices st_fresh)) = Ret 4)
    by reflexivity.
  destruct (X7_indices_result_bounded 100 BRC_GENL_C_GET_PORTS (Some "br0"%string)
              (user_ints 6) 4 alloc_fine env_ten_indices st_fresh 4 E) as [Hpos _].
  destruct Hpos as (_ & _ & _ & Hskip); [lia|].
  split; [exact E | exact Hskip].
Defined.

(** X8.  For a call that is answered, [brc_get_indices] frees the reply and
    returns: the negated error code when the reply reports a code between 1
    and 2^31; [-EINVAL] when the code is 0 and the index list is missing or
    its length is not a multiple of [sizeof(int)]; [-EFAULT] when the code
    is 0 and the caller buffer is shorter than the indices to copy.  In the
    first two cases the caller buffer is untouched. *)
Theorem X8_indices_reply_outcomes (HZ : Z) (op : brc_cmd)
  (br_name : option String.string) (uindices : list byte) (n : Z)
  (ae : alloc_env) (env : rpc_env) (st st1 st2 : brc_state)
  (request reply : sk_buff) (tb : attr_table) (ec : nlattr) :
  0 <= n < 2048 ->
  brc_make_request op br_name None ae st = (Some request, st1) ->
  brc_send_command HZ request env st1 = (SR_reply reply tb, st2) ->
  tb BRC_GENL_A_ERR_CODE = Some ec ->
  (0 < nla_get_u32 ec <= 2 ^ 31 ->
   brc_get_indices HZ op br_name uindices n ae env st
   = (Ret (- nla_get_u32 ec), uindices, kfree_skb reply st2)) /\
  (nla_get_u32 ec = 0 ->
   (tb BRC_GENL_A_IFINDEXES = None ->
    brc_get_indices HZ op br_name uindices n ae env st
    = (Ret (- EINVAL), uindices, kfree_skb reply st2)) /\
   (forall ix,
      tb BRC_GENL_A_IFINDEXES = Some ix ->
      (nla_len ix mod 4 <> 0 ->
       brc_get_indices HZ op br_name uindices n ae env st
       = (Ret (- EINVAL), uindices, kfree_skb reply st2)) /\
      (nla_len ix mod 4 = 0 ->
       Z.of_nat (length uindices) < Z.min n (nla_len ix / 4) * 4 ->
       fst (fst (brc_get_indices HZ op br_name uindices n ae env st)) = Ret (- EFAULT) /\
       snd (brc_get_indices HZ op br_name uindices n ae env st) = kfree_skb reply st2))).
Proof.
  intros Hn Hmk Hsend Hec.
  assert (E1 : (n <? 0) = false) by (apply Z.ltb_ge; lia).
  assert (E2 : (n >=? 2048) = false) by (rewrite Z.geb_leb; apply Z.leb_gt; lia).
  unfold brc_get_indices. rewrite E1, E2, Hmk, Hsend, Hec.
  split.
  - intros Hc.
    assert (Hret : s32 (u32 (- nla_get_u32 ec)) = - nla_get_u32 ec).
    { unfold s32, u32.
      replace ((- nla_get_u32 ec) mod 2 ^ 32) with (2 ^ 32 - nla_get_u32 ec).
      2:{ apply Z.mod_unique with (q := -1); lia. }
      replace ((2 ^ 32 - nla_get_u32 ec + 2 ^ 31) mod 2 ^ 32)
        with (2 ^ 31 - nla_get_u32 ec).
      2:{ apply Z.mod_unique with (q := 1); lia. }
      lia. }
    rewrite Hret.
    destruct (Z.ltb_spec (- nla_get_u32 ec) 0); [reflexivity | lia].
  - intros Hz. rewrite Hz, s32_u32_neg_zero. simpl (0 <? 0). cbv iota. split.
    + intros Hix. rewrite Hix. reflexivity.
    + intros ix Hix. rewrite Hix. unfold sizeof_int. split.
      * intros Hm. destruct (Z.eqb_spec (nla_len ix mod 4) 0); [contradiction|].
        reflexivity.
      * intros Hm Hshort. rewrite Hm. simpl negb. cbv iota.
        unfold copy_to_user.
        destruct (Z.leb_spec (Z.min n (nla_len ix / 4) * 4) (Z.of_nat (length uindices)));
          [lia|].
        destruct (Z.eqb_spec (Z.min n (nla_len ix / 4) * 4 - Z.of_nat (length uindices)) 0);
          [lia|].
        simpl. auto.
Qed.

(** An instance of X8: capacity 4, ten indices in the reply, but a caller
    buffer of two. *)
Lemma X8_indices_reply_outcomes_witness :
  0 <= 4 < 2048 /\
  Z.of_nat (length (user_ints 2))
  < Z.min 4 (nla_len (ifindexes_attr ten_indices) / 4) * 4 /\
  fst (fst (brc_get_indices 100 BRC_GENL_C_GET_PORTS (Some "br0"%string) (user_ints 2) 4
              alloc_fine env_ten_indices st_fresh)) = Ret (- EFAULT).
Proof.
  assert (H1 : 0 <= 4 < 2048) by lia.
  assert (H2 : Z.of_nat (length (user_ints 2))
               < Z.min 4 (nla_len (ifindexes_attr ten_indices) / 4) * 4)
    by reflexivity.
  destruct (X8_indices_reply_outcomes 100 BRC_GENL_C_GET_PORTS (Some "br0"%string)
              (user_ints 2) 4 alloc_fine env_ten_indices st_fresh
              _ _ _ _ _ _ H1 eq_refl eq_refl eq_refl) as [_ Hzero].
  destruct (Hzero eq_refl) as [_ Hix].
  destruct (Hix _ eq_refl) as [_ Hfault].
  destruct (Hfault eq_refl H2) as [Hret _].
  split; [exact H1|]. split; [exact H2 | exact Hret].
Defined.

(** ** No helper reads a reply that is not there *)

Lemma brc_make_request_slot op bridge port ae st :
  brc_reply (snd (brc_make_request op bridge port ae st)) = brc_reply st.
Proof.
  unfold brc_make_request.
  destruct (genlmsg_new_ok ae); [|reflexivity].
  destruct bridge, port; try destruct (nla_put_ok ae); reflexivity.
Qed.

Lemma brc_make_request_slot_valid op bridge port ae st :
  slot_valid st -> slot_valid (snd (brc_make_request op bridge port ae st)).
Proof.
  intros Hv r Hr. apply Hv. rewrite <- Hr. symmetry. apply brc_make_request_slot.
Qed.

Lemma brc_send_simple_command_no_oops HZ request env st :
  slot_valid st -> fst (brc_send_simple_command HZ request env st) <> Oops.
Proof.
  intros Hv. unfold brc_send_simple_command.
  destruct (brc_send_command_result HZ request env st Hv)
    as (_ & [[e He]|(reply & tb & nla & He & _ & _ & Ht)]);
    destruct (brc_send_command HZ request env st) as [r s]; simpl in He; subst r.
  - discriminate.
  - rewrite Ht. discriminate.
Qed.

Lemma brc_get_indices_no_oops HZ op br_name uindices n ae env st :
  slot_valid st ->
  fst (fst (brc_get_indices HZ op br_name uindices n ae env st)) <> Oops.
Proof.
  intros Hv. unfold brc_get_indices.
  destruct (n <? 0); [discriminate|].
  destruct (n >=? 2048); [discriminate|].
  pose proof (brc_make_request_slot_valid op br_name None ae st Hv) as Hv1.
  destruct (brc_make_request op br_name None ae st) as [[request|] st1];
    [|discriminate].
  simpl in Hv1.
  destruct (brc_send_command_result HZ request env st1 Hv1)
    as (_ & [[e He]|(reply & tb & nla & He & _ & _ & Ht)]);
    destruct (brc_send_command HZ request env st1) as [r s]; simpl in He; subst r.
  - discriminate.
  - rewrite Ht.
    destruct (s32 (u32 (- nla_get_u32 nla)) <? 0); [discriminate|].
    destruct (tb BRC_GENL_A_IFINDEXES) as [ix|]; [|discriminate].
    destruct (negb (nla_len ix mod sizeof_int =? 0)); [discriminate|].
    destruct (copy_to_user uindices (nla_data ix)
                (Z.min n (nla_len ix / sizeof_int) * sizeof_int)).
    discriminate.
Qed.

Lemma brc_get_fdb_entries_no_oops HZ PAGE_SIZE esz dev_name userbuf maxnum offset
  ae put_ok env st :
  slot_valid st ->
  fst (fst (brc_get_fdb_entries HZ PAGE_SIZE esz dev_name userbuf maxnum offset
              ae put_ok env st)) <> Oops.
Proof.
  intros Hv. unfold brc_get_fdb_entries.
  pose proof (brc_make_request_slot_valid BRC_GENL_C_FDB_QUERY (Some dev_name) None
                ae st Hv) as Hv1.
  destruct (brc_make_request BRC_GENL_C_FDB_QUERY (Some dev_name) None ae st)
    as [[request|] st1]; [|discriminate].
  simpl in Hv1.
  destruct put_ok; [|discriminate]. simpl negb. cbv iota.
  fold (fdb_request PAGE_SIZE esz request maxnum offset).
  assert (Hv2 : slot_valid (kdo K_rtnl_unlock st1)) by exact Hv1.
  destruct (brc_send_command_result HZ (fdb_request PAGE_SIZE esz request maxnum offset)
              env (kdo K_rtnl_unlock st1) Hv2)
    as (_ & [[e He]|(reply & tb & nla & He & _ & _ & Ht)]);
    destruct (brc_send_command HZ (fdb_request PAGE_SIZE esz request maxnum offset)
                env (kdo K_rtnl_unlock st1)) as [r s]; simpl in He; subst r.
  - discriminate.
  - rewrite Ht.
    destruct (s32 (u32 (- nla_get_u32 nla)) <? 0); [discriminate|].
    destruct (tb BRC_GENL_A_FDB_DATA) as [fd|]; [|discriminate].
    destruct (negb (nla_len fd mod esz =? 0)
              || (nla_len fd / esz >? fdb_clamp PAGE_SIZE esz maxnum));
      [discriminate|].
    destruct (copy_to_user userbuf (nla_data fd) (nla_len fd)). discriminate.
Qed.

(** X9.  In every state the module reaches from [brc_init] through calls
    and inbound messages, none of the ioctl helpers dereferences a NULL
    reply or a missing error-code attribute: bridge and port requests, both
    enumerations and the forwarding-table query all return a value. *)
Theorem X9_helpers_never_oops (HZ PAGE_SIZE esz : Z)
  (init_net : Z -> option net_device) (net_random : Z) (acts : list activity)
  (ae : alloc_env) (env : rpc_env) :
  (forall uname add,
     fst (brc_add_del_bridge HZ uname add ae env
            (history HZ acts (brc_init net_random))) <> Oops) /\
  (forall dev port_ifindex add,
     fst (brc_add_del_port HZ init_net dev port_ifindex add ae env
            (history HZ acts (brc_init net_random))) <> Oops) /\
  (forall uindices n,
     fst (fst (brc_get_bridges HZ uindices n ae env
                 (history HZ acts (brc_init net_random)))) <> Oops) /\
  (forall dev_name uindices num,
     fst (fst (brc_get_port_list HZ dev_name uindices num ae env
                 (history HZ acts (brc_init net_random)))) <> Oops) /\
  (forall dev_name userbuf maxnum offset put_ok,
     fst (fst (brc_get_fdb_entries HZ PAGE_SIZE esz dev_name userbuf maxnum offset
                 ae put_ok env (history HZ acts (brc_init net_random)))) <> Oops).
Proof.
  assert (Hv : slot_valid (history HZ acts (brc_init net_random))).
  { apply history_slot_valid. intros r Hr. discriminate. }
  revert Hv. generalize (history HZ acts (brc_init net_random)). intros st Hv.
  split; [|split; [|split; [|split]]].
  - intros uname add. unfold brc_add_del_bridge.
    destruct (copy_from_user uname IFNAMSIZ) as [left name].
    destruct (negb (left =? 0)); [discriminate|].
    match goal with
    | |- context [brc_make_request ?op ?b ?p ae st] =>
        pose proof (brc_make_request_slot_valid op b p ae st Hv) as Hv1;
        destruct (brc_make_request op b p ae st) as [[request|] st1]
    end; [|discriminate].
    apply brc_send_simple_command_no_oops. exact Hv1.
  - intros dev port_ifindex add. unfold brc_add_del_port.
    destruct (init_net port_ifindex) as [port|]; [|discriminate].
    match goal with
    | |- context [brc_make_request ?op ?b ?p ae st] =>
        pose proof (brc_make_request_slot_valid op b p ae st Hv) as Hv1;
        destruct (brc_make_request op b p ae st) as [[request|] st1]
    end; [|discriminate].
    assert (Hv2 : slot_valid (kdo K_rtnl_unlock st1)) by exact Hv1.
    pose proof (brc_send_simple_command_no_oops HZ request env _ Hv2) as Hno.
    destruct (brc_send_simple_command HZ request env (kdo K_rtnl_unlock st1)).
    exact Hno.
  - intros uindices n. apply brc_get_indices_no_oops. exact Hv.
  - intros dev_name uindices num. unfold brc_get_port_list.
    assert (Hv2 : slot_valid (kdo K_rtnl_unlock st)) by exact Hv.
    pose proof (brc_get_indices_no_oops HZ BRC_GENL_C_GET_PORTS (Some dev_name)
                  uindices num ae env _ Hv2) as Hno.
    destruct (brc_get_indices HZ BRC_GENL_C_GET_PORTS (Some dev_name) uindices num ae
                env (kdo K_rtnl_unlock st)) as [[r u] s].
    exact Hno.
  - intros. apply brc_get_fdb_entries_no_oops. exact Hv.
Qed.

(** ** rtnl around the round trip *)

Lemma rtnl_or_wire_kfree skb st :
  filter rtnl_or_wire (klog (kfree_skb skb st)) = filter rtnl_or_wire (klog st).
Proof.
  unfold kfree_skb, kdo. simpl. rewrite filter_app. simpl. apply app_nil_r.
Qed.

Lemma rtnl_or_wire_kdo k st :
  filter rtnl_or_wire (klog (kdo k st)) =
  filter rtnl_or_wire (klog st) ++ (if rtnl_or_wire k then [k] else []).
Proof. unfold kdo. simpl. rewrite filter_app. reflexivity. Qed.

Lemma genl_rcv_msg_rtnl_or_wire d st :
  filter rtnl_or_wire (klog (snd (genl_rcv_msg d st))) = filter rtnl_or_wire (klog st).
Proof.
  destruct (genl_rcv_msg_cases d st) as [[_ He]|(_ & _ & [He|He])]; rewrite He.
  - simpl. rewrite filter_app. destruct (brc_reply st); simpl; apply app_nil_r.
  - reflexivity.
  - apply rtnl_or_wire_kfree.
Qed.

Lemma deliver_all_rtnl_or_wire ds : forall st,
  filter rtnl_or_wire (klog (deliver_all ds st)) = filter rtnl_or_wire (klog st).
Proof.
  induction ds as [|d ds IH]; intros st; [reflexivity|].
  simpl. rewrite IH. apply genl_rcv_msg_rtnl_or_wire.
Qed.

Lemma wait_rtnl_or_wire timeout arr : forall now st,
  filter rtnl_or_wire (klog (snd (wait_for_completion_timeout timeout now arr st)))
  = filter rtnl_or_wire (klog st).
Proof.
  induction arr as [|[t d] arr IH]; intros now st; simpl.
  - destruct (0 <? brc_done st); reflexivity.
  - destruct (0 <? brc_done st); [reflexivity|].
    destruct (t <? timeout); [|reflexivity].
    rewrite IH. apply genl_rcv_msg_rtnl_or_wire.
Qed.

Lemma brc_send_command_rtnl_or_wire HZ request env st :
  filter rtnl_or_wire (klog (snd (brc_send_command HZ request env st)))
  = filter rtnl_or_wire (klog st) ++ [K_genlmsg_multicast (stamped request st)].
Proof.
  assert (H1 : filter rtnl_or_wire
                 (klog (kdo (K_genlmsg_multicast (stamped request st))
                          (at_multicast request env st)))
               = filter rtnl_or_wire (klog st)
                   ++ [K_genlmsg_multicast (stamped request st)]).
  { rewrite rtnl_or_wire_kdo. unfold at_multicast.
    rewrite deliver_all_rtnl_or_wire. reflexivity. }
  destruct (Z_lt_ge_dec (multicast_ret env) 0) as [Hlt|Hge].
  - rewrite (brc_send_command_transport_error HZ request env st Hlt). exact H1.
  - assert (H0 : 0 <= multicast_ret env) by lia.
    rewrite (brc_send_command_after_multicast HZ request env st H0). cbv zeta.
    set (s2 := kdo (K_wait_for_completion_timeout (BRC_TIMEOUT HZ))
                 (kdo (K_genlmsg_multicast (stamped request st))
                    (at_multicast request env st))).
    assert (H2 : filter rtnl_or_wire (klog s2)
                 = filter rtnl_or_wire (klog st)
                     ++ [K_genlmsg_multicast (stamped request st)]).
    { unfold s2. rewrite rtnl_or_wire_kdo, H1. simpl. apply app_nil_r. }
    clearbody s2.
    pose proof (wait_rtnl_or_wire (BRC_TIMEOUT HZ) (arrivals env) 0 s2) as H3.
    destruct (wait_for_completion_timeout (BRC_TIMEOUT HZ) 0 (arrivals env) s2)
      as [left s3]. simpl in H3. rewrite H2 in H3.
    destruct (left =? 0).
    + cbn [snd]. change (mutex_unlock (kdo K_printk s3))
        with (set_serial false (kdo K_printk s3)).
      cbn [klog set_serial]. rewrite rtnl_or_wire_kdo, H3. simpl. apply app_nil_r.
    + pose proof (deliver_all_rtnl_or_wire (before_grab env) s3) as H4.
      rewrite H3 in H4.
      destruct (brc_reply (deliver_all (before_grab env) s3)) as [r|].
      * destruct (nlmsg_parse r brc_genl_policy) as [error tb].
        destruct (error =? 0); cbn [snd].
        -- exact H4.
        -- rewrite rtnl_or_wire_kdo. simpl. rewrite app_nil_r. exact H4.
      * exact H4.
Qed.

Lemma brc_send_simple_command_rtnl_or_wire HZ request env st :
  filter rtnl_or_wire (klog (snd (brc_send_simple_command HZ request env st)))
  = filter rtnl_or_wire (klog st) ++ [K_genlmsg_multicast (stamped request st)].
Proof.
  pose proof (brc_send_command_rtnl_or_wire HZ request env st) as H.
  unfold brc_send_simple_command.
  destruct (brc_send_command HZ request env st) as [[e|reply tb|] s]; simpl in H;
    try exact H.
  destruct (tb BRC_GENL_A_ERR_CODE); [|exact H].
  cbn [snd]. rewrite rtnl_or_wire_kfree. exact H.
Qed.

Lemma brc_make_request_rtnl_or_wire op bridge port ae st :
  filter rtnl_or_wire (klog (snd (brc_make_request op bridge port ae st)))
  = filter rtnl_or_wire (klog st).
Proof.
  unfold brc_make_request.
  destruct (genlmsg_new_ok ae); [|reflexivity].
  destruct bridge, port; try destruct (nla_put_ok ae); cbn [snd];
    rewrite ?rtnl_or_wire_kfree, rtnl_or_wire_kdo; simpl; apply app_nil_r.
Qed.

Lemma brc_get_indices_rtnl_or_wire HZ op br_name uindices n ae env st :
  slot_valid st ->
  filter rtnl_or_wire (klog (snd (brc_get_indices HZ op br_name uindices n ae env st)))
  = filter rtnl_or_wire (klog st) \/
  exists request,
    filter rtnl_or_wire (klog (snd (brc_get_indices HZ op br_name uindices n ae env st)))
    = filter rtnl_or_wire (klog st) ++ [K_genlmsg_multicast request].
Proof.
  intros Hv. unfold brc_get_indices.
  destruct (n <? 0); [left; reflexivity|].
  destruct (n >=? 2048); [left; reflexivity|].
  pose proof (brc_make_request_rtnl_or_wire op br_name None ae st) as Hmk.
  pose proof (brc_make_request_slot_valid op br_name None ae st Hv) as Hv1.
  destruct (brc_make_request op br_name None ae st) as [[request|] st1];
    simpl in Hmk, Hv1; [|left; exact Hmk].
  right. exists (stamped request st1).
  pose proof (brc_send_command_rtnl_or_wire HZ request env st1) as Hs.
  rewrite Hmk in Hs.
  destruct (brc_send_command_result HZ request env st1 Hv1)
    as (_ & [[e He]|(reply & tb & nla & He & _ & _ & Ht)]);
    destruct (brc_send_command HZ request env st1) as [r s]; simpl in He, Hs; subst r.
  - exact Hs.
  - rewrite Ht.
    destruct (s32 (u32 (- nla_get_u32 nla)) <? 0);
      [cbn [snd]; rewrite rtnl_or_wire_kfree; exact Hs|].
    destruct (tb BRC_GENL_A_IFINDEXES) as [ix|];
      [|cbn [snd]; rewrite rtnl_or_wire_kfree; exact Hs].
    destruct (negb (nla_len ix mod sizeof_int =? 0));
      [cbn [snd]; rewrite rtnl_or_wire_kfree; exact Hs|].
    destruct (copy_to_user uindices (nla_data ix)
                (Z.min n (nla_len ix / sizeof_int) * sizeof_int)).
    cbn [snd]. rewrite rtnl_or_wire_kfree. exact Hs.
Qed.

(** The forwarding-table query either sends nothing and leaves rtnl alone,
    or releases rtnl, sends its request with the clamped count and the
    offset, and takes rtnl again. *)
Lemma brc_get_fdb_entries_rtnl_or_wire HZ PAGE_SIZE esz dev_name userbuf maxnum offset
  ae put_ok env st :
  slot_valid st ->
  (filter rtnl_or_wire
     (klog (snd (brc_get_fdb_entries HZ PAGE_SIZE esz dev_name userbuf maxnum offset
                   ae put_ok env st)))
   = filter rtnl_or_wire (klog st) /\
   (genlmsg_new_ok ae && nla_put_ok ae && put_ok = false)) \/
  (exists request st1,
     brc_make_request BRC_GENL_C_FDB_QUERY (Some dev_name) None ae st
     = (Some request, st1) /\ put_ok = true /\
     filter rtnl_or_wire
       (klog (snd (brc_get_fdb_entries HZ PAGE_SIZE esz dev_name userbuf maxnum offset
                     ae put_ok env st)))
     = filter rtnl_or_wire (klog st)
         ++ [K_rtnl_unlock;
             K_genlmsg_multicast
               (stamped (fdb_request PAGE_SIZE esz request maxnum offset)
                  (kdo K_rtnl_unlock st1));
             K_rtnl_lock]).
Proof.
  intros Hv. unfold brc_get_fdb_entries.
  pose proof (brc_make_request_rtnl_or_wire BRC_GENL_C_FDB_QUERY (Some dev_name) None
                ae st) as Hmk.
  pose proof (brc_make_request_slot_valid BRC_GENL_C_FDB_QUERY (Some dev_name) None
                ae st Hv) as Hv1.
  destruct (brc_make_request BRC_GENL_C_FDB_QUERY (Some dev_name) None ae st)
    as [[request|] st1] eqn:Emk; simpl in Hmk, Hv1.
  2:{ left. split; [exact Hmk|]. unfold brc_make_request in Emk.
      destruct (genlmsg_new_ok ae); [|reflexivity].
      destruct (nla_put_ok ae); [discriminate | reflexivity]. }
  destruct put_ok; simpl negb; cbv iota.
  2:{ left. cbn [snd]. rewrite rtnl_or_wire_kfree. split; [exact Hmk|].
      apply andb_false_r. }
  right. exists request, st1. split; [reflexivity|]. split; [reflexivity|].
  fold (fdb_request PAGE_SIZE esz request maxnum offset).
  pose proof (brc_send_command_rtnl_or_wire HZ
                (fdb_request PAGE_SIZE esz request maxnum offset) env
                (kdo K_rtnl_unlock st1)) as Hs.
  rewrite rtnl_or_wire_kdo, Hmk in Hs. simpl in Hs. rewrite <- app_assoc in Hs.
  simpl in Hs.
  assert (Hlock : forall s,
            filter rtnl_or_wire (klog s)
            = filter rtnl_or_wire (klog st)
                ++ [K_rtnl_unlock;
                    K_genlmsg_multicast
                      (stamped (fdb_request PAGE_SIZE esz request maxnum offset)
                         (kdo K_rtnl_unlock st1))] ->
            filter rtnl_or_wire (klog (kdo K_rtnl_lock s))
            = filter rtnl_or_wire (klog st)
                ++ [K_rtnl_unlock;
                    K_genlmsg_multicast
                      (stamped (fdb_request PAGE_SIZE esz request maxnum offset)
                         (kdo K_rtnl_unlock st1));
                    K_rtnl_lock]).
  { intros s Hs'. rewrite rtnl_or_wire_kdo, Hs'. simpl. rewrite <- app_assoc.
    reflexivity. }
  assert (Hv2 : slot_valid (kdo K_rtnl_unlock st1)) by exact Hv1.
  destruct (brc_send_command_result HZ (fdb_request PAGE_SIZE esz request maxnum offset)
              env (kdo K_rtnl_unlock st1) Hv2)
    as (_ & [[e He]|(reply & tb & nla & He & _ & _ & Ht)]);
    destruct (brc_send_command HZ (fdb_request PAGE_SIZE esz request maxnum offset)
                env (kdo K_rtnl_unlock st1)) as [r s]; simpl in He, Hs; subst r.
  - cbn [snd]. apply Hlock, Hs.
  - rewrite Ht.
    assert (Hfree : filter rtnl_or_wire (klog (kdo K_rtnl_lock (kfree_skb reply s)))
                    = filter rtnl_or_wire (klog st)
                        ++ [K_rtnl_unlock;
                            K_genlmsg_multicast
                              (stamped (fdb_request PAGE_SIZE esz request maxnum offset)
                                 (kdo K_rtnl_unlock st1));
                            K_rtnl_lock]).
    { apply Hlock. rewrite rtnl_or_wire_kfree. exact Hs. }
    destruct (s32 (u32 (- nla_get_u32 nla)) <? 0); [exact Hfree|].
    destruct (tb BRC_GENL_A_FDB_DATA) as [fd|]; [|exact Hfree].
    destruct (negb (nla_len fd mod esz =? 0)
              || (nla_len fd / esz >? fdb_clamp PAGE_SIZE esz maxnum));
      [exact Hfree|].
    destruct (copy_to_user userbuf (nla_data fd) (nla_len fd)). exact Hfree.
Qed.

(** X10.  From a state whose slot is valid, the helpers that are called
    with rtnl held release it only around the round trip and hold it again
    when they return.  [brc_get_port_list] unlocks, sends at most one
    request, and locks.  [brc_add_del_port] and [brc_get_fdb_entries] either
    send nothing and never release rtnl (unknown port, or no memory for the
    request), or unlock, send exactly one request, and lock. *)
Theorem X10_rtnl_released_only_around_round_trip (HZ PAGE_SIZE esz : Z)
  (init_net : Z -> option net_device) (ae : alloc_env) (env : rpc_env)
  (st : brc_state) :
  slot_valid st ->
  (forall dev_name uindices num,
     exists mid,
       filter rtnl_or_wire
         (klog (snd (brc_get_port_list HZ dev_name uindices num ae env st)))
       = filter rtnl_or_wire (klog st) ++ K_rtnl_unlock :: mid ++ [K_rtnl_lock] /\
       (mid = [] \/ exists request, mid = [K_genlmsg_multicast request])) /\
  (forall dev port_ifindex add,
     (filter rtnl_or_wire
        (klog (snd (brc_add_del_port HZ init_net dev port_ifindex add ae env st)))
      = filter rtnl_or_wire (klog st) /\
      (fst (brc_add_del_port HZ init_net dev port_ifindex add ae env st) = Ret (- EINVAL)
       \/ fst (brc_add_del_port HZ init_net dev port_ifindex add ae env st)
          = Ret (- ENOMEM))) \/
     (exists request,
        filter rtnl_or_wire
          (klog (snd (brc_add_del_port HZ init_net dev port_ifindex add ae env st)))
        = filter rtnl_or_wire (klog st)
            ++ [K_rtnl_unlock; K_genlmsg_multicast request; K_rtnl_lock])) /\
  (forall dev_name userbuf maxnum offset put_ok,
     (filter rtnl_or_wire
        (klog (snd (brc_get_fdb_entries HZ PAGE_SIZE esz dev_name userbuf maxnum offset
                      ae put_ok env st)))
      = filter rtnl_or_wire (klog st) /\
      fst (fst (brc_get_fdb_entries HZ PAGE_SIZE esz dev_name userbuf maxnum offset
                  ae put_ok env st)) = Ret (- ENOMEM)) \/
     (exists request,
        filter rtnl_or_wire
          (klog (snd (brc_get_fdb_entries HZ PAGE_SIZE esz dev_name userbuf maxnum offset
                        ae put_ok env st)))
        = filter rtnl_or_wire (klog st)
            ++ [K_rtnl_unlock; K_genlmsg_multicast request; K_rtnl_lock])).
Proof.
  intros Hv. split; [|split].
  - intros dev_name uindices num. unfold brc_get_port_list.
    assert (Hv2 : slot_valid (kdo K_rtnl_unlock st)) by exact Hv.
    pose proof (brc_get_indices_rtnl_or_wire HZ BRC_GENL_C_GET_PORTS (Some dev_name)
                  uindices num ae env _ Hv2) as H.
    destruct (brc_get_indices HZ BRC_GENL_C_GET_PORTS (Some dev_name) uindices num ae
                env (kdo K_rtnl_unlock st)) as [[r u] s].
    cbn [snd] in *. rewrite rtnl_or_wire_kdo in H. simpl in H.
    destruct H as [H|[request H]].
    + exists []. rewrite rtnl_or_wire_kdo, H. simpl. rewrite <- app_assoc. auto.
    + exists [K_genlmsg_multicast request]. rewrite rtnl_or_wire_kdo, H. simpl.
      rewrite <- !app_assoc. simpl. split; [reflexivity|]. right. eauto.
  - intros dev port_ifindex add. unfold brc_add_del_port.
    destruct (init_net port_ifindex) as [port|]; [|left; auto].
    match goal with
    | |- context [brc_make_request ?op ?b ?p ae st] =>
        pose proof (brc_make_request_rtnl_or_wire op b p ae st) as Hmk;
        destruct (brc_make_request op b p ae st) as [[request|] st1]
    end; simpl in Hmk; [|left; auto].
    right. exists (stamped request (kdo K_rtnl_unlock st1)).
    pose proof (brc_send_simple_command_rtnl_or_wire HZ request env
                  (kdo K_rtnl_unlock st1)) as Hs.
    destruct (brc_send_simple_command HZ request env (kdo K_rtnl_unlock st1)) as [r s].
    cbn [snd] in *. rewrite rtnl_or_wire_kdo in Hs. rewrite rtnl_or_wire_kdo, Hs, Hmk.
    simpl. rewrite <- !app_assoc. reflexivity.
  - intros dev_name userbuf maxnum offset put_ok.
    destruct (brc_get_fdb_entries_rtnl_or_wire HZ PAGE_SIZE esz dev_name userbuf maxnum
                offset ae put_ok env st Hv) as [[H Hf]|(request & st1 & _ & _ & H)].
    + left. split; [exact H|]. unfold brc_get_fdb_entries, brc_make_request.
      destruct (genlmsg_new_ok ae); [|reflexivity].
      destruct (nla_put_ok ae); [|reflexivity].
      destruct put_ok; [discriminate | reflexivity].
    + right. eauto.
Qed.

(** An instance of X10: adding port 3 to "br0" in the fresh module. *)
Lemma X10_rtnl_released_only_around_round_trip_witness :
  slot_valid st_fresh /\
  filter rtnl_or_wire
    (klog (snd (brc_add_del_port 100 sample_net dev_br0 3 1 alloc_fine
                  (env_answer 3 (sample_reply 7 0 [])) st_fresh)))
  = [K_rtnl_unlock;
     K_genlmsg_multicast
       (mk_skb 7 BRC_GENL_C_PORT_ADD
          [mk_nlattr (Some BRC_GENL_A_DP_NAME) (cstring "br0"%string);
           mk_nlattr (Some BRC_GENL_A_PORT_NAME) (cstring "eth1"%string)]);
     K_rtnl_lock].
Proof.
  assert (Hv : slot_valid st_fresh) by (intros r Hr; discriminate).
  split; [exact Hv|].
  destruct (X10_rtnl_released_only_around_round_trip 100 4096 16 sample_net alloc_fine
              (env_answer 3 (sample_reply 7 0 [])) st_fresh Hv) as (_ & Hport & _).
  destruct (Hport dev_br0 3 1) as [[_ [H|H]]|[request H]].
  - discriminate H.
  - discriminate H.
  - reflexivity.
Defined.

(** ** Forwarding-table queries: what is asked and what comes back *)

Lemma until_nul_app_nul (a rest : list byte) :
  until_nul (a ++ x00 :: rest) = until_nul a.
Proof.
  induction a as [|b a IH]; simpl; [reflexivity|].
  destruct (is_nul b); [reflexivity | rewrite IH; reflexivity].
Qed.

Lemma fdb_clamp_min PAGE_SIZE esz maxnum :
  fdb_clamp PAGE_SIZE esz maxnum = Z.min maxnum (PAGE_SIZE / esz).
Proof.
  unfold fdb_clamp. destruct (Z.gtb_spec maxnum (PAGE_SIZE / esz)); lia.
Qed.

Lemma length_le_encode width z : length (le_encode width z) = width.
Proof.
  revert z. induction width as [|w IH]; intros z; simpl; [|rewrite IH]; reflexivity.
Qed.

(** X11.  A forwarding-table query whose request could be built sends one
    request: command [BRC_GENL_C_FDB_QUERY], the next sequence number, the
    device name as a NUL-terminated string, then the count and the offset as
    eight bytes each.  Read back as 64-bit integers these are the smaller of
    [maxnum] and [PAGE_SIZE / sizeof(struct __fdb_entry)], and [offset]. *)
Theorem X11_fdb_request_carries_clamped_count (HZ PAGE_SIZE esz : Z)
  (dev_name : String.string) (userbuf : list byte) (maxnum offset : Z)
  (ae : alloc_env) (env : rpc_env) (st : brc_state) :
  slot_valid st ->
  genlmsg_new_ok ae = true -> nla_put_ok ae = true ->
  0 <= maxnum < 2 ^ 64 -> 0 <= offset < 2 ^ 64 -> 0 <= PAGE_SIZE / esz ->
  exists count skip,
    In (K_genlmsg_multicast
          (mk_skb (u32 (brc_seq st + 1)) BRC_GENL_C_FDB_QUERY
             [mk_nlattr (Some BRC_GENL_A_DP_NAME) (cstring dev_name);
              mk_nlattr (Some BRC_GENL_A_FDB_COUNT) count;
              mk_nlattr (Some BRC_GENL_A_FDB_SKIP) skip]))
       (klog (snd (brc_get_fdb_entries HZ PAGE_SIZE esz dev_name userbuf maxnum offset
                     ae true env st))) /\
    length count = 8%nat /\ length skip = 8%nat /\
    le_decode count = Z.min maxnum (PAGE_SIZE / esz) /\
    le_decode skip = offset.
Proof.
  intros Hv Hnew Hput Hmax Hoff Hpage.
  exists (le_encode 8 (fdb_clamp PAGE_SIZE esz maxnum)), (le_encode 8 offset).
  split; [|split; [apply length_le_encode|split; [apply length_le_encode|split]]].
  - destruct (brc_get_fdb_entries_rtnl_or_wire HZ PAGE_SIZE esz dev_name userbuf maxnum
                offset ae true env st Hv) as [[_ Hf]|(request & st1 & Hmk & _ & H)].
    { rewrite Hnew, Hput in Hf. discriminate. }
    unfold brc_make_request in Hmk. rewrite Hnew, Hput in Hmk. inversion Hmk. subst.
    assert (Hin : In (K_genlmsg_multicast
                        (stamped (fdb_request PAGE_SIZE esz
                                    (NLA_PUT_STRING
                                       (NLA_PUT_STRING (mk_skb 0 BRC_GENL_C_FDB_QUERY [])
                                          BRC_GENL_A_DP_NAME (Some dev_name))
                                       BRC_GENL_A_PORT_NAME None) maxnum offset)
                           (kdo K_rtnl_unlock (kdo K_genlmsg_new st))))
                     (filter rtnl_or_wire
                        (klog (snd (brc_get_fdb_entries HZ PAGE_SIZE esz dev_name userbuf
                                      maxnum offset ae true env st))))).
    { rewrite H. apply in_or_app. right. right. left. reflexivity. }
    apply filter_In in Hin. exact (proj1 Hin).
  - rewrite le_decode_encode, fdb_clamp_min.
    change (256 ^ Z.of_nat 8) with (2 ^ 64). apply Z.mod_small. lia.
  - rewrite le_decode_encode. change (256 ^ Z.of_nat 8) with (2 ^ 64).
    apply Z.mod_small. lia.
Qed.

(** An instance of X11 with 4096-byte pages and 16-byte entries: 1000
    entries asked for from offset 5, 256 requested. *)
Lemma X11_fdb_request_carries_clamped_count_witness :
  slot_valid st_fresh /\
  exists count skip,
    In (K_genlmsg_multicast
          (mk_skb 7 BRC_GENL_C_FDB_QUERY
             [mk_nlattr (Some BRC_GENL_A_DP_NAME) (cstring "br0"%string);
              mk_nlattr (Some BRC_GENL_A_FDB_COUNT) count;
              mk_nlattr (Some BRC_GENL_A_FDB_SKIP) skip]))
       (klog (snd (brc_get_fdb_entries 100 4096 16 "br0"%string (repeat x00 64) 1000 5
                     alloc_fine true env_fdb_two st_fresh))) /\
    le_decode count = 256 /\ le_decode skip = 5.
Proof.
  assert (Hv : slot_valid st_fresh) by (intros r Hr; discriminate).
  split; [exact Hv|].
  destruct (X11_fdb_request_carries_clamped_count 100 4096 16 "br0"%string
              (repeat x00 64) 1000 5 alloc_fine env_fdb_two st_fresh Hv
              eq_refl eq_refl) as (count & skip & Hin & _ & _ & Hc & Hs); try lia.
  { vm_compute. discriminate. }
  exists count, skip. split; [exact Hin|]. split; [exact Hc | exact Hs].
Defined.

(** X12.  Whatever the reply and the caller buffer, a result of
    [brc_get_fdb_entries] that is not negative is at most [maxnum] and at
    most a page worth of entries; it counts the entries of the reply, all
    copied to the front of the caller buffer, which keeps its size and every
    byte past them.  A negative result other than [-EFAULT] leaves the whole
    buffer as it was. *)
Theorem X12_fdb_result_bounded (HZ PAGE_SIZE esz : Z) (dev_name : String.string)
  (userbuf : list byte) (maxnum offset : Z) (ae : alloc_env) (put_ok : bool)
  (env : rpc_env) (st : brc_state) (v : Z) :
  0 < esz ->
  fst (fst (brc_get_fdb_entries HZ PAGE_SIZE esz dev_name userbuf maxnum offset
              ae put_ok env st)) = Ret v ->
  (0 <= v ->
   v <= maxnum /\ v <= PAGE_SIZE / esz /\
   length (snd (fst (brc_get_fdb_entries HZ PAGE_SIZE esz dev_name userbuf maxnum
                       offset ae put_ok env st))) = length userbuf /\
   skipn (Z.to_nat (v * esz))
     (snd (fst (brc_get_fdb_entries HZ PAGE_SIZE esz dev_name userbuf maxnum offset
                  ae put_ok env st)))
   = skipn (Z.to_nat (v * esz)) userbuf) /\
  (v < 0 -> v <> - EFAULT ->
   snd (fst (brc_get_fdb_entries HZ PAGE_SIZE esz dev_name userbuf maxnum offset
               ae put_ok env st)) = userbuf).
Proof.
  intros Hesz. unfold brc_get_fdb_entries.
  destruct (fdb_clamp_bounds PAGE_SIZE esz maxnum) as [Hc1 Hc2].
  destruct (brc_make_request BRC_GENL_C_FDB_QUERY (Some dev_name) None ae st)
    as [[request|] st1].
  2:{ simpl. intros E. inversion E. unfold ENOMEM. split; [lia | auto]. }
  destruct put_ok; simpl negb; cbv iota.
  2:{ simpl. intros E. inversion E. unfold ENOMEM. split; [lia | auto]. }
  fold (fdb_request PAGE_SIZE esz request maxnum offset).
  pose proof (brc_send_command_err_negative HZ
                (fdb_request PAGE_SIZE esz request maxnum offset) env
                (kdo K_rtnl_unlock st1)) as Hneg.
  destruct (brc_send_command HZ (fdb_request PAGE_SIZE esz request maxnum offset) env
              (kdo K_rtnl_unlock st1)) as [[e|reply tb|] st2]; simpl in Hneg.
  - simpl. intros E. inversion E. subst v. specialize (Hneg e eq_refl).
    split; [lia | auto].
  - destruct (tb BRC_GENL_A_ERR_CODE) as [ec|]; [|simpl; discriminate].
    destruct (Z.ltb_spec (s32 (u32 (- nla_get_u32 ec))) 0) as [Hr|Hr].
    { simpl. intros E. inversion E. subst v. split; [lia | auto]. }
    destruct (tb BRC_GENL_A_FDB_DATA) as [fd|].
    2:{ simpl. intros E. inversion E. unfold EINVAL. split; [lia | auto]. }
    destruct (Z.eqb_spec (nla_len fd mod esz) 0) as [Hm|Hm];
      destruct (Z.gtb_spec (nla_len fd / esz) (fdb_clamp PAGE_SIZE esz maxnum))
        as [Hgt|Hle]; simpl negb; simpl orb; cbv iota;
      try (simpl; intros E; inversion E; unfold EINVAL; split; [lia | auto]).
    pose proof (Z_div_mod_eq_full (nla_len fd) esz) as Hdm.
    assert (Hq : 0 <= nla_len fd / esz) by (apply Z.div_pos; unfold nla_len; lia).
    unfold copy_to_user.
    destruct (Z.leb_spec (nla_len fd) (Z.of_nat (length userbuf))) as [Hfit|Hfit]; simpl.
    + intros E. inversion E. subst v. split; [|lia].
      intros _. split; [lia|]. split; [lia|].
      replace (nla_len fd / esz * esz) with (nla_len fd) by lia.
      unfold nla_len in *. rewrite Nat2Z.id. split.
      * rewrite firstn_all, length_app, length_skipn. lia.
      * apply skipn_copied. lia.
    + destruct (Z.eqb_spec (nla_len fd - Z.of_nat (length userbuf)) 0) as [Hz|Hz];
        [lia|].
      simpl. intros E. inversion E. unfold EFAULT. split; [lia|]. intros _ H. lia.
  - simpl. discriminate.
Qed.

(** An instance of X12: two entries of 16 bytes into a buffer of 64. *)
Lemma X12_fdb_result_bounded_witness :
  fst (fst (brc_get_fdb_entries 100 4096 16 "br0"%string (repeat x00 64) 8 0
              alloc_fine true env_fdb_two st_fresh)) = Ret 2 /\
  skipn 32 (snd (fst (brc_get_fdb_entries 100 4096 16 "br0"%string (repeat x00 64) 8 0
                        alloc_fine true env_fdb_two st_fresh)))
  = skipn 32 (repeat x00 64).
Proof.
  assert (E : fst (fst (brc_get_fdb_entries 100 4096 16 "br0"%string (repeat x00 64) 8 0
                          alloc_fine true env_fdb_two st_fresh)) = Ret 2)
    by reflexivity.
  destruct (X12_fdb_result_bounded 100 4096 16 "br0"%string (repeat x00 64) 8 0
              alloc_fine true env_fdb_two st_fresh 2 ltac:(lia) E) as [Hpos _].
  destruct Hpos as (_ & _ & _ & Hskip); [lia|].
  split; [exact E | exact Hskip].
Defined.



(** ** Bridge information *)

Lemma byte_of_Z_of_byte b : byte_of_Z (Z_of_byte b) = b.
Proof.
  unfold byte_of_Z, Z_of_byte.
  pose proof (Byte.to_N_bounded b) as Hb.
  rewrite Z.mod_small by lia. rewrite N2Z.id, Byte.of_to_N. reflexivity.
Qed.

Lemma byte_of_Z_low b d : byte_of_Z (Z_of_byte b + 256 * d) = b.
Proof.
  pose proof (Z_of_byte_range b) as Hb.
  assert (E : (Z_of_byte b + 256 * d) mod 256 = Z_of_byte b mod 256).
  { rewrite (Z.mul_comm 256 d). apply Z_mod_plus_full. }
  pose proof (byte_of_Z_of_byte b) as Hid.
  unfold byte_of_Z in *. rewrite E. exact Hid.
Qed.

Lemma le_encode_zero width : le_encode width 0 = repeat x00 width.
Proof.
  induction width as [|w IH]; [reflexivity|].
  cbn [le_encode repeat]. change (0 / 256) with 0. rewrite IH. reflexivity.
Qed.

Lemma le_encode_decode bs k :
  le_encode (length bs + k) (le_decode bs) = bs ++ repeat x00 k.
Proof.
  induction bs as [|b bs IH].
  - apply le_encode_zero.
  - cbn [length Nat.add le_encode le_decode app].
    rewrite byte_of_Z_low. f_equal.
    pose proof (Z_of_byte_range b).
    replace ((Z_of_byte b + 256 * le_decode bs) / 256) with (le_decode bs).
    + exact IH.
    + symmetry. rewrite Z.add_comm, Z.mul_comm, Z.div_add_l by lia.
      rewrite Z.div_small by lia. lia.
Qed.

Lemma lor_disjoint a b n :
  0 <= n -> 0 <= b < 2 ^ n -> Z.lor (a * 2 ^ n) b = a * 2 ^ n + b.
Proof.
  intros Hn Hb.
  assert (Hland : Z.land (a * 2 ^ n) b = 0).
  { apply Z.bits_inj'. intros m Hm. rewrite Z.land_spec, Z.bits_0.
    destruct (Z_lt_ge_dec m n) as [Hlt|Hge].
    - rewrite Z.mul_pow2_bits_low by lia. reflexivity.
    - rewrite <- (Z.mod_small b (2 ^ n)) by lia.
      rewrite Z.mod_pow2_bits_high by lia. apply andb_false_r. }
  rewrite Z.add_nocarry_lxor by exact Hland. symmetry. apply Z.lxor_lor, Hland.
Qed.

Lemma bridge_id_value (b0 b1 b2 b3 b4 b5 : byte) :
  bridge_id_loop [b0; b1; b2; b3; b4; b5] 0 (Z.to_nat ETH_ALEN) 0
  = le_decode [b5; b4; b3; b2; b1; b0].
Proof.
  change (Z.to_nat ETH_ALEN) with 6%nat.
  cbn [bridge_id_loop nth le_decode].
  change (8 * (ETH_ALEN - 1 - Z.of_nat 0)) with 40.
  change (8 * (ETH_ALEN - 1 - Z.of_nat 1)) with 32.
  change (8 * (ETH_ALEN - 1 - Z.of_nat 2)) with 24.
  change (8 * (ETH_ALEN - 1 - Z.of_nat 3)) with 16.
  change (8 * (ETH_ALEN - 1 - Z.of_nat 4)) with 8.
  change (8 * (ETH_ALEN - 1 - Z.of_nat 5)) with 0.
  pose proof (Z_of_byte_range b0). pose proof (Z_of_byte_range b1).
  pose proof (Z_of_byte_range b2). pose proof (Z_of_byte_range b3).
  pose proof (Z_of_byte_range b4). pose proof (Z_of_byte_range b5).
  rewrite !Z.shiftl_mul_pow2 by lia. rewrite Z.lor_0_l.
  rewrite (lor_disjoint (Z_of_byte b0) (Z_of_byte b1 * 2 ^ 32) 40) by lia.
  replace (Z_of_byte b0 * 2 ^ 40 + Z_of_byte b1 * 2 ^ 32)
    with ((Z_of_byte b0 * 2 ^ 8 + Z_of_byte b1) * 2 ^ 32) by lia.
  rewrite (lor_disjoint _ (Z_of_byte b2 * 2 ^ 24) 32) by lia.
  replace ((Z_of_byte b0 * 2 ^ 8 + Z_of_byte b1) * 2 ^ 32 + Z_of_byte b2 * 2 ^ 24)
    with ((Z_of_byte b0 * 2 ^ 16 + Z_of_byte b1 * 2 ^ 8 + Z_of_byte b2) * 2 ^ 24) by lia.
  rewrite (lor_disjoint _ (Z_of_byte b3 * 2 ^ 16) 24) by lia.
  replace ((Z_of_byte b0 * 2 ^ 16 + Z_of_byte b1 * 2 ^ 8 + Z_of_byte b2) * 2 ^ 24
           + Z_of_byte b3 * 2 ^ 16)
    with ((Z_of_byte b0 * 2 ^ 24 + Z_of_byte b1 * 2 ^ 16 + Z_of_byte b2 * 2 ^ 8
           + Z_of_byte b3) * 2 ^ 16) by lia.
  rewrite (lor_disjoint _ (Z_of_byte b4 * 2 ^ 8) 16) by lia.
  replace ((Z_of_byte b0 * 2 ^ 24 + Z_of_byte b1 * 2 ^ 16 + Z_of_byte b2 * 2 ^ 8
            + Z_of_byte b3) * 2 ^ 16 + Z_of_byte b4 * 2 ^ 8)
    with ((Z_of_byte b0 * 2 ^ 32 + Z_of_byte b1 * 2 ^ 24 + Z_of_byte b2 * 2 ^ 16
           + Z_of_byte b3 * 2 ^ 8 + Z_of_byte b4) * 2 ^ 8) by lia.
  rewrite (lor_disjoint _ (Z_of_byte b5 * 2 ^ 0) 8) by lia.
  lia.
Qed.

(** X14.  For a device with a six-byte hardware address,
    [brc_get_bridge_info] reports a bridge identifier whose eight bytes in
    memory are two zero bytes followed by the address, and spanning tree
    disabled; it returns 0 when the structure can be written to the caller
    and [-EFAULT], with nothing written, when it cannot. *)
Theorem X14_bridge_id_is_hardware_address (dev : net_device) :
  length (dev_addr dev) = 6%nat ->
  brc_get_bridge_info dev true
  = (0, Some (mk_bridge_info ([x00; x00] ++ dev_addr dev) 0)) /\
  brc_get_bridge_info dev false = (- EFAULT, None).
Proof.
  intros Hlen. split; [|reflexivity].
  unfold brc_get_bridge_info.
  destruct (dev_addr dev) as [|b0 [|b1 [|b2 [|b3 [|b4 [|b5 [|b6 rest]]]]]]];
    try discriminate.
  rewrite bridge_id_value. unfold cpu_to_be64.
  pose proof (le_encode_decode [b5; b4; b3; b2; b1; b0] 2) as Hrt.
  cbn [length Nat.add] in Hrt. rewrite Hrt. reflexivity.
Qed.

(** An instance of X14: the bridge with address 00:23:20:aa:bb:cc. *)
Lemma X14_bridge_id_is_hardware_address_witness :
  length (dev_addr dev_br0) = 6%nat /\
  brc_get_bridge_info dev_br0 true
  = (0, Some (mk_bridge_info [x00; x00; x00; x23; x20; xaa; xbb; xcc] 0)).
Proof.
  split; [reflexivity|].
  exact (proj1 (X14_bridge_id_is_hardware_address dev_br0 eq_refl)).
Defined.

(** ** Bridges and ports *)

Lemma brc_send_simple_command_sent HZ request env st :
  sent_requests (klog (snd (brc_send_simple_command HZ request env st)))
  = sent_requests (klog st) ++ [stamped request st].
Proof.
  destruct (brc_send_command_traffic HZ request env st) as (_ & H & _).
  unfold brc_send_simple_command.
  destruct (brc_send_command HZ request env st) as [[e|reply tb|] s]; simpl in H;
    try exact H.
  destruct (tb BRC_GENL_A_ERR_CODE); [|exact H].
  cbn [snd]. unfold kfree_skb. rewrite sent_requests_kdo by (intros; discriminate).
  exact H.
Qed.

Lemma cstring_c_string buf : cstring (c_string buf) = until_nul buf ++ [x00].
Proof.
  unfold cstring, c_string. rewrite String.list_byte_of_string_of_list_byte.
  reflexivity.
Qed.

Lemma length_until_nul bs : (length (until_nul bs) <= length bs)%nat.
Proof.
  induction bs as [|b bs IH]; simpl; [lia|].
  destruct (is_nul b); simpl; lia.
Qed.

Lemma name_buffer_string (uname : list byte) :
  IFNAMSIZ <= Z.of_nat (length uname) ->
  until_nul (store_byte (firstn (Z.to_nat IFNAMSIZ) uname) (Z.to_nat (IFNAMSIZ - 1)) x00)
  = until_nul (firstn 15 uname).
Proof.
  intros H. unfold store_byte.
  change (Z.to_nat (IFNAMSIZ - 1)) with 15%nat.
  change (Z.to_nat IFNAMSIZ) with 16%nat.
  rewrite until_nul_app_nul, firstn_firstn. reflexivity.
Qed.

(** X15.  [brc_add_del_bridge] reads sixteen bytes of name from the caller
    and fails with [-EFAULT], doing nothing else, when they cannot all be
    read.  Otherwise the name it sends is what precedes the first NUL among
    the first fifteen bytes, at most fifteen bytes however long the caller's
    name is, NUL-terminated, in one request whose command is
    [BRC_GENL_C_DP_ADD] when [add] is not 0 and [BRC_GENL_C_DP_DEL] when it
    is; when the request cannot be built the result is [-ENOMEM] and nothing
    is sent. *)
Theorem X15_bridge_name_truncated (HZ : Z) (uname : list byte) (add : Z)
  (ae : alloc_env) (env : rpc_env) (st : brc_state) :
  (Z.of_nat (length uname) < IFNAMSIZ ->
   brc_add_del_bridge HZ uname add ae env st = (Ret (- EFAULT), st)) /\
  (IFNAMSIZ <= Z.of_nat (length uname) ->
   (length (until_nul (firstn 15 uname)) <= 15)%nat /\
   (genlmsg_new_ok ae && nla_put_ok ae = false ->
    fst (brc_add_del_bridge HZ uname add ae env st) = Ret (- ENOMEM) /\
    sent_requests (klog (snd (brc_add_del_bridge HZ uname add ae env st)))
    = sent_requests (klog st)) /\
   (genlmsg_new_ok ae && nla_put_ok ae = true ->
    sent_requests (klog (snd (brc_add_del_bridge HZ uname add ae env st)))
    = sent_requests (klog st)
        ++ [mk_skb (u32 (brc_seq st + 1))
              (if add =? 0 then BRC_GENL_C_DP_DEL else BRC_GENL_C_DP_ADD)
              [mk_nlattr (Some BRC_GENL_A_DP_NAME)
                 (until_nul (firstn 15 uname) ++ [x00])]])).
Proof.
  unfold brc_add_del_bridge, copy_from_user. split.
  - intros Hshort.
    destruct (Z.leb_spec IFNAMSIZ (Z.of_nat (length uname))); [lia|].
    destruct (Z.eqb_spec (IFNAMSIZ - Z.of_nat (length uname)) 0); [lia|].
    reflexivity.
  - intros Hlong.
    destruct (Z.leb_spec IFNAMSIZ (Z.of_nat (length uname))); [|lia].
    simpl (negb (0 =? 0)). cbv iota.
    split; [|split].
    + pose proof (length_until_nul (firstn 15 uname)) as H1.
      pose proof (firstn_le_length 15 uname) as H2. lia.
    + intros Hfail. unfold brc_make_request.
      destruct (genlmsg_new_ok ae); simpl in Hfail; [|auto].
      rewrite Hfail. cbn [fst snd]. split; [reflexivity|].
      unfold kfree_skb. rewrite !sent_requests_kdo by (intros; discriminate).
      reflexivity.
    + intros Hok. apply andb_true_iff in Hok. destruct Hok as [Hnew Hput].
      match goal with
      | |- context [c_string ?buf] =>
          pose proof (cstring_c_string buf) as Hname;
          rewrite (name_buffer_string uname Hlong) in Hname;
          set (nm := c_string buf) in *; clearbody nm
      end.
      unfold brc_make_request. rewrite Hnew, Hput.
      rewrite brc_send_simple_command_sent.
      rewrite sent_requests_kdo by (intros; discriminate).
      f_equal. f_equal. unfold stamped. simpl.
      unfold set_nlmsg_seq, nla_put. simpl. rewrite Hname.
      destruct (add =? 0); reflexivity.
Qed.

(** An instance of X15: a caller's name of twenty bytes goes out as its
    first fifteen. *)
Lemma X15_bridge_name_truncated_witness :
  IFNAMSIZ <= Z.of_nat (length long_name) /\
  sent_requests (klog (snd (brc_add_del_bridge 100 long_name 1 alloc_fine
                              (env_answer 3 (sample_reply 7 0 [])) st_fresh)))
  = [mk_skb 7 BRC_GENL_C_DP_ADD
       [mk_nlattr (Some BRC_GENL_A_DP_NAME) (cstring "bridge-number-s"%string)]].
Proof.
  assert (H : IFNAMSIZ <= Z.of_nat (length long_name)) by (vm_compute; discriminate).
  split; [exact H|].
  destruct (X15_bridge_name_truncated 100 long_name 1 alloc_fine
              (env_answer 3 (sample_reply 7 0 [])) st_fresh) as [_ Hlong].
  destruct (Hlong H) as (_ & _ & Hsent).
  rewrite (Hsent eq_refl). reflexivity.
Defined.

(** X16.  [brc_add_del_port] answers an interface index that names no
    device with [-EINVAL] and does nothing else; when the request cannot be
    built it returns [-ENOMEM] and sends nothing; otherwise it sends one
    request that carries the bridge's name and then the port's name, each
    NUL-terminated, with command [BRC_GENL_C_PORT_ADD] when [add] is not 0
    and [BRC_GENL_C_PORT_DEL] when it is. *)
Theorem X16_port_request_names_bridge_and_port (HZ : Z)
  (init_net : Z -> option net_device) (dev : net_device) (port_ifindex add : Z)
  (ae : alloc_env) (env : rpc_env) (st : brc_state) :
  (init_net port_ifindex = None ->
   brc_add_del_port HZ init_net dev port_ifindex add ae env st = (Ret (- EINVAL), st)) /\
  (forall port,
     init_net port_ifindex = Some port ->
     (genlmsg_new_ok ae && nla_put_ok ae = false ->
      fst (brc_add_del_port HZ init_net dev port_ifindex add ae env st) = Ret (- ENOMEM) /\
      sent_requests (klog (snd (brc_add_del_port HZ init_net dev port_ifindex add ae
                                  env st))) = sent_requests (klog st)) /\
     (genlmsg_new_ok ae && nla_put_ok ae = true ->
      sent_requests (klog (snd (brc_add_del_port HZ init_net dev port_ifindex add ae
                                  env st)))
      = sent_requests (klog st)
          ++ [mk_skb (u32 (brc_seq st + 1))
                (if add =? 0 then BRC_GENL_C_PORT_DEL else BRC_GENL_C_PORT_ADD)
                [mk_nlattr (Some BRC_GENL_A_DP_NAME) (cstring (dev_name dev));
                 mk_nlattr (Some BRC_GENL_A_PORT_NAME) (cstring (dev_name port))]])).
Proof.
  unfold brc_add_del_port. split.
  - intros Hnone. rewrite Hnone. reflexivity.
  - intros port Hport. rewrite Hport. split.
    + intros Hfail. unfold brc_make_request.
      destruct (genlmsg_new_ok ae); simpl in Hfail; [|auto].
      rewrite Hfail. cbn [fst snd]. split; [reflexivity|].
      unfold kfree_skb. rewrite !sent_requests_kdo by (intros; discriminate).
      reflexivity.
    + intros Hok. apply andb_true_iff in Hok. destruct Hok as [Hnew Hput].
      unfold brc_make_request. rewrite Hnew, Hput.
      match goal with
      | |- context [brc_send_simple_command HZ ?r env ?s] =>
          pose proof (brc_send_simple_command_sent HZ r env s) as Hs;
          destruct (brc_send_simple_command HZ r env s) as [err s']
      end.
      cbn [snd] in *. rewrite sent_requests_kdo by (intros; discriminate).
      rewrite Hs. rewrite !sent_requests_kdo by (intros; discriminate).
      f_equal. f_equal. unfold stamped. simpl.
      unfold set_nlmsg_seq, nla_put. simpl.
      destruct (add =? 0); reflexivity.
Qed.

(** Instances of X16: interface index 4 names no device; index 3 is
    "eth1", added to "br0". *)
Lemma X16_port_request_names_bridge_and_port_witness :
  sample_net 4 = None /\
  brc_add_del_port 100 sample_net dev_br0 4 1 alloc_fine
    (env_answer 3 (sample_reply 7 0 [])) st_fresh = (Ret (- EINVAL), st_fresh) /\
  sample_net 3 = Some dev_eth1 /\
  sent_requests (klog (snd (brc_add_del_port 100 sample_net dev_br0 3 1 alloc_fine
                              (env_answer 3 (sample_reply 7 0 [])) st_fresh)))
  = [mk_skb 7 BRC_GENL_C_PORT_ADD
       [mk_nlattr (Some BRC_GENL_A_DP_NAME) (cstring "br0"%string);
        mk_nlattr (Some BRC_GENL_A_PORT_NAME) (cstring "eth1"%string)]].
Proof.
  split; [reflexivity|]. split.
  - apply (proj1 (X16_port_request_names_bridge_and_port 100 sample_net dev_br0 4 1
                    alloc_fine (env_answer 3 (sample_reply 7 0 [])) st_fresh)).
    reflexivity.
  - split; [reflexivity|].
    destruct (X16_port_request_names_bridge_and_port 100 sample_net dev_br0 3 1
                alloc_fine (env_answer 3 (sample_reply 7 0 [])) st_fresh) as [_ Hsome].
    destruct (Hsome dev_eth1 eq_refl) as [_ Hsent].
    rewrite (Hsent eq_refl). reflexivity.
Defined.

(** * Header helpers of packets.h *)

Lemma land_byte_255 a : 0 <= a <= 255 -> Z.land a 255 = a.
Proof.
  intros H. change 255 with (Z.ones 8). rewrite Z.land_ones by lia.
  apply Z.mod_small. change (2 ^ 8) with 256. lia.
Qed.

Lemma land_all_ones_member x a : 0 <= a <= 255 -> Z.land x a = x -> x = 255 -> a = 255.
Proof.
  intros Ha Habs Hx. subst x. rewrite Z.land_comm, land_byte_255 in Habs by exact Ha.
  exact Habs.
Qed.

Lemma Z_of_byte_255 b : Z_of_byte b = 255 -> b = xff.
Proof.
  intros H. rewrite <- (byte_of_Z_of_byte b), H. reflexivity.
Qed.

(** X17.  For a six-byte address, [eth_addr_is_broadcast] holds exactly of
    ff:ff:ff:ff:ff:ff, and an address it holds of is also a multicast and a
    locally administered address for [eth_addr_is_multicast] and
    [eth_addr_is_local]. *)
Theorem X17_broadcast_is_all_ones (ea : list byte) :
  length ea = 6%nat ->
  (eth_addr_is_broadcast ea = true <-> ea = [xff; xff; xff; xff; xff; xff]) /\
  (eth_addr_is_broadcast ea = true ->
   eth_addr_is_multicast ea = true /\ eth_addr_is_local ea = true).
Proof.
  intros Hlen.
  destruct ea as [|b0 [|b1 [|b2 [|b3 [|b4 [|b5 [|b6 rest]]]]]]]; try discriminate.
  assert (Hall : eth_addr_is_broadcast [b0; b1; b2; b3; b4; b5] = true ->
                 [b0; b1; b2; b3; b4; b5] = [xff; xff; xff; xff; xff; xff]).
  { unfold eth_addr_is_broadcast, ea_at. cbn [nth]. intros H. apply Z.eqb_eq in H.
    set (x := Z.land (Z.land (Z.land (Z.land (Z.land (Z_of_byte b0) (Z_of_byte b1))
                                        (Z_of_byte b2)) (Z_of_byte b3)) (Z_of_byte b4))
                (Z_of_byte b5)) in *.
    assert (Hm : forall b, In b [b0; b1; b2; b3; b4; b5] -> Z.land x (Z_of_byte b) = x).
    { intros b Hin. unfold x. apply Z.bits_inj'. intros n Hn.
      rewrite !Z.land_spec.
      destruct Hin as [E|[E|[E|[E|[E|[E|[]]]]]]]; subst b;
        destruct (Z.testbit (Z_of_byte b0) n), (Z.testbit (Z_of_byte b1) n),
                 (Z.testbit (Z_of_byte b2) n), (Z.testbit (Z_of_byte b3) n),
                 (Z.testbit (Z_of_byte b4) n), (Z.testbit (Z_of_byte b5) n);
        reflexivity. }
    assert (Hb : forall b, In b [b0; b1; b2; b3; b4; b5] -> b = xff).
    { intros b Hin. apply Z_of_byte_255.
      apply (land_all_ones_member x); [apply Z_of_byte_range | apply Hm, Hin | exact H]. }
    rewrite (Hb b0), (Hb b1), (Hb b2), (Hb b3), (Hb b4), (Hb b5); simpl; auto 10. }
  split.
  - split; [exact Hall|]. intros E. rewrite E. reflexivity.
  - intros H. rewrite (Hall H). split; reflexivity.
Qed.

(** An instance of X17: the broadcast address. *)
Lemma X17_broadcast_is_all_ones_witness :
  length [xff; xff; xff; xff; xff; xff] = 6%nat /\
  eth_addr_is_broadcast [xff; xff; xff; xff; xff; xff] = true /\
  eth_addr_is_multicast [xff; xff; xff; xff; xff; xff] = true.
Proof.
  destruct (X17_broadcast_is_all_ones [xff; xff; xff; xff; xff; xff] eq_refl)
    as [Hiff Hmc].
  split; [reflexivity|]. split.
  - apply Hiff. reflexivity.
  - apply Hmc, Hiff. reflexivity.
Defined.

(** X18.  [IP_VER] and [IP_IHL] split the first byte of an IP header into
    its two four-bit halves and lose nothing: the byte is
    [IP_VER * 16 + IP_IHL], and a byte put together from a version and a
    header length below 16 gives both back. *)
Theorem X18_ip_version_and_header_length (v ver ihl : Z) :
  0 <= v < 256 -> 0 <= ver < 16 -> 0 <= ihl < 16 ->
  v = IP_VER v * 16 + IP_IHL v /\
  0 <= IP_VER v < 16 /\ 0 <= IP_IHL v < 16 /\
  IP_VER (ver * 16 + ihl) = ver /\
  IP_IHL (ver * 16 + ihl) = ihl.
Proof.
  intros Hv Hver Hihl. unfold IP_VER, IP_IHL.
  change 15 with (Z.ones 4).
  rewrite !Z.shiftr_div_pow2, !Z.land_ones by lia. change (2 ^ 4) with 16.
  pose proof (Z_div_mod_eq_full v 16) as Hdm.
  pose proof (Z.mod_pos_bound v 16 ltac:(lia)) as Hm.
  assert (Hq : 0 <= v / 16 < 16).
  { split; [apply Z.div_pos; lia | apply Z.div_lt_upper_bound; lia]. }
  split; [lia|]. split; [exact Hq|]. split; [exact Hm|]. split.
  - rewrite Z.div_add_l by lia. rewrite Z.div_small by lia. lia.
  - rewrite Z.add_comm, Z_mod_plus_full. apply Z.mod_small. lia.
Qed.

(** An instance of X18: 0x45, version 4 with a header of five words. *)
Lemma X18_ip_version_and_header_length_witness :
  0 <= 69 < 256 /\ IP_VER 69 = 4 /\ IP_IHL 69 = 5 /\ IP_VER (4 * 16 + 5) = 4.
Proof.
  destruct (X18_ip_version_and_header_length 69 4 5) as (_ & _ & _ & Hver & _);
    try lia.
  split; [lia|]. split; [reflexivity|]. split; [reflexivity | exact Hver].
Defined.

Lemma htons_bytes (b0 b1 : byte) :
  htons (le_decode [b0; b1]) = Z_of_byte b0 * 2 ^ 8 + Z_of_byte b1.
Proof.
  unfold htons. cbn [le_decode].
  pose proof (Z_of_byte_range b0) as H0. pose proof (Z_of_byte_range b1) as H1.
  replace (Z_of_byte b0 + 256 * (Z_of_byte b1 + 256 * 0))
    with (Z_of_byte b0 + Z_of_byte b1 * 256) by lia.
  change 255 with (Z.ones 8).
  rewrite Z.shiftr_div_pow2, !Z.land_ones, Z.shiftl_mul_pow2 by lia.
  change (2 ^ 8) with 256.
  rewrite Z_mod_plus_full, Z.div_add by lia.
  rewrite (Z.mod_small (Z_of_byte b0)), (Z.div_small (Z_of_byte b0)) by lia.
  rewrite Z.add_0_l, (Z.mod_small (Z_of_byte b1)) by lia.
  change 256 with (2 ^ 8). apply lor_disjoint; [lia|]. change (2 ^ 8) with 256. lia.
Qed.

(** X19.  On a little-endian host, for the two bytes [b0 b1] that the
    [tcp_ctl] field occupies on the wire, [TCP_OFFSET] is the upper four
    bits of [b0] and [TCP_FLAGS] is the lower six bits of [b1]; so the
    offset is below 16, and each single flag and any combination fits. *)
Theorem X19_tcp_ctl_fields (b0 b1 : byte) :
  TCP_OFFSET (le_decode [b0; b1]) = Z_of_byte b0 / 16 /\
  TCP_FLAGS (le_decode [b0; b1]) = Z_of_byte b1 mod 64 /\
  0 <= TCP_OFFSET (le_decode [b0; b1]) < 16 /\
  0 <= TCP_FLAGS (le_decode [b0; b1])
    <= TCP_FIN + TCP_SYN + TCP_RST + TCP_PSH + TCP_ACK + TCP_URG.
Proof.
  unfold TCP_OFFSET, TCP_FLAGS. rewrite htons_bytes.
  pose proof (Z_of_byte_range b0) as H0. pose proof (Z_of_byte_range b1) as H1.
  change 63 with (Z.ones 6).
  rewrite Z.shiftr_div_pow2, Z.land_ones by lia.
  change (2 ^ 8) with 256. change (2 ^ 12) with 4096. change (2 ^ 6) with 64.
  assert (E1 : (Z_of_byte b0 * 256 + Z_of_byte b1) / 4096 = Z_of_byte b0 / 16).
  { pose proof (Z_div_mod_eq_full (Z_of_byte b0) 16) as Hdm.
    pose proof (Z.mod_pos_bound (Z_of_byte b0) 16 ltac:(lia)) as Hm.
    symmetry. apply Z.div_unique with (r := 256 * (Z_of_byte b0 mod 16) + Z_of_byte b1);
      lia. }
  assert (E2 : (Z_of_byte b0 * 256 + Z_of_byte b1) mod 64 = Z_of_byte b1 mod 64).
  { replace (Z_of_byte b0 * 256 + Z_of_byte b1)
      with (Z_of_byte b1 + (Z_of_byte b0 * 4) * 64) by lia.
    apply Z_mod_plus_full. }
  rewrite E1, E2.
  pose proof (Z.mod_pos_bound (Z_of_byte b1) 64 ltac:(lia)) as Hm.
  assert (Hq : 0 <= Z_of_byte b0 / 16 < 16).
  { split; [apply Z.div_pos; lia | apply Z.div_lt_upper_bound; lia]. }
  unfold TCP_FIN, TCP_SYN, TCP_RST, TCP_PSH, TCP_ACK, TCP_URG.
  repeat split; lia.
Qed.

(** * What the policy guarantees to the readers of a reply *)

Lemma nla_parse_checked policy all : forall nlas tb,
  (forall nla, In nla nlas -> In nla all) ->
  table_checked policy all tb ->
  table_checked policy all (snd (nla_parse policy nlas tb)).
Proof.
  induction nlas as [|nla rest IH]; intros tb Hsub Htb; [exact Htb|].
  simpl. destruct (nla_type nla) as [a|] eqn:Ety.
  - destruct (Z.ltb_spec (validate_nla policy a nla) 0) as [Hneg|Hok]; [exact Htb|].
    apply IH; [intros x Hx; apply Hsub; right; exact Hx|].
    intros b x Hb. unfold tb_set in Hb.
    destruct (brc_attr_eq_dec a b) as [E|E].
    + inversion Hb. subst b x. split; [exact Ety|]. split.
      * pose proof (validate_nla_nonpos policy a nla). lia.
      * apply Hsub. left. reflexivity.
    + apply Htb. exact Hb.
  - apply IH; [intros x Hx; apply Hsub; right; exact Hx | exact Htb].
Qed.

Lemma nlmsg_parse_checked skb :
  table_checked brc_genl_policy (nlmsg_attrs skb)
    (snd (nlmsg_parse skb brc_genl_policy)).
Proof.
  unfold nlmsg_parse. apply nla_parse_checked; [auto|].
  intros a nla H. discriminate.
Qed.

Lemma brc_send_command_reply_parsed HZ request env st reply tb :
  fst (brc_send_command HZ request env st) = SR_reply reply tb ->
  tb = snd (nlmsg_parse reply brc_genl_policy).
Proof.
  destruct (Z_lt_ge_dec (multicast_ret env) 0) as [Hlt|Hge].
  { rewrite (brc_send_command_transport_error HZ request env st Hlt). discriminate. }
  assert (H0 : 0 <= multicast_ret env) by lia.
  rewrite (brc_send_command_after_multicast HZ request env st H0). cbv zeta.
  destruct (wait_for_completion_timeout _ _ _ _) as [left s3].
  destruct (left =? 0); [discriminate|].
  destruct (brc_reply (deliver_all (before_grab env) s3)) as [r|]; [|discriminate].
  destruct (nlmsg_parse r brc_genl_policy) as [error tb'] eqn:Ep. simpl.
  intros E. inversion E. subst. rewrite Ep. reflexivity.
Qed.

(** X20.  In the attribute array that [brc_send_command] hands back with a
    reply, from any module state, an error-code entry is an attribute of
    that reply, of the error-code type, with at least four bytes of data:
    the [nla_get_u32] of the helpers never reads past the attribute.  The
    same array never holds an attribute under another type than its own. *)
Theorem X20_error_code_has_four_bytes (HZ : Z) (request : sk_buff) (env : rpc_env)
  (st : brc_state) (reply : sk_buff) (tb : attr_table) :
  fst (brc_send_command HZ request env st) = SR_reply reply tb ->
  (forall ec, tb BRC_GENL_A_ERR_CODE = Some ec ->
              4 <= nla_len ec /\ In ec (nlmsg_attrs reply)) /\
  (forall a nla, tb a = Some nla -> nla_type nla = Some a /\ In nla (nlmsg_attrs reply)).
Proof.
  intros Hr. apply brc_send_command_reply_parsed in Hr. subst tb.
  pose proof (nlmsg_parse_checked reply) as Hc. split.
  - intros ec Hec. destruct (Hc _ _ Hec) as (_ & Hval & Hin). split; [|exact Hin].
    unfold validate_nla in Hval. simpl in Hval.
    destruct (Z.ltb_spec (nla_len ec) 4) as [Hlt|Hge]; [|exact Hge].
    unfold ERANGE in Hval. discriminate.
  - intros a nla Ha. destruct (Hc _ _ Ha) as (Hty & _ & Hin). auto.
Qed.

(** An instance of X20: the answered first call of the fresh module. *)
Lemma X20_error_code_has_four_bytes_witness :
  fst (brc_send_command 100 sample_request (env_answer 3 (sample_reply 7 17 [])) st_fresh)
  = SR_reply (sample_reply 7 17 [])
      (snd (nlmsg_parse (sample_reply 7 17 []) brc_genl_policy)) /\
  4 <= nla_len (err_code_attr 17).
Proof.
  assert (E : fst (brc_send_command 100 sample_request
                     (env_answer 3 (sample_reply 7 17 [])) st_fresh)
              = SR_reply (sample_reply 7 17 [])
                  (snd (nlmsg_parse (sample_reply 7 17 []) brc_genl_policy)))
    by reflexivity.
  destruct (X20_error_code_has_four_bytes 100 sample_request
              (env_answer 3 (sample_reply 7 17 [])) st_fresh _ _ E) as [Hec _].
  split; [exact E|]. exact (proj1 (Hec (err_code_attr 17) eq_refl)).
Defined.

(** * A reply that comes too late *)

(** A call that the transport takes and that nothing matching answers in
    time: the result, and what it leaves of the shared state. *)
Lemma brc_send_command_unanswered HZ request env st :
  0 <= multicast_ret env ->
  (forall d, In d (before_send env) ->
             matching_reply (u32 (brc_seq st + 1)) (dl_skb d) = false) ->
  (forall t d, In (t, d) (arrivals env) -> t < BRC_TIMEOUT HZ ->
               matching_reply (u32 (brc_seq st + 1)) (dl_skb d) = false) ->
  fst (brc_send_command HZ request env st) = SR_err (- ETIMEDOUT) /\
  brc_seq (snd (brc_send_command HZ request env st)) = u32 (brc_seq st + 1) /\
  brc_reply (snd (brc_send_command HZ request env st)) = brc_reply st /\
  brc_done (snd (brc_send_command HZ request env st)) = 0.
Proof.
  intros Hmc Hpre Harr.
  rewrite (brc_send_command_after_multicast HZ request env st Hmc). cbv zeta.
  assert (Hsh : same_shared (snd (brc_send_prologue request (mutex_lock st)))
                  (at_multicast request env st)).
  { apply deliver_all_unmatched. exact Hpre. }
  destruct Hsh as (Hs & Hr & Hd). simpl in Hs, Hr, Hd.
  set (s2 := kdo (K_wait_for_completion_timeout (BRC_TIMEOUT HZ))
               (kdo (K_genlmsg_multicast (stamped request st))
                  (at_multicast request env st))).
  assert (Hs2 : brc_seq s2 = u32 (brc_seq st + 1)) by exact Hs.
  assert (Hr2 : brc_reply s2 = brc_reply st) by exact Hr.
  assert (Hd2 : brc_done s2 = 0) by exact Hd.
  clearbody s2.
  destruct (wait_unmatched (BRC_TIMEOUT HZ) (arrivals env) 0 s2)
    as (Hz & Hs' & Hr' & Hd').
  { lia. }
  { rewrite Hs2. exact Harr. }
  destruct (wait_for_completion_timeout (BRC_TIMEOUT HZ) 0 (arrivals env) s2)
    as [left s3]. simpl in Hz, Hs', Hr', Hd'. subst left. simpl.
  repeat split; congruence.
Qed.

Lemma u32_succ2_neq (s : Z) : u32 (s + 2) <> s.
Proof.
  intros H. pose proof (u32_range (s + 2)) as Hr. rewrite H in Hr.
  destruct (Z_lt_ge_dec (s + 2) (2 ^ 32)) as [Hlt|Hge].
  - rewrite u32_small in H by lia. lia.
  - unfold u32 in H.
    assert (E : (s + 2) mod 2 ^ 32 = s + 2 - 2 ^ 32).
    { symmetry. apply Z.mod_unique with (q := 1); lia. }
    lia.
Qed.

(** X21.  Take a call that times out and the reply to it that arrives
    afterwards, well formed and cloned.  The handler accepts that reply into
    the slot; yet the next call, stamped three past the sequence number the
    first call started from, is not completed by it however often the same
    reply is delivered again while the call sends and waits: with nothing
    else arriving the next call times out as well. *)
Theorem X21_late_reply_completes_no_later_call (HZ : Z) (request1 request2 : sk_buff)
  (env1 env2 : rpc_env) (st : brc_state) (late : delivery) :
  0 <= multicast_ret env1 ->
  (forall d, In d (before_send env1) ->
             matching_reply (u32 (brc_seq st + 1)) (dl_skb d) = false) ->
  (forall t d, In (t, d) (arrivals env1) -> t < BRC_TIMEOUT HZ ->
               matching_reply (u32 (brc_seq st + 1)) (dl_skb d) = false) ->
  matching_reply (u32 (brc_seq st + 1)) (dl_skb late) = true ->
  dl_alloc_ok late = true ->
  0 <= multicast_ret env2 ->
  (forall d, In d (before_send env2) -> dl_skb d = dl_skb late) ->
  (forall t d, In (t, d) (arrivals env2) -> dl_skb d = dl_skb late) ->
  fst (brc_send_command HZ request1 env1 st) = SR_err (- ETIMEDOUT) /\
  fst (genl_rcv_msg late (snd (brc_send_command HZ request1 env1 st))) = 0 /\
  brc_reply (snd (genl_rcv_msg late (snd (brc_send_command HZ request1 env1 st))))
  = Some (dl_skb late) /\
  fst (brc_send_command HZ request2 env2
         (snd (genl_rcv_msg late (snd (brc_send_command HZ request1 env1 st)))))
  = SR_err (- ETIMEDOUT) /\
  nlmsg_seq (stamped request2
               (snd (genl_rcv_msg late (snd (brc_send_command HZ request1 env1 st)))))
  = u32 (brc_seq st + 3).
Proof.
  intros Hmc1 Hpre1 Harr1 Hlate Hok Hmc2 Hpre2 Harr2.
  destruct (brc_send_command_unanswered HZ request1 env1 st Hmc1 Hpre1 Harr1)
    as (R1 & S1 & _ & _).
  set (st1 := snd (brc_send_command HZ request1 env1 st)) in *.
  assert (Hacc : genl_rcv_msg late st1 = (0, accepted (dl_skb late) st1)).
  { apply accepted_by_matching; [rewrite S1; exact Hlate | exact Hok]. }
  rewrite Hacc. cbn [fst snd].
  assert (Hseq2 : brc_seq (accepted (dl_skb late) st1) = u32 (brc_seq st + 2)).
  { simpl. rewrite S1, u32_add_l. f_equal. lia. }
  assert (Hnum : nlmsg_seq (dl_skb late) = u32 (brc_seq st + 1)).
  { unfold matching_reply in Hlate. apply andb_true_iff in Hlate.
    destruct Hlate as [_ E]. apply Z.eqb_eq in E. exact E. }
  assert (Hstale : matching_reply (u32 (brc_seq (accepted (dl_skb late) st1) + 1))
                     (dl_skb late) = false).
  { unfold matching_reply. apply andb_false_iff. right. apply Z.eqb_neq.
    rewrite Hnum, Hseq2, u32_add_l.
    replace (brc_seq st + 2 + 1) with (brc_seq st + 1 + 2) by lia.
    rewrite <- (u32_add_l (brc_seq st + 1) 2).
    intros E. symmetry in E. exact (u32_succ2_neq _ E). }
  destruct (brc_send_command_unanswered HZ request2 env2 (accepted (dl_skb late) st1) Hmc2)
    as (R2 & _).
  { intros d Hin. rewrite (Hpre2 d Hin). exact Hstale. }
  { intros t d Hin _. rewrite (Harr2 t d Hin). exact Hstale. }
  split; [exact R1|]. split; [reflexivity|]. split; [reflexivity|].
  split; [exact R2|].
  change (nlmsg_seq (stamped request2 (accepted (dl_skb late) st1)))
    with (u32 (brc_seq (accepted (dl_skb late) st1) + 1)).
  rewrite Hseq2, u32_add_l. f_equal. lia.
Qed.

(** An instance of X21 at HZ = 100: the first call hears nothing, the reply
    numbered 7 comes late, and is delivered twice more during the next
    call. *)
Lemma X21_late_reply_completes_no_later_call_witness :
  0 <= multicast_ret env_silent /\
  matching_reply (u32 (brc_seq st_fresh + 1)) (dl_skb dl_seven) = true /\
  fst (brc_send_command 100 sample_request
         (mk_env [dl_seven] 0 [(4, dl_seven)] [])
         (snd (genl_rcv_msg dl_seven
                 (snd (brc_send_command 100 sample_request env_silent st_fresh)))))
  = SR_err (- ETIMEDOUT).
Proof.
  assert (H0 : 0 <= multicast_ret env_silent) by (vm_compute; congruence).
  assert (Hm : matching_reply (u32 (brc_seq st_fresh + 1)) (dl_skb dl_seven) = true)
    by reflexivity.
  destruct (X21_late_reply_completes_no_later_call 100 sample_request sample_request
              env_silent (mk_env [dl_seven] 0 [(4, dl_seven)] []) st_fresh dl_seven H0)
    as (_ & _ & _ & R & _).
  - intros d [].
  - intros t d [].
  - exact Hm.
  - reflexivity.
  - vm_compute. congruence.
  - intros d [E|[]]. subst d. reflexivity.
  - intros t d [E|[]]. inversion E. reflexivity.
  - split; [exact H0|]. split; [exact Hm | exact R].
Defined.
